(** * mqtt-bus: the MQTT client of package [mqttclient]

    A shallow embedding of [mqttclient/mqttclient.go]: the configuration
    loader ([NewMQTTClient], [loadEnvOverrides]), the client life cycle
    ([Start], [Stop]), the dispatch loop ([handleMessages]) and the two
    publishing entry points ([PublishTestEvent], [PublishEvent]).

    Go's mutable receiver [c *MQTTClient] and the process-wide state
    (environment, UUID source, clock, spawned goroutines) are threaded
    explicitly through a small state monad whose outcomes are a normal
    return, a Go panic, or a goroutine that never resumes.  The libraries
    the package calls
    ([fmt.Sscanf], [toml.DecodeFile], [encoding/json], [uuid], [time],
    the [messaging] bus client) are taken as interfaces; [GoFmt] and
    [GoJSON] follow what Go's [%d] scan and Go's JSON codec compute,
    for the statements that depend on it. *)

From Stdlib Require Import ZArith String Ascii List Lia Bool.
From Stdlib Require Import Strings.Byte DecimalString DecimalFacts.
From Stdlib Require Import DecimalPos DecimalZ.
From stdpp Require Import base option gmap strings.
Import ListNotations.
Open Scope string_scope.
Open Scope Z_scope.

(** Go's [error] values are observed through their [Error()] text only. *)
Definition error := string.

(** [fmt.Errorf(prefix + "%v", err)] and [fmt.Sprintf(prefix + "%s", s)]. *)
Definition fmt_Errorf (prefix : string) (err : error) : error := prefix +:+ err.

(** ** Package [dtos]: the event schema carried in a payload

    Modelled from the spec: the declarations of [dtos.Event],
    [dtos.BaseReading] and [dtos.SimpleReading] belong to
    go-mod-core-contracts and are not part of the repository; the fields
    are those of the specification's data model, which are the ones the
    package and the README's wire format use. *)
Module dtos.

Record SimpleReading := mkSimpleReading { Value : string }.

Module BaseReading.
Record t := mk {
  Id : string;
  DeviceName : string;
  ResourceName : string;
  ProfileName : string;
  Origin : Z;
  ValueType : string;
  SimpleReading : dtos.SimpleReading
}.
End BaseReading.

Module Event.
Record t := mk {
  Id : string;
  DeviceName : string;
  ProfileName : string;
  SourceName : string;
  Origin : Z;
  Readings : list BaseReading.t
}.
End Event.

End dtos.

(** ** Package [types]: envelopes and the bus configuration

    Modelled from the spec: the declarations of go-mod-messaging's
    [types] are not part of the repository; the fields are those the
    package reads and writes. *)
Module types.

Record MessageEnvelope := mkEnvelope {
  ReceivedTopic : string;
  CorrelationID : string;
  Payload : list Byte.byte;
  ContentType : string
}.

Record HostInfo := mkHostInfo {
  Host : string;
  Port : Z;
  Protocol : string
}.

Record MessageBusConfig := mkBusConfig {
  Broker : HostInfo;
  Type_ : string;
  Optional : gmap string string
}.

(** The two inbound channels a client allocates. *)
Inductive Chan := messages | messageErrs.

Record TopicChannel := mkTopicChannel {
  Topic : string;
  Messages : Chan
}.

End types.

(** ** Package [messaging]: the four-method bus client

    Modelled from the spec: the interface [messaging.MessageClient] of
    go-mod-messaging, with the four methods the package calls and the
    constructor [messaging.NewMessageClient]. [B] is the state of the bus
    connection; every method returns the error it reports ([None] for
    [nil]) and the connection afterwards. *)
Module messaging.

Class MessageClient (B : Type) := {
  NewMessageClient : types.MessageBusConfig -> error + B;
  Connect : B -> option error * B;
  Subscribe : list types.TopicChannel -> types.Chan -> B -> option error * B;
  Publish : types.MessageEnvelope -> string -> B -> option error * B;
  Disconnect : B -> option error * B
}.

End messaging.

(** ** [Config] *)

Record Broker_t := mkBroker {
  Host : string;
  Port : Z;
  Protocol : string
}.

Record Config := mkConfig {
  Broker : Broker_t;
  Type_ : string;
  Topic : string;
  ClientID : string;
  Username : string;
  Password : string;
  Publish : bool;
  Interval : Z;
  LogLevel : string;
  EnvPrefix : string
}.

(** Field assignments [cfg.F = v]. *)
Definition set_Host (v : string) (cfg : Config) : Config :=
  mkConfig (mkBroker v (Port (Broker cfg)) (Protocol (Broker cfg)))
    (Type_ cfg) (Topic cfg) (ClientID cfg) (Username cfg) (Password cfg)
    (Publish cfg) (Interval cfg) (LogLevel cfg) (EnvPrefix cfg).
Definition set_Port (v : Z) (cfg : Config) : Config :=
  mkConfig (mkBroker (Host (Broker cfg)) v (Protocol (Broker cfg)))
    (Type_ cfg) (Topic cfg) (ClientID cfg) (Username cfg) (Password cfg)
    (Publish cfg) (Interval cfg) (LogLevel cfg) (EnvPrefix cfg).
Definition set_Protocol (v : string) (cfg : Config) : Config :=
  mkConfig (mkBroker (Host (Broker cfg)) (Port (Broker cfg)) v)
    (Type_ cfg) (Topic cfg) (ClientID cfg) (Username cfg) (Password cfg)
    (Publish cfg) (Interval cfg) (LogLevel cfg) (EnvPrefix cfg).
Definition set_Type (v : string) (cfg : Config) : Config :=
  mkConfig (Broker cfg) v (Topic cfg) (ClientID cfg) (Username cfg)
    (Password cfg) (Publish cfg) (Interval cfg) (LogLevel cfg) (EnvPrefix cfg).
Definition set_Topic (v : string) (cfg : Config) : Config :=
  mkConfig (Broker cfg) (Type_ cfg) v (ClientID cfg) (Username cfg)
    (Password cfg) (Publish cfg) (Interval cfg) (LogLevel cfg) (EnvPrefix cfg).
Definition set_ClientID (v : string) (cfg : Config) : Config :=
  mkConfig (Broker cfg) (Type_ cfg) (Topic cfg) v (Username cfg)
    (Password cfg) (Publish cfg) (Interval cfg) (LogLevel cfg) (EnvPrefix cfg).
Definition set_Username (v : string) (cfg : Config) : Config :=
  mkConfig (Broker cfg) (Type_ cfg) (Topic cfg) (ClientID cfg) v
    (Password cfg) (Publish cfg) (Interval cfg) (LogLevel cfg) (EnvPrefix cfg).
Definition set_Password (v : string) (cfg : Config) : Config :=
  mkConfig (Broker cfg) (Type_ cfg) (Topic cfg) (ClientID cfg) (Username cfg)
    v (Publish cfg) (Interval cfg) (LogLevel cfg) (EnvPrefix cfg).
Definition set_Publish (v : bool) (cfg : Config) : Config :=
  mkConfig (Broker cfg) (Type_ cfg) (Topic cfg) (ClientID cfg) (Username cfg)
    (Password cfg) v (Interval cfg) (LogLevel cfg) (EnvPrefix cfg).
Definition set_Interval (v : Z) (cfg : Config) : Config :=
  mkConfig (Broker cfg) (Type_ cfg) (Topic cfg) (ClientID cfg) (Username cfg)
    (Password cfg) (Publish cfg) v (LogLevel cfg) (EnvPrefix cfg).
Definition set_LogLevel (v : string) (cfg : Config) : Config :=
  mkConfig (Broker cfg) (Type_ cfg) (Topic cfg) (ClientID cfg) (Username cfg)
    (Password cfg) (Publish cfg) (Interval cfg) v (EnvPrefix cfg).

(** ** The process environment: [os.Getenv] reads [""] for an unset name. *)
Definition os_Getenv (environ : gmap string string) (key : string) : string :=
  default "" (environ !! key).

(** ** Library calls of the loader and of the event builder *)

(** A [time.Time] as the package observes it. *)
Record Time := mkTime {
  UnixNano : Z;
  Format_RFC3339 : string
}.

Class Platform := {
  (** what the verb [%d] of [fmt.Sscanf] reads from the input, [None]
      when the scan reports an error *)
  scan_d : string -> option Z;
  (** [toml.DecodeFile path &cfg]: the error, or [cfg] with the keys of
      the document written into it *)
  toml_DecodeFile : string -> Config -> error + Config;
  (** the [n]-th value of [uuid.New().String()] in this process *)
  uuid_New : nat -> string;
  (** the [n]-th reading of [time.Now()] in this process *)
  time_Now : nat -> Time
}.

Class JSONCodec := {
  json_Marshal : dtos.Event.t -> error + list Byte.byte;
  json_Unmarshal : list Byte.byte -> error + dtos.Event.t
}.

(** [fmt.Sscanf(v, "%d", &target)]: the content of [target] afterwards,
    the number of items scanned and the error. A failed scan leaves the
    target as it was. *)
Definition fmt_Sscanf_d `{Platform} (v : string) (target : Z)
  : Z * (Z * option error) :=
  match scan_d v with
  | Some n => (n, (1, None))
  | None => (target, (0, Some "expected integer"))
  end.

(** ** [loadEnvOverrides] *)
Section Loader.
Context `{Platform}.
Variable environ : gmap string string.

Definition env_string (suffix : string) (assign : string -> Config -> Config)
      (cfg : Config) : Config :=
    let v := os_Getenv environ (EnvPrefix cfg +:+ suffix) in
    if negb (String.eqb v "") then assign v cfg else cfg.

Definition env_BROKER_PORT (cfg : Config) : Config :=
    let v := os_Getenv environ (EnvPrefix cfg +:+ "BROKER_PORT") in
    if negb (String.eqb v "") then
      let '(target, (port, err)) := fmt_Sscanf_d v (Port (Broker cfg)) in
      let cfg := set_Port target cfg in
      if bool_decide (err = None) && (port =? 1)
      then set_Port (Port (Broker cfg)) cfg
      else cfg
    else cfg.

Definition env_PUBLISH (cfg : Config) : Config :=
    let v := os_Getenv environ (EnvPrefix cfg +:+ "PUBLISH") in
    if String.eqb v "true" then set_Publish true cfg else cfg.

Definition env_PUBLISH_INTERVAL (cfg : Config) : Config :=
    let v := os_Getenv environ (EnvPrefix cfg +:+ "PUBLISH_INTERVAL") in
    if negb (String.eqb v "") then
      let '(target, (interval, err)) := fmt_Sscanf_d v (Interval cfg) in
      let cfg := set_Interval target cfg in
      if bool_decide (err = None) && (interval =? 1)
      then set_Interval (Interval cfg) cfg
      else cfg
    else cfg.

Definition loadEnvOverrides (cfg : Config) : Config :=
    let cfg := env_string "BROKER_HOST" set_Host cfg in
    let cfg := env_BROKER_PORT cfg in
    let cfg := env_string "BROKER_PROTOCOL" set_Protocol cfg in
    let cfg := env_string "TYPE" set_Type cfg in
    let cfg := env_string "TOPIC" set_Topic cfg in
    let cfg := env_string "CLIENT_ID" set_ClientID cfg in
    let cfg := env_string "USERNAME" set_Username cfg in
    let cfg := env_string "PASSWORD" set_Password cfg in
    let cfg := env_PUBLISH cfg in
    let cfg := env_PUBLISH_INTERVAL cfg in
    let cfg := env_string "LOG_LEVEL" set_LogLevel cfg in
    cfg.

End Loader.

(** ** The client and the process it runs in *)

Inductive LogEntry := Info (msg : string) | Error (msg : string).

(** The functions [Start] and [Stop]'s callers run with [go]. *)
Inductive Goroutine := go_handleMessages | go_startPublishing | go_handleSignals.

(** How a call ends: it returns, it panics, or it never resumes. *)
Inductive Outcome (A : Type) :=
| Ret (a : A)
| Panic (msg : string)
| Blocked.
Arguments Ret {A} a.
Arguments Panic {A} msg.
Arguments Blocked {A}.

(** What one iteration of the dispatch loop's [select] receives. *)
Inductive Recv :=
| RecvErr (err : error)
| RecvMsg (msg : types.MessageEnvelope)
| RecvStop.

(** What one iteration of the publish loop's [select] receives. *)
Inductive Tick := TickC | TickStop.

(** Go's [int64] wrap-around, for [time.Duration] arithmetic. *)
Definition wrap64 (z : Z) : Z := (z + 2 ^ 63) mod 2 ^ 64 - 2 ^ 63.

Section Client.
Context {B : Type} `{MC : messaging.MessageClient B}.
Context `{PF : Platform} `{JC : JSONCodec}.
Context {U : Type}.

(** [func(topic string, event dtos.Event)], acting on the user's state. *)
Definition MessageHandler := string -> dtos.Event.t -> U -> U.

Record MQTTClient := mkClient {
  config : Config;
  logger : list LogEntry;      (* the lines logged so far *)
  messageBus : B;
  stopCh : bool;               (* [true] once the channel is closed *)
  wg : Z;                      (* the wait group's counter *)
  handler : option MessageHandler
}.

Record Process := mkProcess {
  environ : gmap string string;
  uuids : nat;                               (* UUIDs drawn so far *)
  clock : nat;                               (* clock readings so far *)
  goroutines : list Goroutine;               (* running, in spawn order *)
  calls : list (string * dtos.Event.t);      (* callback invocations *)
  user : U
}.

Definition St : Type := MQTTClient * Process.
Definition M (A : Type) : Type := St -> Outcome A * St.

#[local] Instance M_ret : MRet M := fun A a st => (Ret a, st).
#[local] Instance M_bind : MBind M := fun A A' k m st =>
  match m st with
  | (Ret a, st') => k a st'
  | (Panic msg, st') => (Panic msg, st')
  | (Blocked, st') => (Blocked, st')
  end.

Definition get_client : M MQTTClient := fun st => (Ret (fst st), st).
Definition get_process : M Process := fun st => (Ret (snd st), st).
Definition panic {A} (msg : string) : M A := fun st => (Panic msg, st).
Definition block {A} : M A := fun st => (Blocked, st).

Definition set_logger (l : list LogEntry) (c : MQTTClient) : MQTTClient :=
  mkClient (config c) l (messageBus c) (stopCh c) (wg c) (handler c).
Definition set_messageBus (b : B) (c : MQTTClient) : MQTTClient :=
  mkClient (config c) (logger c) b (stopCh c) (wg c) (handler c).
Definition set_stopCh (closed : bool) (c : MQTTClient) : MQTTClient :=
  mkClient (config c) (logger c) (messageBus c) closed (wg c) (handler c).
Definition set_wg (n : Z) (c : MQTTClient) : MQTTClient :=
  mkClient (config c) (logger c) (messageBus c) (stopCh c) n (handler c).

Definition set_uuids (n : nat) (p : Process) : Process :=
  mkProcess (environ p) n (clock p) (goroutines p) (calls p) (user p).
Definition set_clock (n : nat) (p : Process) : Process :=
  mkProcess (environ p) (uuids p) n (goroutines p) (calls p) (user p).
Definition set_goroutines (gs : list Goroutine) (p : Process) : Process :=
  mkProcess (environ p) (uuids p) (clock p) gs (calls p) (user p).
Definition set_called (cs : list (string * dtos.Event.t)) (u : U)
    (p : Process) : Process :=
  mkProcess (environ p) (uuids p) (clock p) (goroutines p) cs u.

Definition modify_client (f : MQTTClient -> MQTTClient) : M unit :=
  fun st => (Ret tt, (f (fst st), snd st)).
Definition modify_process (f : Process -> Process) : M unit :=
  fun st => (Ret tt, (fst st, f (snd st))).

(** [c.logger.Info(msg)] and [c.logger.Error(msg)]. *)
Definition logger_Info (msg : string) : M unit :=
  modify_client (fun c => set_logger (logger c ++ [Info msg]) c).
Definition logger_Error (msg : string) : M unit :=
  modify_client (fun c => set_logger (logger c ++ [Error msg]) c).

(** A call [c.messageBus.m(...)]. *)
Definition bus_call (m : B -> option error * B) : M (option error) :=
  fun st =>
    let '(err, b) := m (messageBus (fst st)) in
    (Ret err, (set_messageBus b (fst st), snd st)).

(** [uuid.New().String()] and [time.Now()]. *)
Definition uuid_New_String : M string := fun st =>
  (Ret (uuid_New (uuids (snd st))),
   (fst st, set_uuids (S (uuids (snd st))) (snd st))).
Definition time_Now_ : M Time := fun st =>
  (Ret (time_Now (clock (snd st))),
   (fst st, set_clock (S (clock (snd st))) (snd st))).

(** [c.wg.Add(n)], [c.wg.Done()] and the statement [go f()]. *)
Definition wg_Add (n : Z) : M unit :=
  modify_client (fun c => set_wg (wg c + n) c).
Definition wg_Done : M unit :=
  c ← get_client;
  if wg c - 1 <? 0 then panic "sync: negative WaitGroup counter"
  else modify_client (set_wg (wg c - 1)).
Definition go (g : Goroutine) : M unit :=
  modify_process (fun p => set_goroutines (goroutines p ++ [g]) p).

(** [c.handler(topic, event)]. *)
Definition call_handler (h : MessageHandler) (topic : string)
    (event : dtos.Event.t) : M unit :=
  modify_process (fun p =>
    set_called (calls p ++ [(topic, event)]) (h topic event (user p)) p).

(** ** [NewMQTTClient] *)
Definition defaultConfig (clientUUID : string) : Config :=
  mkConfig (mkBroker "localhost" 1883 "tcp")
    "mqtt" "edgex/events/#" ("EdgeXClient-" +:+ clientUUID) "" ""
    false 10 "INFO" "EDGEX_".

Definition busConfigOf (cfg : Config) : types.MessageBusConfig :=
  let busConfig :=
    types.mkBusConfig
      (types.mkHostInfo (Host (Broker cfg)) (Port (Broker cfg))
                        (Protocol (Broker cfg)))
      (Type_ cfg)
      {[ "ClientId" := ClientID cfg ]} in
  let busConfig :=
    if negb (String.eqb (Username cfg) "") then
      types.mkBusConfig (types.Broker busConfig) (types.Type_ busConfig)
        (<["Username" := Username cfg]> (types.Optional busConfig))
    else busConfig in
  let busConfig :=
    if negb (String.eqb (Password cfg) "") then
      types.mkBusConfig (types.Broker busConfig) (types.Type_ busConfig)
        (<["Password" := Password cfg]> (types.Optional busConfig))
    else busConfig in
  busConfig.

Definition NewMQTTClient (configPath : string)
    (handler : option MessageHandler) (p : Process)
  : (error + MQTTClient) * Process :=
  let cfg := defaultConfig (uuid_New (uuids p)) in
  let p := set_uuids (S (uuids p)) p in
  match (if negb (String.eqb configPath "")
         then toml_DecodeFile configPath cfg else inr cfg) with
  | inl err => (inl (fmt_Errorf "读取配置文件失败: " err), p)
  | inr cfg =>
      let cfg := loadEnvOverrides (environ p) cfg in
      let lc : list LogEntry := [] in
      match messaging.NewMessageClient (busConfigOf cfg) with
      | inl err => (inl (fmt_Errorf "创建消息客户端失败: " err), p)
      | inr messageBus =>
          (inr (mkClient cfg lc messageBus false 0 handler), p)
      end
  end.

(** ** [PublishTestEvent] and [PublishEvent] *)
Definition PublishTestEvent (topic : string) : M (option error) :=
  id ← uuid_New_String;
  t0 ← time_Now_;
  rid ← uuid_New_String;
  t1 ← time_Now_;
  t2 ← time_Now_;
  let event :=
    {| dtos.Event.Id := id;
       dtos.Event.DeviceName := "TestDevice";
       dtos.Event.ProfileName := "TestProfile";
       dtos.Event.SourceName := "TestSource";
       dtos.Event.Origin := UnixNano t0;
       dtos.Event.Readings :=
         [ {| dtos.BaseReading.Id := rid;
              dtos.BaseReading.DeviceName := "TestDevice";
              dtos.BaseReading.ResourceName := "TestResource";
              dtos.BaseReading.ProfileName := "TestProfile";
              dtos.BaseReading.Origin := UnixNano t1;
              dtos.BaseReading.ValueType := "String";
              dtos.BaseReading.SimpleReading :=
                {| dtos.Value := "Test value at " +:+ Format_RFC3339 t2 |}
           |} ]
    |} in
  match json_Marshal event with
  | inl err => mret (Some (fmt_Errorf "序列化事件失败: " err))
  | inr payload =>
      cid ← uuid_New_String;
      let msgEnvelope := types.mkEnvelope "" cid payload "application/json" in
      err ← bus_call (messaging.Publish msgEnvelope topic);
      match err with
      | Some err => mret (Some (fmt_Errorf "发布消息失败: " err))
      | None =>
          logger_Info ("成功发布测试事件到主题 " +:+ topic +:+ ", 事件ID: "
                         +:+ dtos.Event.Id event);;
          mret None
      end
  end.

Definition PublishEvent (event : dtos.Event.t) (topic : string)
  : M (option error) :=
  match json_Marshal event with
  | inl err => mret (Some (fmt_Errorf "序列化事件失败: " err))
  | inr payload =>
      cid ← uuid_New_String;
      let msgEnvelope := types.mkEnvelope "" cid payload "application/json" in
      err ← bus_call (messaging.Publish msgEnvelope topic);
      match err with
      | Some err => mret (Some (fmt_Errorf "发布消息失败: " err))
      | None =>
          logger_Info ("成功发布事件到主题 " +:+ topic +:+ ", 事件ID: "
                         +:+ dtos.Event.Id event);;
          mret None
      end
  end.

(** ** [Start] *)
Definition Start : M (option error) :=
  err ← bus_call messaging.Connect;
  match err with
  | Some err => mret (Some (fmt_Errorf "连接消息总线失败: " err))
  | None =>
      logger_Info "成功连接到MQTT消息总线";;
      c ← get_client;
      let topics := [types.mkTopicChannel (Topic (config c)) types.messages] in
      err ← bus_call (messaging.Subscribe topics types.messageErrs);
      match err with
      | Some err => mret (Some (fmt_Errorf "订阅消息失败: " err))
      | None =>
          logger_Info ("成功订阅主题: " +:+ Topic (config c));;
          wg_Add 1;;
          go go_handleMessages;;
          (if Publish (config c)
           then wg_Add 1;; go go_startPublishing
           else mret tt);;
          go go_handleSignals;;
          mret None
      end
  end.

(** ** [handleMessages]

    The loop is driven by what its [select] receives, in order. The stop
    case can only be taken once [stopCh] is closed; a loop that has used
    up what it was sent waits in [select]. *)
Definition handleMessage (msg : types.MessageEnvelope) : M unit :=
  logger_Info ("收到消息 - 主题: " +:+ types.ReceivedTopic msg
                 +:+ ", 关联ID: " +:+ types.CorrelationID msg);;
  if negb (String.eqb (types.ContentType msg) "application/json") then
    logger_Error ("无效的内容类型: 收到 " +:+ types.ContentType msg
                    +:+ ", 期望 application/json")
  else
    match json_Unmarshal (types.Payload msg) with
    | inl err => logger_Error (fmt_Errorf "解析事件失败: " err)
    | inr event =>
        c ← get_client;
        match handler c with
        | Some h => call_handler h (types.ReceivedTopic msg) event
        | None => mret tt
        end
    end.

Fixpoint handleMessages (inbox : list Recv) : M unit :=
  match inbox with
  | [] => block
  | RecvErr err :: inbox =>
      logger_Error (fmt_Errorf "接收消息错误: " err);;
      handleMessages inbox
  | RecvMsg msg :: inbox =>
      handleMessage msg;;
      handleMessages inbox
  | RecvStop :: _ =>
      c ← get_client;
      if stopCh c then wg_Done else block
  end.

(** ** [startPublishing] *)
Definition time_NewTicker (d : Z) : M unit :=
  if d <=? 0 then panic "non-positive interval for NewTicker" else mret tt.

Fixpoint publishTicks (ticks : list Tick) : M unit :=
  match ticks with
  | [] => block
  | TickC :: ticks =>
      err ← PublishTestEvent "edgex/events/test";
      (match err with
       | Some err => logger_Error err
       | None => mret tt
       end);;
      publishTicks ticks
  | TickStop :: _ =>
      c ← get_client;
      if stopCh c then wg_Done else block
  end.

(** A deferred call while a panic unwinds: the panic goes on after it,
    unless the deferred call panics itself. *)
Definition unwinding {A} (deferred : M unit) (body : M A) : M A := fun st =>
  match body st with
  | (Panic msg, st') =>
      match deferred st' with
      | (Ret _, st'') => (Panic msg, st'')
      | (Panic msg', st'') => (Panic msg', st'')
      | (Blocked, st'') => (Blocked, st'')
      end
  | returned => returned
  end.

(** [defer c.wg.Done()] is registered before the ticker is made: it runs
    while the panic of [time.NewTicker] unwinds, and when the loop
    returns, which [publishTicks] does in its stop case. *)
Definition startPublishing (ticks : list Tick) : M unit :=
  c ← get_client;
  unwinding wg_Done
    (time_NewTicker (wrap64 (Interval (config c) * 1000000000)));;
  publishTicks ticks.

(** ** [Stop] *)

(** [close(c.stopCh)]: closing a closed channel panics. *)
Definition close_stopCh : M unit :=
  c ← get_client;
  if stopCh c then panic "close of closed channel"
  else modify_client (set_stopCh true).

(** [c.wg.Wait()]: the goroutines counted in the wait group run to
    their stop case and return, or panic on the way; [Wait] returns once
    the counter is zero. *)
Fixpoint join (gs : list Goroutine) : M unit :=
  match gs with
  | [] => mret tt
  | go_handleMessages :: gs => handleMessages [RecvStop];; join gs
  | go_startPublishing :: gs => startPublishing [TickStop];; join gs
  | go_handleSignals :: gs => join gs
  end.

Definition is_signal_watcher (g : Goroutine) : bool :=
  match g with go_handleSignals => true | _ => false end.

Definition wg_Wait : M unit :=
  p ← get_process;
  join (goroutines p);;
  modify_process (fun p =>
    set_goroutines (List.filter is_signal_watcher (goroutines p)) p);;
  c ← get_client;
  if wg c =? 0 then mret tt else block.

Definition Stop : M unit :=
  close_stopCh;;
  err ← bus_call messaging.Disconnect;
  (match err with
   | Some err => logger_Error (fmt_Errorf "断开消息总线失败: " err)
   | None => mret tt
   end);;
  wg_Wait;;
  logger_Info "MQTT客户端已停止".

(** ** [handleSignals], from the delivery of SIGINT or SIGTERM on *)
Definition handleSignals : M unit :=
  logger_Info "收到终止信号，正在停止...";;
  Stop.

(** ** [receive-test/receive.go], from the delivery of the signal on:
    the client's own watcher and [main], which registered for the same
    signals, both call [Stop]; here the watcher runs first. *)
Definition receive_test_on_signal : M unit :=
  handleSignals;;
  Stop.

End Client.

Arguments MQTTClient : clear implicits.
Arguments Process : clear implicits.
Arguments St : clear implicits.

(** ** Go's [%d] scan

    [fmt.Sscanf(v, "%d", &x)] skips leading blanks (a newline is an
    error), accepts one sign, requires a decimal digit and reads digits
    for as long as there are some; what follows the digits is left
    unread and is no error. The value must fit Go's 64-bit [int].
    The scan reads runes; a string is its bytes here, so the blanks of
    fmt's table beyond ASCII appear as the bytes of their UTF-8
    encoding: U+0085 and U+00A0 in two bytes, U+1680, U+2000 to U+200A,
    U+2028, U+2029, U+202F, U+205F and U+3000 in three. *)
Module GoFmt.

Definition isSpace (a : ascii) : bool :=
  match nat_of_ascii a with
  | 9%nat | 11%nat | 12%nat | 13%nat | 32%nat => true
  | _ => false
  end.

Definition isSpace2 (a b : ascii) : bool :=
  Ascii.eqb a "194"%char
  && (Ascii.eqb b "133"%char || Ascii.eqb b "160"%char).

Definition isSpace3 (a b c : ascii) : bool :=
  (Ascii.eqb a "225"%char && Ascii.eqb b "154"%char && Ascii.eqb c "128"%char)
  || (Ascii.eqb a "226"%char && Ascii.eqb b "128"%char
      && ((128 <=? Z.of_nat (nat_of_ascii c))
          && (Z.of_nat (nat_of_ascii c) <=? 138)
          || Ascii.eqb c "168"%char || Ascii.eqb c "169"%char
          || Ascii.eqb c "175"%char))
  || (Ascii.eqb a "226"%char && Ascii.eqb b "129"%char && Ascii.eqb c "159"%char)
  || (Ascii.eqb a "227"%char && Ascii.eqb b "128"%char && Ascii.eqb c "128"%char).

Fixpoint SkipSpace (s : string) : option string :=
  match s with
  | String a rest =>
      if Ascii.eqb a "010"%char then None
      else if isSpace a then SkipSpace rest
      else
        match rest with
        | String b rest2 =>
            if isSpace2 a b then SkipSpace rest2
            else
              match rest2 with
              | String c rest3 =>
                  if isSpace3 a b c then SkipSpace rest3 else Some s
              | EmptyString => Some s
              end
        | EmptyString => Some s
        end
  | EmptyString => Some s
  end.

Definition digit (a : ascii) : option Z :=
  let n := Z.of_nat (nat_of_ascii a) in
  if (48 <=? n) && (n <=? 57) then Some (n - 48) else None.

Fixpoint scanNumber (s : string) (acc : Z) : Z :=
  match s with
  | String a rest =>
      match digit a with
      | Some d => scanNumber rest (acc * 10 + d)
      | None => acc
      end
  | EmptyString => acc
  end.

Definition accept_sign (s : string) : bool * string :=
  match s with
  | String a rest =>
      if Ascii.eqb a "-"%char then (true, rest)
      else if Ascii.eqb a "+"%char then (false, rest)
      else (false, s)
  | EmptyString => (false, s)
  end.

(** The sign and the digits, where the blanks end. *)
Definition scanSigned (s : string) : option Z :=
  let '(neg, s) := accept_sign s in
  match s with
  | String a _ =>
      match digit a with
      | Some _ =>
          let n := scanNumber s 0 in
          let i := if neg then - n else n in
          if (- 2 ^ 63 <=? i) && (i <? 2 ^ 63) then Some i else None
      | None => None
      end
  | EmptyString => None
  end.

Definition scanInt (v : string) : option Z :=
  match SkipSpace v with
  | None => None
  | Some s => scanSigned s
  end.

(** A well-formed integer: an optional sign and one or more decimal
    digits, and nothing else. *)
Fixpoint all_digits (s : string) : bool :=
  match s with
  | String a rest => bool_decide (is_Some (digit a)) && all_digits rest
  | EmptyString => true
  end.

Definition well_formed_integer (v : string) : bool :=
  let '(_, s) := accept_sign v in
  negb (String.eqb s EmptyString) && all_digits s.

End GoFmt.

(** ** An in-memory bus: it records the calls it receives, and fails
    the ones it is told to fail. *)
Module FakeBus.

Inductive Call :=
| Connect
| Subscribe (topics : list types.TopicChannel) (errs : types.Chan)
| Publish (msg : types.MessageEnvelope) (topic : string)
| Disconnect.

Record t := mk {
  bus_config : types.MessageBusConfig;
  received : list Call;
  fail_Connect : option error;
  fail_Subscribe : option error;
  fail_Publish : option error;
  fail_Disconnect : option error
}.

Definition record (c : Call) (b : t) : t :=
  mk (bus_config b) (received b ++ [c]) (fail_Connect b) (fail_Subscribe b)
     (fail_Publish b) (fail_Disconnect b).

Definition failing (fc fs fp fd : option error) (b : t) : t :=
  mk (bus_config b) (received b) fc fs fp fd.

Definition New (cfg : types.MessageBusConfig) : error + t :=
  if String.eqb (types.Type_ cfg) "mqtt"
  then inr (mk cfg [] None None None None)
  else inl ("unknown message type '" +:+ types.Type_ cfg +:+ "' requested").

#[export] Instance client : messaging.MessageClient t := {|
  messaging.NewMessageClient := New;
  messaging.Connect b := (fail_Connect b, record Connect b);
  messaging.Subscribe topics errs b :=
    (fail_Subscribe b, record (Subscribe topics errs) b);
  messaging.Publish msg topic b := (fail_Publish b, record (Publish msg topic) b);
  messaging.Disconnect b := (fail_Disconnect b, record Disconnect b)
|}.

Definition is_Disconnect (c : Call) : bool :=
  match c with Disconnect => true | _ => false end.

Definition count_Disconnect (b : t) : nat :=
  length (List.filter is_Disconnect (received b)).

End FakeBus.

(** ** A codec for the wire format of the README

    [{"id":..,"deviceName":..,"profileName":..,"sourceName":..,
      "origin":N,"readings":[{"id":..,"deviceName":..,"resourceName":..,
      "profileName":..,"origin":N,"valueType":..,"value":..}]}]
    printed without blanks; the reader accepts what the printer prints.
    It stands for [encoding/json] where a concrete codec is needed. *)
Module WireJSON.

Definition dquote : ascii := "034"%char.
Definition backslash : ascii := "092"%char.

Fixpoint escape (s : string) : string :=
  match s with
  | EmptyString => EmptyString
  | String a rest =>
      if Ascii.eqb a dquote || Ascii.eqb a backslash
      then String backslash (String a (escape rest))
      else String a (escape rest)
  end.

Definition quoted (s : string) : string :=
  String dquote (escape s) +:+ String dquote EmptyString.

Definition key (name : string) : string := quoted name +:+ ":".

Definition print_int (z : Z) : string := NilZero.string_of_int (Z.to_int z).

Definition print_reading (r : dtos.BaseReading.t) : string :=
  "{" +:+ key "id" +:+ quoted (dtos.BaseReading.Id r)
  +:+ "," +:+ key "deviceName" +:+ quoted (dtos.BaseReading.DeviceName r)
  +:+ "," +:+ key "resourceName" +:+ quoted (dtos.BaseReading.ResourceName r)
  +:+ "," +:+ key "profileName" +:+ quoted (dtos.BaseReading.ProfileName r)
  +:+ "," +:+ key "origin" +:+ print_int (dtos.BaseReading.Origin r)
  +:+ "," +:+ key "valueType" +:+ quoted (dtos.BaseReading.ValueType r)
  +:+ "," +:+ key "value"
  +:+ quoted (dtos.Value (dtos.BaseReading.SimpleReading r))
  +:+ "}".

Fixpoint print_readings (rs : list dtos.BaseReading.t) : string :=
  match rs with
  | [] => EmptyString
  | [r] => print_reading r
  | r :: rs => print_reading r +:+ "," +:+ print_readings rs
  end.

Definition print_event (e : dtos.Event.t) : string :=
  "{" +:+ key "id" +:+ quoted (dtos.Event.Id e)
  +:+ "," +:+ key "deviceName" +:+ quoted (dtos.Event.DeviceName e)
  +:+ "," +:+ key "profileName" +:+ quoted (dtos.Event.ProfileName e)
  +:+ "," +:+ key "sourceName" +:+ quoted (dtos.Event.SourceName e)
  +:+ "," +:+ key "origin" +:+ print_int (dtos.Event.Origin e)
  +:+ "," +:+ key "readings" +:+ "[" +:+ print_readings (dtos.Event.Readings e)
  +:+ "]}".

(** Readers: the value read and the input left. *)
Definition expect (lit : string) (s : string) : option string :=
  if String.prefix lit s
  then Some (String.substring (String.length lit)
               (String.length s - String.length lit) s)
  else None.

Fixpoint read_chars (s : string) : option (string * string) :=
  match s with
  | EmptyString => None
  | String a rest =>
      if Ascii.eqb a dquote then Some (EmptyString, rest)
      else if Ascii.eqb a backslash then
        match rest with
        | String b rest' =>
            '(v, r) ← read_chars rest'; Some (String b v, r)
        | EmptyString => None
        end
      else '(v, r) ← read_chars rest; Some (String a v, r)
  end.

Definition read_quoted (s : string) : option (string * string) :=
  s ← expect (String dquote EmptyString) s; read_chars s.

Fixpoint span_digits (s : string) : string * string :=
  match s with
  | String a rest =>
      if bool_decide (is_Some (GoFmt.digit a))
      then let '(ds, r) := span_digits rest in (String a ds, r)
      else (EmptyString, s)
  | EmptyString => (EmptyString, s)
  end.

Definition read_int (s : string) : option (Z * string) :=
  let '(neg, s) := match expect "-" s with
                   | Some r => (true, r)
                   | None => (false, s)
                   end in
  let '(ds, r) := span_digits s in
  if String.eqb ds EmptyString then None
  else let n := GoFmt.scanNumber ds 0 in Some (if neg then - n else n, r).

Definition string_field (name : string) (s : string) : option (string * string) :=
  s ← expect (key name) s; read_quoted s.

Definition int_field (name : string) (s : string) : option (Z * string) :=
  s ← expect (key name) s; read_int s.

Definition read_reading (s : string) : option (dtos.BaseReading.t * string) :=
  s ← expect "{" s;
  '(id, s) ← string_field "id" s; s ← expect "," s;
  '(dev, s) ← string_field "deviceName" s; s ← expect "," s;
  '(res, s) ← string_field "resourceName" s; s ← expect "," s;
  '(prof, s) ← string_field "profileName" s; s ← expect "," s;
  '(origin, s) ← int_field "origin" s; s ← expect "," s;
  '(vt, s) ← string_field "valueType" s; s ← expect "," s;
  '(v, s) ← string_field "value" s;
  s ← expect "}" s;
  Some (dtos.BaseReading.mk id dev res prof origin vt (dtos.mkSimpleReading v), s).

Fixpoint read_more (fuel : nat) (s : string)
  : option (list dtos.BaseReading.t * string) :=
  match fuel with
  | O => None
  | S fuel =>
      '(r, s) ← read_reading s;
      match expect "," s with
      | Some s => '(rs, s) ← read_more fuel s; Some (r :: rs, s)
      | None => s ← expect "]" s; Some ([r], s)
      end
  end.

Definition read_readings (s : string)
  : option (list dtos.BaseReading.t * string) :=
  s ← expect "[" s;
  match expect "]" s with
  | Some s => Some ([], s)
  | None => read_more (String.length s) s
  end.

Definition read_event (s : string) : option dtos.Event.t :=
  s ← expect "{" s;
  '(id, s) ← string_field "id" s; s ← expect "," s;
  '(dev, s) ← string_field "deviceName" s; s ← expect "," s;
  '(prof, s) ← string_field "profileName" s; s ← expect "," s;
  '(src, s) ← string_field "sourceName" s; s ← expect "," s;
  '(origin, s) ← int_field "origin" s; s ← expect "," s;
  s ← expect (key "readings") s;
  '(rs, s) ← read_readings s;
  s ← expect "}" s;
  if String.eqb s EmptyString
  then Some (dtos.Event.mk id dev prof src origin rs)
  else None.

#[export] Instance codec : JSONCodec := {|
  json_Marshal e := inr (list_byte_of_string (print_event e));
  json_Unmarshal payload :=
    match read_event (string_of_list_byte payload) with
    | Some e => inr e
    | None => inl "invalid character in JSON input"
    end
|}.

End WireJSON.

(** ** Go's [encoding/json] on the event schema

    [json.Marshal] writes an event as one compact object, the members in
    the order of the struct's fields and under the names of the README's
    wire format; it does not fail on this schema. A string is written
    by [appendString]: the bytes that are safe in HTML as they are,
    the quote and the backslash behind a backslash, backspace, form
    feed, newline, carriage return and tab as their two-character
    escapes, the other control characters and the three characters
    less-than, greater-than and ampersand as [\u00XX], the line and
    paragraph separators as [\u2028] and [\u2029], every other
    well-formed UTF-8 sequence as it is, and every byte that begins no
    well-formed sequence as [\ufffd]. An integer is written in decimal.
    A nil slice and an empty one are the same list here.

    [json.Unmarshal] is followed on compact documents whose members come
    in that order; [unquote] reads a string with all its escapes,
    surrogate pairs included, and replaces what is not well-formed
    UTF-8 by U+FFFD; an integer is a JSON number without fraction and
    exponent that fits 64 bits. *)
Module GoJSON.

Definition dquote : ascii := "034"%char.
Definition backslash : ascii := "092"%char.

Definition byte_of (a : ascii) : Z := Z.of_nat (nat_of_ascii a).
Definition byte (z : Z) : ascii := ascii_of_nat (Z.to_nat z).
Definition between (lo hi : Z) (a : ascii) : bool :=
  (lo <=? byte_of a) && (byte_of a <=? hi).

(** *** Package [unicode/utf8] *)

Definition continuation : ascii -> bool := between 128 191.

Definition second_of_three (a b : ascii) : bool :=
  if Ascii.eqb a "224"%char then between 160 191 b
  else if Ascii.eqb a "237"%char then between 128 159 b
  else continuation b.

Definition second_of_four (a b : ascii) : bool :=
  if Ascii.eqb a "240"%char then between 144 191 b
  else if Ascii.eqb a "244"%char then between 128 143 b
  else continuation b.

Definition valid2 (a b : ascii) : bool :=
  between 194 223 a && continuation b.
Definition valid3 (a b c : ascii) : bool :=
  between 224 239 a && second_of_three a b && continuation c.
Definition valid4 (a b c d : ascii) : bool :=
  between 240 244 a && second_of_four a b && continuation c && continuation d.

(** [utf8.DecodeRuneInString], as the number of bytes of the well-formed
    sequence at the head of the string; 0 stands for [RuneError] of
    width 1, the answer for a byte that begins none. *)
Definition rune_width (s : string) : nat :=
  match s with
  | EmptyString => 0%nat
  | String a r1 =>
      if byte_of a <? 128 then 1%nat
      else
        match r1 with
        | String b r2 =>
            if valid2 a b then 2%nat
            else
              match r2 with
              | String c r3 =>
                  if valid3 a b c then 3%nat
                  else
                    match r3 with
                    | String d _ => if valid4 a b c d then 4%nat else 0%nat
                    | EmptyString => 0%nat
                    end
              | EmptyString => 0%nat
              end
        | EmptyString => 0%nat
        end
  end.

(** U+FFFD in UTF-8. *)
Definition replacement : string :=
  String "239" (String "191" (String "189" EmptyString)).

(** [utf8.ValidString]. *)
Fixpoint Valid (s : string) : bool :=
  match s with
  | EmptyString => true
  | String a r1 =>
      match rune_width s, r1 with
      | 1%nat, _ => Valid r1
      | 2%nat, String _ r2 => Valid r2
      | 3%nat, String _ (String _ r3) => Valid r3
      | 4%nat, String _ (String _ (String _ r4)) => Valid r4
      | _, _ => false
      end
  end.

(** [strings.ToValidUTF8] with U+FFFD as the replacement: what a
    string is once every byte outside a well-formed sequence has become
    U+FFFD. *)
Fixpoint ToValidUTF8 (s : string) : string :=
  match s with
  | EmptyString => EmptyString
  | String a r1 =>
      match rune_width s, r1 with
      | 1%nat, _ => String a (ToValidUTF8 r1)
      | 2%nat, String b r2 => String a (String b (ToValidUTF8 r2))
      | 3%nat, String b (String c r3) =>
          String a (String b (String c (ToValidUTF8 r3)))
      | 4%nat, String b (String c (String d r4)) =>
          String a (String b (String c (String d (ToValidUTF8 r4))))
      | _, _ => replacement +:+ ToValidUTF8 r1
      end
  end.

(** [utf8.EncodeRune]. *)
Definition EncodeRune (r : Z) : string :=
  if r <? 128 then String (byte r) EmptyString
  else if r <? 2048 then
    String (byte (Z.lor 192 (Z.shiftr r 6)))
      (String (byte (Z.lor 128 (Z.land r 63))) EmptyString)
  else if (55296 <=? r) && (r <=? 57343) then replacement
  else if r <? 65536 then
    String (byte (Z.lor 224 (Z.shiftr r 12)))
      (String (byte (Z.lor 128 (Z.land (Z.shiftr r 6) 63)))
         (String (byte (Z.lor 128 (Z.land r 63))) EmptyString))
  else if r <=? 1114111 then
    String (byte (Z.lor 240 (Z.shiftr r 18)))
      (String (byte (Z.lor 128 (Z.land (Z.shiftr r 12) 63)))
         (String (byte (Z.lor 128 (Z.land (Z.shiftr r 6) 63)))
            (String (byte (Z.lor 128 (Z.land r 63))) EmptyString)))
  else replacement.

(** *** Writing *)

(** The digits of [hex] in encode.go. *)
Definition hex (n : Z) : ascii :=
  if n <? 10 then byte (48 + n) else byte (87 + n).

Definition htmlSafe (a : ascii) : bool :=
  between 32 127 a
  && negb (Ascii.eqb a dquote || Ascii.eqb a backslash
           || Ascii.eqb a "<"%char || Ascii.eqb a ">"%char
           || Ascii.eqb a "&"%char).

(** What [appendString] writes for one byte below 0x80. *)
Definition escape_byte (a : ascii) : string :=
  if htmlSafe a then String a EmptyString
  else if Ascii.eqb a backslash || Ascii.eqb a dquote
  then String backslash (String a EmptyString)
  else if Ascii.eqb a "008"%char then "\b"
  else if Ascii.eqb a "012"%char then "\f"
  else if Ascii.eqb a "010"%char then "\n"
  else if Ascii.eqb a "013"%char then "\r"
  else if Ascii.eqb a "009"%char then "\t"
  else "\u00" +:+ String (hex (Z.shiftr (byte_of a) 4))
                   (String (hex (Z.land (byte_of a) 15)) EmptyString).

(** U+2028 and U+2029, as the bytes E2 80 A8 and E2 80 A9. *)
Definition is_separator (a b c : ascii) : bool :=
  Ascii.eqb a "226"%char && Ascii.eqb b "128"%char
  && (Ascii.eqb c "168"%char || Ascii.eqb c "169"%char).

(** [appendString] between its two quotes. *)
Fixpoint escape (s : string) : string :=
  match s with
  | EmptyString => EmptyString
  | String a r1 =>
      match rune_width s, r1 with
      | 1%nat, _ => escape_byte a +:+ escape r1
      | 2%nat, String b r2 => String a (String b (escape r2))
      | 3%nat, String b (String c r3) =>
          if is_separator a b c
          then "\u202" +:+ String (hex (Z.land (byte_of c) 15)) (escape r3)
          else String a (String b (String c (escape r3)))
      | 4%nat, String b (String c (String d r4)) =>
          String a (String b (String c (String d (escape r4))))
      | _, _ => "\ufffd" +:+ escape r1
      end
  end.

Definition appendString (s : string) : string :=
  String dquote (escape s +:+ String dquote EmptyString).

Definition key (name : string) : string := appendString name +:+ ":".

(** [strconv.AppendInt(_, z, 10)]. *)
Definition AppendInt (z : Z) : string := NilZero.string_of_int (Z.to_int z).

Definition print_reading (r : dtos.BaseReading.t) : string :=
  "{" +:+ key "id" +:+ appendString (dtos.BaseReading.Id r)
  +:+ "," +:+ key "deviceName" +:+ appendString (dtos.BaseReading.DeviceName r)
  +:+ "," +:+ key "resourceName"
  +:+ appendString (dtos.BaseReading.ResourceName r)
  +:+ "," +:+ key "profileName"
  +:+ appendString (dtos.BaseReading.ProfileName r)
  +:+ "," +:+ key "origin" +:+ AppendInt (dtos.BaseReading.Origin r)
  +:+ "," +:+ key "valueType" +:+ appendString (dtos.BaseReading.ValueType r)
  +:+ "," +:+ key "value"
  +:+ appendString (dtos.Value (dtos.BaseReading.SimpleReading r))
  +:+ "}".

Fixpoint print_readings (rs : list dtos.BaseReading.t) : string :=
  match rs with
  | [] => EmptyString
  | [r] => print_reading r
  | r :: rs => print_reading r +:+ "," +:+ print_readings rs
  end.

Definition print_event (e : dtos.Event.t) : string :=
  "{" +:+ key "id" +:+ appendString (dtos.Event.Id e)
  +:+ "," +:+ key "deviceName" +:+ appendString (dtos.Event.DeviceName e)
  +:+ "," +:+ key "profileName" +:+ appendString (dtos.Event.ProfileName e)
  +:+ "," +:+ key "sourceName" +:+ appendString (dtos.Event.SourceName e)
  +:+ "," +:+ key "origin" +:+ AppendInt (dtos.Event.Origin e)
  +:+ "," +:+ key "readings" +:+ "[" +:+ print_readings (dtos.Event.Readings e)
  +:+ "]" +:+ "}".

(** *** Reading: the value read and the input left *)

Fixpoint expect (lit s : string) : option string :=
  match lit with
  | EmptyString => Some s
  | String a lit =>
      match s with
      | String b s => if Ascii.eqb a b then expect lit s else None
      | EmptyString => None
      end
  end.

Definition hex_value (a : ascii) : option Z :=
  if between 48 57 a then Some (byte_of a - 48)
  else if between 97 102 a then Some (byte_of a - 87)
  else if between 65 70 a then Some (byte_of a - 55)
  else None.

(** [getu4], behind the backslash and the u. *)
Definition getu4 (h1 h2 h3 h4 : ascii) : option Z :=
  d1 ← hex_value h1; d2 ← hex_value h2;
  d3 ← hex_value h3; d4 ← hex_value h4;
  Some (((d1 * 16 + d2) * 16 + d3) * 16 + d4).

Definition IsSurrogate (r : Z) : bool := (55296 <=? r) && (r <? 57344).

(** [utf16.DecodeRune]: the rune of a surrogate pair, if it is one. *)
Definition utf16_DecodeRune (r1 r2 : Z) : option Z :=
  if (55296 <=? r1) && (r1 <? 56320) && (56320 <=? r2) && (r2 <? 57344)
  then Some (Z.lor (Z.shiftl (r1 - 55296) 10) (r2 - 56320) + 65536)
  else None.

(** The escapes of one character. *)
Definition unescape (b : ascii) : option ascii :=
  if Ascii.eqb b dquote || Ascii.eqb b backslash || Ascii.eqb b "/"%char
  then Some b
  else if Ascii.eqb b "b"%char then Some "008"%char
  else if Ascii.eqb b "f"%char then Some "012"%char
  else if Ascii.eqb b "n"%char then Some "010"%char
  else if Ascii.eqb b "r"%char then Some "013"%char
  else if Ascii.eqb b "t"%char then Some "009"%char
  else None.

Definition prepend (pre : string) (x : option (string * string))
  : option (string * string) :=
  '(v, r) ← x; Some (pre +:+ v, r).

(** The second half of a surrogate pair, where one follows. *)
Definition low_surrogate (rr : Z) (s : string) : option Z :=
  match s with
  | String e1 (String e2 (String g1 (String g2 (String g3 (String g4 _))))) =>
      if Ascii.eqb e1 backslash && Ascii.eqb e2 "u"%char
      then rr1 ← getu4 g1 g2 g3 g4; utf16_DecodeRune rr rr1
      else None
  | _ => None
  end.

(** [unquote], behind the opening quote: the string up to the closing
    quote, and what follows that quote. *)
Fixpoint unquote (s : string) : option (string * string) :=
  match s with
  | EmptyString => None
  | String a r1 =>
      if Ascii.eqb a dquote then Some (EmptyString, r1)
      else if Ascii.eqb a backslash then
        match r1 with
        | String b r2 =>
            if Ascii.eqb b "u"%char then
              match r2 with
              | String h1 (String h2 (String h3 (String h4 r6))) =>
                  match getu4 h1 h2 h3 h4 with
                  | Some rr =>
                      if IsSurrogate rr then
                        match low_surrogate rr r6, r6 with
                        | Some dec,
                          String _ (String _ (String _ (String _
                            (String _ (String _ r12))))) =>
                            prepend (EncodeRune dec) (unquote r12)
                        | _, _ => prepend replacement (unquote r6)
                        end
                      else prepend (EncodeRune rr) (unquote r6)
                  | None => None
                  end
              | _ => None
              end
            else
              match unescape b with
              | Some c => prepend (String c EmptyString) (unquote r2)
              | None => None
              end
        | EmptyString => None
        end
      else if byte_of a <? 32 then None
      else
        match rune_width s, r1 with
        | 1%nat, _ => prepend (String a EmptyString) (unquote r1)
        | 2%nat, String b r2 =>
            prepend (String a (String b EmptyString)) (unquote r2)
        | 3%nat, String b (String c r3) =>
            prepend (String a (String b (String c EmptyString))) (unquote r3)
        | 4%nat, String b (String c (String d r4)) =>
            prepend (String a (String b (String c (String d EmptyString))))
              (unquote r4)
        | _, _ => prepend replacement (unquote r1)
        end
  end.

Definition read_string (s : string) : option (string * string) :=
  s ← expect (String dquote EmptyString) s; unquote s.

Definition is_digit (a : ascii) : bool := between 48 57 a.

Fixpoint span_digits (s : string) : string * string :=
  match s with
  | String a rest =>
      if is_digit a
      then let '(ds, r) := span_digits rest in (String a ds, r)
      else (EmptyString, s)
  | EmptyString => (EmptyString, s)
  end.

(** A zero in front of another digit is no JSON number. *)
Definition leading_zero (ds : string) : bool :=
  match ds with
  | String a (String _ _) => Ascii.eqb a "0"%char
  | _ => false
  end.

(** A fraction or an exponent makes the number no integer. *)
Definition continues_number (s : string) : bool :=
  match s with
  | String a _ =>
      Ascii.eqb a "."%char || Ascii.eqb a "e"%char || Ascii.eqb a "E"%char
  | EmptyString => false
  end.

Definition read_int (s : string) : option (Z * string) :=
  let '(sign, s) := match s with
                    | String a r => if Ascii.eqb a "-"%char then ("-", r)
                                    else (EmptyString, s)
                    | EmptyString => (EmptyString, s)
                    end in
  let '(ds, r) := span_digits s in
  if String.eqb ds EmptyString || leading_zero ds || continues_number r
  then None
  else
    match NilZero.int_of_string (sign +:+ ds) with
    | Some d =>
        let z := Z.of_int d in
        if (- 2 ^ 63 <=? z) && (z <? 2 ^ 63) then Some (z, r) else None
    | None => None
    end.

Definition string_field (name : string) (s : string)
  : option (string * string) :=
  s ← expect (key name) s; read_string s.

Definition int_field (name : string) (s : string) : option (Z * string) :=
  s ← expect (key name) s; read_int s.

Definition read_reading (s : string) : option (dtos.BaseReading.t * string) :=
  s ← expect "{" s;
  '(id, s) ← string_field "id" s; s ← expect "," s;
  '(dev, s) ← string_field "deviceName" s; s ← expect "," s;
  '(res, s) ← string_field "resourceName" s; s ← expect "," s;
  '(prof, s) ← string_field "profileName" s; s ← expect "," s;
  '(origin, s) ← int_field "origin" s; s ← expect "," s;
  '(vt, s) ← string_field "valueType" s; s ← expect "," s;
  '(v, s) ← string_field "value" s;
  s ← expect "}" s;
  Some (dtos.BaseReading.mk id dev res prof origin vt (dtos.mkSimpleReading v), s).

Fixpoint read_more (fuel : nat) (s : string)
  : option (list dtos.BaseReading.t * string) :=
  match fuel with
  | O => None
  | S fuel =>
      '(r, s) ← read_reading s;
      match expect "," s with
      | Some s => '(rs, s) ← read_more fuel s; Some (r :: rs, s)
      | None => s ← expect "]" s; Some ([r], s)
      end
  end.

Definition read_readings (s : string)
  : option (list dtos.BaseReading.t * string) :=
  match expect "null" s with
  | Some s => Some ([], s)
  | None =>
      s ← expect "[" s;
      match expect "]" s with
      | Some s => Some ([], s)
      | None => read_more (String.length s) s
      end
  end.

Definition read_event (s : string) : option dtos.Event.t :=
  s ← expect "{" s;
  '(id, s) ← string_field "id" s; s ← expect "," s;
  '(dev, s) ← string_field "deviceName" s; s ← expect "," s;
  '(prof, s) ← string_field "profileName" s; s ← expect "," s;
  '(src, s) ← string_field "sourceName" s; s ← expect "," s;
  '(origin, s) ← int_field "origin" s; s ← expect "," s;
  s ← expect (key "readings") s;
  '(rs, s) ← read_readings s;
  s ← expect "}" s;
  if String.eqb s EmptyString
  then Some (dtos.Event.mk id dev prof src origin rs)
  else None.

#[export] Instance codec : JSONCodec := {|
  json_Marshal e := inr (list_byte_of_string (print_event e));
  json_Unmarshal payload :=
    match read_event (string_of_list_byte payload) with
    | Some e => inr e
    | None => inl "invalid character in JSON input"
    end
|}.

(** An event after the trip: every string made well-formed UTF-8. *)
Definition ToValidUTF8_reading (r : dtos.BaseReading.t) : dtos.BaseReading.t :=
  dtos.BaseReading.mk
    (ToValidUTF8 (dtos.BaseReading.Id r))
    (ToValidUTF8 (dtos.BaseReading.DeviceName r))
    (ToValidUTF8 (dtos.BaseReading.ResourceName r))
    (ToValidUTF8 (dtos.BaseReading.ProfileName r))
    (dtos.BaseReading.Origin r)
    (ToValidUTF8 (dtos.BaseReading.ValueType r))
    (dtos.mkSimpleReading
       (ToValidUTF8 (dtos.Value (dtos.BaseReading.SimpleReading r)))).

Definition ToValidUTF8_event (e : dtos.Event.t) : dtos.Event.t :=
  dtos.Event.mk
    (ToValidUTF8 (dtos.Event.Id e))
    (ToValidUTF8 (dtos.Event.DeviceName e))
    (ToValidUTF8 (dtos.Event.ProfileName e))
    (ToValidUTF8 (dtos.Event.SourceName e))
    (dtos.Event.Origin e)
    (List.map ToValidUTF8_reading (dtos.Event.Readings e)).

Definition Valid_reading (r : dtos.BaseReading.t) : bool :=
  Valid (dtos.BaseReading.Id r)
  && Valid (dtos.BaseReading.DeviceName r)
  && Valid (dtos.BaseReading.ResourceName r)
  && Valid (dtos.BaseReading.ProfileName r)
  && Valid (dtos.BaseReading.ValueType r)
  && Valid (dtos.Value (dtos.BaseReading.SimpleReading r)).

Definition Valid_event (e : dtos.Event.t) : bool :=
  Valid (dtos.Event.Id e)
  && Valid (dtos.Event.DeviceName e)
  && Valid (dtos.Event.ProfileName e)
  && Valid (dtos.Event.SourceName e)
  && forallb Valid_reading (dtos.Event.Readings e).

(** The origins of a Go event are 64-bit integers. *)
Definition int64 (z : Z) : bool := (- 2 ^ 63 <=? z) && (z <? 2 ^ 63).

Definition int64_event (e : dtos.Event.t) : bool :=
  int64 (dtos.Event.Origin e)
  && forallb (fun r => int64 (dtos.BaseReading.Origin r))
       (dtos.Event.Readings e).

End GoJSON.

(** ** A process to run the package in: Go's scan, one configuration
    file, numbered UUIDs and a clock that advances by a second. *)
Module Sample.

Definition config_toml (cfg : Config) : Config :=
  set_Publish true (set_ClientID "EdgeXClient-Test" (set_Interval 10 cfg)).

Definition DecodeFile (path : string) (cfg : Config) : error + Config :=
  if String.eqb path "config.toml" then inr (config_toml cfg)
  else inl ("open " +:+ path +:+ ": no such file or directory").

Definition uuid (n : nat) : string :=
  "7c9e6679-7425-40de-944b-" +:+ NilZero.string_of_uint (Nat.to_uint n).

Definition now (n : nat) : Time :=
  mkTime (1698765432109876543 + Z.of_nat n * 1000000000)
         ("2023-10-31T15:17:" +:+ NilZero.string_of_uint (Nat.to_uint (12 + n)) +:+ "Z").

#[export] Instance platform : Platform := {|
  scan_d := GoFmt.scanInt;
  toml_DecodeFile := DecodeFile;
  uuid_New := uuid;
  time_Now := now
|}.

(** A process with the given environment, and nothing drawn or run yet;
    the user's state is the list of events the callback has been given. *)
Definition process (environ : gmap string string)
  : Process (list (string * dtos.Event.t)) :=
  mkProcess environ 0 0 [] [] [].

Definition collect : @MessageHandler (list (string * dtos.Event.t)) :=
  fun topic event seen => (seen ++ [(topic, event)])%list.

Definition event_E1 : dtos.Event.t :=
  dtos.Event.mk "E-1" "dev" "profile" "source" 1698765432109876543
    [ dtos.BaseReading.mk "R-1" "dev" "temperature" "profile"
        1698765432109876543 "String" (dtos.mkSimpleReading "42") ].

(** An event of well-formed strings with characters that are escaped on
    the wire: a tab, a backslash, a quote, the three characters escaped
    for HTML, the line separator U+2028, and letters beyond ASCII. *)
Definition event_E2 : dtos.Event.t :=
  dtos.Event.mk "E-2" "dév/1" "<profile> & more"
    (String "009" "back\slash") (-1)
    [ dtos.BaseReading.mk "R-1" "dév/1" "température" "<profile> & more"
        1698765432109876543 "String" (dtos.mkSimpleReading "21.5 °C");
      dtos.BaseReading.mk "R-2" "dév/1" "label" "<profile> & more"
        0 "String"
        (dtos.mkSimpleReading
           (String "034" (String "226" (String "128" (String "168" "x"))))) ].

(** An event whose id is no well-formed UTF-8: the byte 0xFF, then E-1. *)
Definition event_FF : dtos.Event.t :=
  dtos.Event.mk (String "255" "E-1") "dev" "profile" "source"
    1698765432109876543
    [ dtos.BaseReading.mk "R-1" "dev" "temperature" "profile"
        1698765432109876543 "String" (dtos.mkSimpleReading "42") ].

End Sample.

(** ** [receive-test/receive.go]: the callback of [main]

    The callback writes one line per reading to the standard output,
    which is the user's state here; the line that would print the topic
    and the event's id is commented out in the source. *)
Module receive_test.

Definition newline : string := String "010"%char EmptyString.

(** [fmt.Printf("  Reading: Device=%s, Resource=%s, ValueType=%s, Value=%s\n", ...)] *)
Definition reading_line (reading : dtos.BaseReading.t) : string :=
  "  Reading: Device=" +:+ dtos.BaseReading.DeviceName reading
  +:+ ", Resource=" +:+ dtos.BaseReading.ResourceName reading
  +:+ ", ValueType=" +:+ dtos.BaseReading.ValueType reading
  +:+ ", Value=" +:+ dtos.Value (dtos.BaseReading.SimpleReading reading)
  +:+ newline.

Fixpoint print_readings (readings : list dtos.BaseReading.t)
    (stdout : list string) : list string :=
  match readings with
  | [] => stdout
  | reading :: readings =>
      print_readings readings (stdout ++ [reading_line reading])
  end.

Definition handler : @MessageHandler (list string) :=
  fun topic event stdout => print_readings (dtos.Event.Readings event) stdout.

End receive_test.

(** ** Sample inputs: environments, and a client on the in-memory bus *)

Definition env_unrelated : gmap string string := {[ "PATH" := "/usr/bin" ]}.

Definition env_overrides : gmap string string :=
  <[ "EDGEX_BROKER_HOST" := "broker.internal" ]>
  (<[ "EDGEX_CLIENT_ID" := "edge-7" ]>
  (<[ "EDGEX_TOPIC" := EmptyString ]> ∅)).

Definition env_port_12abc : gmap string string :=
  {[ "EDGEX_BROKER_PORT" := "12abc" ]}.

Definition env_port_abc : gmap string string :=
  {[ "EDGEX_BROKER_PORT" := "abc"; "EDGEX_PUBLISH_INTERVAL" := "ten" ]}.

Definition env_publish_0 : gmap string string :=
  {[ "EDGEX_PUBLISH" := "0" ]}.

Definition env_port_too_long : gmap string string :=
  {[ "EDGEX_BROKER_PORT" := "99999999999999999999abc" ]}.

Definition env_publish_false : gmap string string :=
  {[ "EDGEX_PUBLISH" := "false" ]}.

Definition sample_New (configPath : string) (environ : gmap string string) :=
  NewMQTTClient (MC := FakeBus.client) (PF := Sample.platform)
    configPath (Some Sample.collect) (Sample.process environ).

Definition sample_bus : FakeBus.t :=
  FakeBus.mk (busConfigOf (defaultConfig (Sample.uuid 0))) []
    None None None None.

Definition sample_client
  : MQTTClient FakeBus.t (list (string * dtos.Event.t)) :=
  mkClient (defaultConfig (Sample.uuid 0)) [] sample_bus false 0
    (Some Sample.collect).

Definition sample_process : Process (list (string * dtos.Event.t)) :=
  set_uuids 1 (Sample.process env_unrelated).

Definition sample_Start :=
  Start (MC := FakeBus.client) (sample_client, sample_process).

Definition text_plain_envelope : types.MessageEnvelope :=
  types.mkEnvelope "edgex/events/ns/dev" "c-1"
    (list_byte_of_string (WireJSON.print_event Sample.event_E1)) "text/plain".

(** An envelope with the JSON content type and a truncated payload, and
    a well-formed one. *)
Definition truncated_envelope : types.MessageEnvelope :=
  types.mkEnvelope "edgex/events/ns/dev" "c-2"
    (list_byte_of_string ("{" +:+ WireJSON.key "id")) "application/json".

Definition E1_envelope : types.MessageEnvelope :=
  types.mkEnvelope "edgex/events/ns/dev" "c-3"
    (list_byte_of_string (WireJSON.print_event Sample.event_E1))
    "application/json".

(** The client of [receive-test], whose user state is the standard
    output. *)
Definition receive_client : MQTTClient FakeBus.t (list string) :=
  mkClient (defaultConfig (Sample.uuid 0)) [] sample_bus false 0
    (Some receive_test.handler).

Definition receive_process : Process (list string) :=
  mkProcess env_unrelated 1 0 [] [] [].

(** A client whose configuration asks for a tick every [seconds]. *)
Definition sample_client_every (seconds : Z)
  : MQTTClient FakeBus.t (list (string * dtos.Event.t)) :=
  mkClient (set_Interval seconds (set_Publish true (defaultConfig (Sample.uuid 0))))
    [] sample_bus false 0 (Some Sample.collect).

Definition env_publish_every_0 : gmap string string :=
  {[ "EDGEX_PUBLISH" := "true"; "EDGEX_PUBLISH_INTERVAL" := "0" ]}.

(** * Specification-side definitions *)

(** The goroutines [Start] spawns, in order. *)
Definition spawned (publish : bool) : list Goroutine :=
  [go_handleMessages]
  ++ (if publish then [go_startPublishing] else [])
  ++ [go_handleSignals].

(** The adapter's delivery of an envelope that arrived on [topic]. *)
Definition received_on (topic : string) (msg : types.MessageEnvelope)
  : types.MessageEnvelope :=
  types.mkEnvelope topic (types.CorrelationID msg) (types.Payload msg)
    (types.ContentType msg).

(** The synthetic event, in the words of the specification: the given
    identifiers, the fixed device, profile and source names, and exactly
    one reading of type String whose value carries the time stamp. *)
Definition synthetic_reading (rid : string) (origin : Z) (stamp : string)
  : dtos.BaseReading.t :=
  dtos.BaseReading.mk rid "TestDevice" "TestResource" "TestProfile" origin
    "String" (dtos.mkSimpleReading ("Test value at " +:+ stamp)).

Definition synthetic_event (id rid : string) (t0 t1 t2 : Time) : dtos.Event.t :=
  dtos.Event.mk id "TestDevice" "TestProfile" "TestSource" (UnixNano t0)
    [ synthetic_reading rid (UnixNano t1) (Format_RFC3339 t2) ].

(** What a publishing call returns, given what the codec and the bus
    answered: the wrapped encoding error, the wrapped bus error, or nil. *)
Definition publish_result (marshal_err publish_err : option error)
  : option error :=
  match marshal_err, publish_err with
  | Some err, _ => Some (fmt_Errorf "序列化事件失败: " err)
  | None, Some err => Some (fmt_Errorf "发布消息失败: " err)
  | None, None => None
  end.

(** The suffixes of the environment variables the loader reads. *)
Definition recognized : list string :=
  [ "BROKER_HOST"; "BROKER_PORT"; "BROKER_PROTOCOL"; "TYPE"; "TOPIC";
    "CLIENT_ID"; "USERNAME"; "PASSWORD"; "PUBLISH"; "PUBLISH_INTERVAL";
    "LOG_LEVEL" ].

Definition none_set (environ : gmap string string) (prefix : string) : Prop :=
  Forall (fun suffix => environ !! (prefix +:+ suffix) = None) recognized.

(** The overlay of one string option, in the words of the specification:
    the environment's value wins, unless it is empty. *)
Definition overlay (prior v : string) : string :=
  if String.eqb v EmptyString then prior else v.

(** An integer option: the scanned value, and the prior one when the
    variable is empty or the scan fails. *)
Definition scanned_or `{Platform} (prior : Z) (v : string) : Z :=
  if String.eqb v EmptyString then prior
  else match scan_d v with Some n => n | None => prior end.

(** ** The dispatch loop's inbox *)

(** What the loop gets to before the first stop signal. *)
Fixpoint before_stop (inbox : list Recv) : list Recv :=
  match inbox with
  | [] => []
  | RecvStop :: _ => []
  | r :: inbox => r :: before_stop inbox
  end.

Fixpoint has_stop (inbox : list Recv) : bool :=
  match inbox with
  | [] => false
  | RecvStop :: _ => true
  | _ :: inbox => has_stop inbox
  end.

(** The topic and event an envelope stands for, when it has the JSON
    content type and its payload decodes. *)
Definition decodes `{JSONCodec} (msg : types.MessageEnvelope)
  : option (string * dtos.Event.t) :=
  if String.eqb (types.ContentType msg) "application/json" then
    match json_Unmarshal (types.Payload msg) with
    | inr event => Some (types.ReceivedTopic msg, event)
    | inl _ => None
    end
  else None.

Fixpoint accepted `{JSONCodec} (inbox : list Recv)
  : list (string * dtos.Event.t) :=
  match inbox with
  | [] => []
  | RecvMsg msg :: inbox =>
      match decodes msg with
      | Some d => d :: accepted inbox
      | None => accepted inbox
      end
  | _ :: inbox => accepted inbox
  end.

(** The callback applied to deliveries, in order; no callback, no
    deliveries. *)
Definition deliveries {U : Type} `{JSONCodec}
    (handler : option (@MessageHandler U)) (inbox : list Recv)
  : list (string * dtos.Event.t) :=
  match handler with
  | Some _ => accepted (before_stop inbox)
  | None => []
  end.

Definition apply_handler {U : Type} (handler : option (@MessageHandler U))
    (ds : list (string * dtos.Event.t)) (u : U) : U :=
  match handler with
  | Some h => fold_left (fun u d => h (fst d) (snd d) u) ds u
  | None => u
  end.

(** ** The publish loop's ticks *)

Fixpoint ticks_before_stop (ticks : list Tick) : nat :=
  match ticks with
  | [] => 0
  | TickStop :: _ => 0
  | TickC :: ticks => S (ticks_before_stop ticks)
  end.

Fixpoint has_tick_stop (ticks : list Tick) : bool :=
  match ticks with
  | [] => false
  | TickStop :: _ => true
  | TickC :: ticks => has_tick_stop ticks
  end.

(** ** The wait group against the goroutines *)

(** The number of running loops that are counted in the wait group. *)
Fixpoint loops (gs : list Goroutine) : Z :=
  match gs with
  | [] => 0
  | go_handleSignals :: gs => loops gs
  | _ :: gs => 1 + loops gs
  end.

(** ** Integer literals and the [%d] scan *)

Definition starts_with_digit (s : string) : bool :=
  match s with
  | String a _ => bool_decide (is_Some (GoFmt.digit a))
  | EmptyString => false
  end.

(** The value of a well-formed integer: its digits read in base ten,
    negated after a minus sign. *)
Definition literal_value (w : string) : Z :=
  let '(neg, s) := GoFmt.accept_sign w in
  let n := GoFmt.scanNumber s 0 in
  if neg then - n else n.

Definition fits_int64 (z : Z) : bool := (- 2 ^ 63 <=? z) && (z <? 2 ^ 63).

(** [time.NewTicker] accepts the interval of the configuration: its
    nanoseconds, in 64 bits, are positive. *)
Definition ticker_starts (cfg : Config) : Prop :=
  0 < wrap64 (Interval cfg * 1000000000).

(** How a loop ends when it takes its stop case, by the state of the
    stop channel and of the wait group. *)
Definition stop_outcome (stopped : bool) (closed : bool) (counter : Z)
  : Outcome unit :=
  if stopped && closed then
    if counter - 1 <? 0 then Panic "sync: negative WaitGroup counter"
    else Ret tt
  else Blocked.

(** ** What a loop leaves alone *)

(** The dispatch loop only appends to the log of the client... *)
Definition log_extended {B U : Type} (c c' : MQTTClient B U) : Prop :=
  config c' = config c /\
  messageBus c' = messageBus c /\
  stopCh c' = stopCh c /\
  handler c' = handler c /\
  exists lines : list LogEntry, logger c' = (logger c ++ lines)%list.

(** ... and touches the process through the callback only. *)
Definition callback_only {U : Type} (p p' : Process U) : Prop :=
  environ p' = environ p /\
  uuids p' = uuids p /\
  clock p' = clock p /\
  goroutines p' = goroutines p.

(** Publishing leaves the life cycle of the client and the callback's
    record alone. *)
Definition lifecycle_kept {B U : Type} (st st' : St B U) : Prop :=
  config (fst st') = config (fst st) /\
  stopCh (fst st') = stopCh (fst st) /\
  wg (fst st') = wg (fst st) /\
  handler (fst st') = handler (fst st) /\
  environ (snd st') = environ (snd st) /\
  goroutines (snd st') = goroutines (snd st) /\
  calls (snd st') = calls (snd st) /\
  user (snd st') = user (snd st).

(** * The configuration loader *)

Section LoaderFacts.
Context `{PF : Platform}.
Variable environ : gmap string string.

Lemma env_string_other {A} (proj : Config -> A) suffix assign cfg :
  (forall v c, proj (assign v c) = proj c) ->
  proj (env_string environ suffix assign cfg) = proj cfg.
Proof.
  intros Hother. unfold env_string.
  destruct (negb _); [apply Hother | reflexivity].
Qed.

Lemma env_string_self (proj : Config -> string) suffix assign cfg :
  (forall v c, proj (assign v c) = v) ->
  proj (env_string environ suffix assign cfg)
  = overlay (proj cfg) (os_Getenv environ (EnvPrefix cfg +:+ suffix)).
Proof.
  intros Hself. unfold env_string, overlay.
  destruct (String.eqb _ EmptyString); simpl; [reflexivity | apply Hself].
Qed.

Lemma env_BROKER_PORT_other {A} (proj : Config -> A) cfg :
  (forall v c, proj (set_Port v c) = proj c) ->
  proj (env_BROKER_PORT environ cfg) = proj cfg.
Proof.
  intros Hother. unfold env_BROKER_PORT, fmt_Sscanf_d.
  destruct (negb _); [| reflexivity].
  destruct (scan_d _); simpl; rewrite ?Hother; reflexivity.
Qed.

Lemma env_BROKER_PORT_self cfg :
  Port (Broker (env_BROKER_PORT environ cfg))
  = scanned_or (Port (Broker cfg))
      (os_Getenv environ (EnvPrefix cfg +:+ "BROKER_PORT")).
Proof.
  unfold env_BROKER_PORT, fmt_Sscanf_d, scanned_or.
  destruct (String.eqb _ EmptyString); simpl; [reflexivity |].
  destruct (scan_d _); reflexivity.
Qed.

Lemma env_PUBLISH_other {A} (proj : Config -> A) cfg :
  (forall v c, proj (set_Publish v c) = proj c) ->
  proj (env_PUBLISH environ cfg) = proj cfg.
Proof.
  intros Hother. unfold env_PUBLISH.
  destruct (String.eqb _ _); [apply Hother | reflexivity].
Qed.

Lemma env_PUBLISH_self cfg :
  Publish (env_PUBLISH environ cfg)
  = Publish cfg
    || String.eqb (os_Getenv environ (EnvPrefix cfg +:+ "PUBLISH")) "true".
Proof.
  unfold env_PUBLISH.
  destruct (String.eqb _ _); simpl;
    [rewrite orb_true_r | rewrite orb_false_r]; reflexivity.
Qed.

Lemma env_PUBLISH_INTERVAL_other {A} (proj : Config -> A) cfg :
  (forall v c, proj (set_Interval v c) = proj c) ->
  proj (env_PUBLISH_INTERVAL environ cfg) = proj cfg.
Proof.
  intros Hother. unfold env_PUBLISH_INTERVAL, fmt_Sscanf_d.
  destruct (negb _); [| reflexivity].
  destruct (scan_d _); simpl; rewrite ?Hother; reflexivity.
Qed.

Lemma env_PUBLISH_INTERVAL_self cfg :
  Interval (env_PUBLISH_INTERVAL environ cfg)
  = scanned_or (Interval cfg)
      (os_Getenv environ (EnvPrefix cfg +:+ "PUBLISH_INTERVAL")).
Proof.
  unfold env_PUBLISH_INTERVAL, fmt_Sscanf_d, scanned_or.
  destruct (String.eqb _ EmptyString); simpl; [reflexivity |].
  destruct (scan_d _); reflexivity.
Qed.

(** Steps that do not assign the field [proj] leave it as it is. *)
Ltac peel proj :=
  repeat first
    [ rewrite (env_string_other proj) by (intros; reflexivity)
    | rewrite (env_BROKER_PORT_other proj) by (intros; reflexivity)
    | rewrite (env_PUBLISH_other proj) by (intros; reflexivity)
    | rewrite (env_PUBLISH_INTERVAL_other proj) by (intros; reflexivity) ].

Ltac field_of proj :=
  unfold loadEnvOverrides; cbv zeta;
  peel proj;
  first [ rewrite (env_string_self proj) by (intros; reflexivity)
        | rewrite env_BROKER_PORT_self
        | rewrite env_PUBLISH_self
        | rewrite env_PUBLISH_INTERVAL_self
        | idtac ];
  peel proj; peel EnvPrefix; reflexivity.

Lemma loadEnv_EnvPrefix cfg :
  EnvPrefix (loadEnvOverrides environ cfg) = EnvPrefix cfg.
Proof. field_of EnvPrefix. Qed.

Lemma loadEnv_Host cfg :
  Host (Broker (loadEnvOverrides environ cfg))
  = overlay (Host (Broker cfg))
      (os_Getenv environ (EnvPrefix cfg +:+ "BROKER_HOST")).
Proof. field_of (fun c => Host (Broker c)). Qed.

Lemma loadEnv_Port cfg :
  Port (Broker (loadEnvOverrides environ cfg))
  = scanned_or (Port (Broker cfg))
      (os_Getenv environ (EnvPrefix cfg +:+ "BROKER_PORT")).
Proof. field_of (fun c => Port (Broker c)). Qed.

Lemma loadEnv_Protocol cfg :
  Protocol (Broker (loadEnvOverrides environ cfg))
  = overlay (Protocol (Broker cfg))
      (os_Getenv environ (EnvPrefix cfg +:+ "BROKER_PROTOCOL")).
Proof. field_of (fun c => Protocol (Broker c)). Qed.

Lemma loadEnv_Type cfg :
  Type_ (loadEnvOverrides environ cfg)
  = overlay (Type_ cfg) (os_Getenv environ (EnvPrefix cfg +:+ "TYPE")).
Proof. field_of Type_. Qed.

Lemma loadEnv_Topic cfg :
  Topic (loadEnvOverrides environ cfg)
  = overlay (Topic cfg) (os_Getenv environ (EnvPrefix cfg +:+ "TOPIC")).
Proof. field_of Topic. Qed.

Lemma loadEnv_ClientID cfg :
  ClientID (loadEnvOverrides environ cfg)
  = overlay (ClientID cfg) (os_Getenv environ (EnvPrefix cfg +:+ "CLIENT_ID")).
Proof. field_of ClientID. Qed.

Lemma loadEnv_Username cfg :
  Username (loadEnvOverrides environ cfg)
  = overlay (Username cfg) (os_Getenv environ (EnvPrefix cfg +:+ "USERNAME")).
Proof. field_of Username. Qed.

Lemma loadEnv_Password cfg :
  Password (loadEnvOverrides environ cfg)
  = overlay (Password cfg) (os_Getenv environ (EnvPrefix cfg +:+ "PASSWORD")).
Proof. field_of Password. Qed.

Lemma loadEnv_Publish cfg :
  Publish (loadEnvOverrides environ cfg)
  = Publish cfg
    || String.eqb (os_Getenv environ (EnvPrefix cfg +:+ "PUBLISH")) "true".
Proof. field_of Publish. Qed.

Lemma loadEnv_Interval cfg :
  Interval (loadEnvOverrides environ cfg)
  = scanned_or (Interval cfg)
      (os_Getenv environ (EnvPrefix cfg +:+ "PUBLISH_INTERVAL")).
Proof. field_of Interval. Qed.

Lemma loadEnv_LogLevel cfg :
  LogLevel (loadEnvOverrides environ cfg)
  = overlay (LogLevel cfg) (os_Getenv environ (EnvPrefix cfg +:+ "LOG_LEVEL")).
Proof. field_of LogLevel. Qed.

End LoaderFacts.

Section LoaderIdentity.
Context `{PF : Platform}.
Variable environ : gmap string string.

Lemma env_string_unset suffix assign cfg :
  os_Getenv environ (EnvPrefix cfg +:+ suffix) = EmptyString ->
  env_string environ suffix assign cfg = cfg.
Proof. intros Hv. unfold env_string. rewrite Hv. reflexivity. Qed.

Lemma loadEnv_unset cfg :
  Forall (fun suffix => os_Getenv environ (EnvPrefix cfg +:+ suffix) = EmptyString)
         recognized ->
  loadEnvOverrides environ cfg = cfg.
Proof.
  intros Hall. unfold recognized in Hall.
  repeat match type of Hall with
         | Forall _ (_ :: _) =>
             let Hv := fresh "Hv" in
             apply Forall_cons in Hall as [Hv Hall]
         end.
  unfold loadEnvOverrides; cbv zeta.
  rewrite (env_string_unset "BROKER_HOST" set_Host cfg) by assumption.
  replace (env_BROKER_PORT environ cfg) with cfg
    by (unfold env_BROKER_PORT; rewrite Hv0; reflexivity).
  rewrite (env_string_unset "BROKER_PROTOCOL" set_Protocol cfg) by assumption.
  rewrite (env_string_unset "TYPE" set_Type cfg) by assumption.
  rewrite (env_string_unset "TOPIC" set_Topic cfg) by assumption.
  rewrite (env_string_unset "CLIENT_ID" set_ClientID cfg) by assumption.
  rewrite (env_string_unset "USERNAME" set_Username cfg) by assumption.
  rewrite (env_string_unset "PASSWORD" set_Password cfg) by assumption.
  replace (env_PUBLISH environ cfg) with cfg
    by (unfold env_PUBLISH; rewrite Hv7; reflexivity).
  replace (env_PUBLISH_INTERVAL environ cfg) with cfg
    by (unfold env_PUBLISH_INTERVAL; rewrite Hv8; reflexivity).
  apply env_string_unset; assumption.
Qed.

End LoaderIdentity.

Lemma none_set_Getenv environ prefix :
  none_set environ prefix ->
  Forall (fun suffix => os_Getenv environ (prefix +:+ suffix) = EmptyString)
         recognized.
Proof.
  unfold none_set. intros Hall.
  eapply Forall_impl; [exact Hall |].
  intros suffix Hnone. unfold os_Getenv. rewrite Hnone. reflexivity.
Qed.

(** C6. With an empty configuration path and none of the recognized
    environment variables set, [NewMQTTClient] fails only when the bus
    client cannot be created, and the client it constructs has
    broker.host localhost, broker.port 1883, broker.protocol tcp, type
    mqtt, topic edgex/events/#, publish disabled, publish_interval 10 and
    log_level INFO. *)
Theorem defaults_only_construction {B U : Type}
    `{MC : messaging.MessageClient B} `{PF : Platform}
    (handler : option (@MessageHandler U)) (p : Process U) :
  none_set (environ p) "EDGEX_" ->
  match fst (NewMQTTClient "" handler p) with
  | inr c =>
      Host (Broker (config c)) = "localhost" /\
      Port (Broker (config c)) = 1883 /\
      Protocol (Broker (config c)) = "tcp" /\
      Type_ (config c) = "mqtt" /\
      Topic (config c) = "edgex/events/#" /\
      Publish (config c) = false /\
      Interval (config c) = 10 /\
      LogLevel (config c) = "INFO"
  | inl err =>
      exists cause,
        messaging.NewMessageClient
          (busConfigOf (defaultConfig (uuid_New (uuids p)))) = inl cause /\
        err = fmt_Errorf "创建消息客户端失败: " cause
  end.
Proof.
  intros Hnone. apply none_set_Getenv in Hnone.
  unfold NewMQTTClient. simpl String.eqb. cbv iota beta zeta. simpl negb.
  cbv iota. simpl environ.
  rewrite loadEnv_unset by exact Hnone.
  destruct (messaging.NewMessageClient _) as [cause | bus]; simpl.
  - exists cause. split; reflexivity.
  - repeat split; reflexivity.
Qed.

(** C4, as amended. When the file decodes and the bus client can be
    created, the constructed client's configuration is the defaults,
    overlaid by the file, overlaid by the environment: it is
    [loadEnvOverrides] of what the file stage produced. Every string
    option holds the environment's value when that is not empty and the
    file stage's value (the file's, else the default) when it is empty or
    unset; the port and the interval hold the integer scanned from the
    environment's value when that is not empty and the scan succeeds, and
    the file stage's value otherwise; [publish] is the file stage's value,
    raised to true when PUBLISH is exactly the string true, so that the
    environment cannot switch it off; the prefix is never overridden. *)
Theorem config_overlay_order {B U : Type}
    `{MC : messaging.MessageClient B} `{PF : Platform}
    (configPath : string) (handler : option (@MessageHandler U))
    (p : Process U) (cfg_file : Config) (bus : B) :
  (if String.eqb configPath EmptyString
   then inr (defaultConfig (uuid_New (uuids p)))
   else toml_DecodeFile configPath (defaultConfig (uuid_New (uuids p))))
  = inr cfg_file ->
  messaging.NewMessageClient
    (busConfigOf (loadEnvOverrides (environ p) cfg_file)) = inr bus ->
  exists c,
    NewMQTTClient configPath handler p = (inr c, set_uuids (S (uuids p)) p) /\
    config c = loadEnvOverrides (environ p) cfg_file /\
    EnvPrefix (config c) = EnvPrefix cfg_file /\
    let getenv suffix := os_Getenv (environ p) (EnvPrefix cfg_file +:+ suffix) in
    Host (Broker (config c))
      = overlay (Host (Broker cfg_file)) (getenv "BROKER_HOST") /\
    Protocol (Broker (config c))
      = overlay (Protocol (Broker cfg_file)) (getenv "BROKER_PROTOCOL") /\
    Type_ (config c) = overlay (Type_ cfg_file) (getenv "TYPE") /\
    Topic (config c) = overlay (Topic cfg_file) (getenv "TOPIC") /\
    ClientID (config c) = overlay (ClientID cfg_file) (getenv "CLIENT_ID") /\
    Username (config c) = overlay (Username cfg_file) (getenv "USERNAME") /\
    Password (config c) = overlay (Password cfg_file) (getenv "PASSWORD") /\
    LogLevel (config c) = overlay (LogLevel cfg_file) (getenv "LOG_LEVEL") /\
    Port (Broker (config c))
      = (if String.eqb (getenv "BROKER_PORT") EmptyString
         then Port (Broker cfg_file)
         else match scan_d (getenv "BROKER_PORT") with
              | Some n => n
              | None => Port (Broker cfg_file)
              end) /\
    Interval (config c)
      = (if String.eqb (getenv "PUBLISH_INTERVAL") EmptyString
         then Interval cfg_file
         else match scan_d (getenv "PUBLISH_INTERVAL") with
              | Some n => n
              | None => Interval cfg_file
              end) /\
    Publish (config c)
      = Publish cfg_file || String.eqb (getenv "PUBLISH") "true".
Proof.
  intros Hfile Hbus.
  exists (mkClient (loadEnvOverrides (environ p) cfg_file) [] bus false 0 handler).
  split.
  - unfold NewMQTTClient.
    destruct (String.eqb configPath EmptyString); simpl negb; cbv iota;
      [injection Hfile as -> | rewrite Hfile];
      simpl environ; rewrite Hbus; reflexivity.
  - simpl config. split; [reflexivity |].
    split; [apply loadEnv_EnvPrefix |].
    cbv zeta.
    rewrite loadEnv_Host, loadEnv_Protocol, loadEnv_Type, loadEnv_Topic,
      loadEnv_ClientID, loadEnv_Username, loadEnv_Password, loadEnv_LogLevel,
      loadEnv_Port, loadEnv_Interval, loadEnv_Publish.
    repeat split; reflexivity.
Qed.

(** *** What the [%d] scan reads *)

Lemma SkipSpace_no_blank (a : ascii) (r : string) :
  is_Some (GoFmt.digit a) \/ a = "-"%char \/ a = "+"%char ->
  GoFmt.SkipSpace (String a r) = Some (String a r).
Proof.
  intros Ha.
  assert (Hbytes : Ascii.eqb a "010"%char = false /\ GoFmt.isSpace a = false /\
                   (forall b, GoFmt.isSpace2 a b = false) /\
                   (forall b c, GoFmt.isSpace3 a b c = false)).
  { destruct Ha as [[d Hd] | [-> | ->]];
      [| repeat split; intros; reflexivity ..].
    revert Hd. destruct a as [[] [] [] [] [] [] [] []]; vm_compute;
      intros Hd; try discriminate Hd; repeat split; intros; reflexivity. }
  destruct Hbytes as (Hnl & Hsp & Hsp2 & Hsp3).
  cbn [GoFmt.SkipSpace]. rewrite Hnl, Hsp.
  destruct r as [| b [| c r]]; rewrite ?Hsp2, ?Hsp3; reflexivity.
Qed.

Lemma scanNumber_stops (s rest : string) :
  GoFmt.all_digits s = true -> starts_with_digit rest = false ->
  forall acc, GoFmt.scanNumber (s +:+ rest) acc = GoFmt.scanNumber s acc.
Proof.
  intros Hall Hrest. induction s as [| a s IH]; intros acc.
  - destruct rest as [| b rest]; [reflexivity |].
    change (EmptyString +:+ String b rest) with (String b rest).
    cbn [GoFmt.scanNumber]. cbn in Hrest.
    apply bool_decide_eq_false in Hrest.
    destruct (GoFmt.digit b) as [d |]; [| reflexivity].
    destruct Hrest. eexists. reflexivity.
  - change (String a s +:+ rest) with (String a (s +:+ rest)).
    cbn [GoFmt.scanNumber GoFmt.all_digits] in Hall |- *.
    apply andb_true_iff in Hall as [_ Hall].
    destruct (GoFmt.digit a); [apply IH; exact Hall | reflexivity].
Qed.

Lemma scan_digits (neg : bool) (s rest : string) :
  s <> EmptyString -> GoFmt.all_digits s = true ->
  starts_with_digit rest = false ->
  match s +:+ rest with
  | String a _ =>
      match GoFmt.digit a with
      | Some _ =>
          let n := GoFmt.scanNumber (s +:+ rest) 0 in
          let i := if neg then - n else n in
          if (- 2 ^ 63 <=? i) && (i <? 2 ^ 63) then Some i else None
      | None => None
      end
  | EmptyString => None
  end
  = (let n := GoFmt.scanNumber s 0 in
     let i := if neg then - n else n in
     if (- 2 ^ 63 <=? i) && (i <? 2 ^ 63) then Some i else None).
Proof.
  intros Hne Hall Hrest. rewrite (scanNumber_stops s rest Hall Hrest 0).
  destruct s as [| b s]; [destruct Hne; reflexivity |].
  change (String b s +:+ rest) with (String b (s +:+ rest)). cbv beta iota.
  cbn [GoFmt.all_digits] in Hall. apply andb_true_iff in Hall as [Hb _].
  apply bool_decide_eq_true in Hb. destruct Hb as [d Hd]. rewrite Hd.
  reflexivity.
Qed.

(** A well-formed integer begins with no blank, and is read as its
    value, whatever follows its digits. *)
Lemma well_formed_scan (w rest : string) :
  GoFmt.well_formed_integer w = true ->
  starts_with_digit rest = false ->
  GoFmt.SkipSpace (w +:+ rest) = Some (w +:+ rest) /\
  GoFmt.scanSigned (w +:+ rest)
  = (if fits_int64 (literal_value w) then Some (literal_value w) else None).
Proof.
  intros Hw Hrest. unfold GoFmt.well_formed_integer in Hw.
  destruct w as [| a r]; [cbn in Hw; discriminate Hw |].
  unfold GoFmt.scanSigned, literal_value, fits_int64.
  change (String a r +:+ rest) with (String a (r +:+ rest)).
  cbn [GoFmt.accept_sign] in Hw |- *.
  destruct (Ascii.eqb a "-"%char) eqn:Hminus.
  - apply Ascii.eqb_eq in Hminus. subst a.
    split; [apply SkipSpace_no_blank; auto |].
    apply andb_true_iff in Hw as [Hne Hall].
    apply negb_true_iff, String.eqb_neq in Hne.
    apply (scan_digits true r rest Hne Hall Hrest).
  - destruct (Ascii.eqb a "+"%char) eqn:Hplus.
    + apply Ascii.eqb_eq in Hplus. subst a.
      split; [apply SkipSpace_no_blank; auto |].
      apply andb_true_iff in Hw as [Hne Hall].
      apply negb_true_iff, String.eqb_neq in Hne.
      apply (scan_digits false r rest Hne Hall Hrest).
    + apply andb_true_iff in Hw as [_ Hall].
      pose proof Hall as Hall'. cbn [GoFmt.all_digits] in Hall'.
      apply andb_true_iff in Hall' as [Ha _].
      apply bool_decide_eq_true in Ha.
      split; [apply SkipSpace_no_blank; auto |].
      assert (Hne : String a r <> EmptyString) by discriminate.
      apply (scan_digits false (String a r) rest Hne Hall Hrest).
Qed.

(** Where no digit follows the optional sign, nothing is read. *)
Lemma scanSigned_no_digit (s : string) :
  starts_with_digit (snd (GoFmt.accept_sign s)) = false ->
  GoFmt.scanSigned s = None.
Proof.
  unfold GoFmt.scanSigned. destruct (GoFmt.accept_sign s) as [neg t].
  cbn [snd]. destruct t as [| a t]; [reflexivity |].
  cbn [starts_with_digit]. intros Hd. apply bool_decide_eq_false in Hd.
  destruct (GoFmt.digit a) as [d |]; [| reflexivity].
  destruct Hd. eexists. reflexivity.
Qed.

(** C5, as amended. With Go's [%d] scan, the loader keeps the previous
    port and interval when the variable is empty or the scan of its
    value fails, and takes the scanned integer otherwise. After the
    leading blanks the scan reads a well-formed integer and does not
    look past its digits: the integer is assigned when it fits 64 bits,
    whatever follows it, and the previous value is kept when it does not
    fit. The previous value is also kept when a newline is among the
    leading blanks and when no digit follows the blanks and the optional
    sign. A well-formed integer itself begins with no blank. *)
Theorem integer_override_follows_scan `{PF : Platform}
    (environ : gmap string string) (cfg : Config) :
  (forall v, scan_d v = GoFmt.scanInt v) ->
  let port := os_Getenv environ (EnvPrefix cfg +:+ "BROKER_PORT") in
  let interval := os_Getenv environ (EnvPrefix cfg +:+ "PUBLISH_INTERVAL") in
  let cfg' := loadEnvOverrides environ cfg in
  let assigned (prior : Z) (v : string) :=
    if String.eqb v EmptyString then prior
    else match GoFmt.scanInt v with
         | Some n => n
         | None => prior
         end in
  Port (Broker cfg') = assigned (Port (Broker cfg)) port /\
  Interval cfg' = assigned (Interval cfg) interval /\
  (forall prior v w rest,
     GoFmt.SkipSpace v = Some (w +:+ rest) ->
     GoFmt.well_formed_integer w = true -> starts_with_digit rest = false ->
     assigned prior v
     = if fits_int64 (literal_value w) then literal_value w else prior) /\
  (forall prior v, GoFmt.SkipSpace v = None -> assigned prior v = prior) /\
  (forall prior v s,
     GoFmt.SkipSpace v = Some s ->
     starts_with_digit (snd (GoFmt.accept_sign s)) = false ->
     assigned prior v = prior) /\
  (forall w rest,
     GoFmt.well_formed_integer w = true -> starts_with_digit rest = false ->
     GoFmt.SkipSpace (w +:+ rest) = Some (w +:+ rest)).
Proof.
  intros Hscan. cbv zeta.
  rewrite loadEnv_Port, loadEnv_Interval. unfold scanned_or.
  rewrite !Hscan.
  split; [reflexivity |]. split; [reflexivity |].
  split; [| split; [| split]].
  - intros prior v w rest Hskip Hw Hrest.
    unfold GoFmt.scanInt. rewrite Hskip.
    rewrite (proj2 (well_formed_scan w rest Hw Hrest)).
    destruct (String.eqb_spec v EmptyString) as [-> | _].
    + cbn in Hskip. destruct w as [| a r]; [discriminate Hw |].
      discriminate Hskip.
    + destruct (fits_int64 (literal_value w)); reflexivity.
  - intros prior v Hskip. unfold GoFmt.scanInt. rewrite Hskip.
    destruct (String.eqb v EmptyString); reflexivity.
  - intros prior v s Hskip Hdigit. unfold GoFmt.scanInt. rewrite Hskip.
    rewrite (scanSigned_no_digit s Hdigit).
    destruct (String.eqb v EmptyString); reflexivity.
  - intros w rest Hw Hrest. exact (proj1 (well_formed_scan w rest Hw Hrest)).
Qed.

Lemma integer_override_follows_scan_witness :
  Port (Broker (loadEnvOverrides (H := Sample.platform) env_port_12abc
                  (defaultConfig "0"))) = 12 /\
  Port (Broker (loadEnvOverrides (H := Sample.platform) env_port_too_long
                  (defaultConfig "0"))) = 1883 /\
  Port (Broker (loadEnvOverrides (H := Sample.platform) env_port_abc
                  (defaultConfig "0"))) = 1883.
Proof.
  assert (Hscan : forall v, scan_d (Platform := Sample.platform) v
                            = GoFmt.scanInt v) by reflexivity.
  split; [| split].
  - rewrite (proj1 (integer_override_follows_scan (PF := Sample.platform)
                      env_port_12abc (defaultConfig "0") Hscan)).
    vm_compute. reflexivity.
  - rewrite (proj1 (integer_override_follows_scan (PF := Sample.platform)
                      env_port_too_long (defaultConfig "0") Hscan)).
    vm_compute. reflexivity.
  - rewrite (proj1 (integer_override_follows_scan (PF := Sample.platform)
                      env_port_abc (defaultConfig "0") Hscan)).
    vm_compute. reflexivity.
Defined.

(** C7, as amended. The loader sets [publish] to true when PUBLISH is
    exactly the string true, and leaves it as the defaults or the file
    had it for every other value: the result is the previous value or-ed
    with the comparison. *)
Theorem publish_override_only_enables `{PF : Platform}
    (environ : gmap string string) (cfg : Config) :
  let v := os_Getenv environ (EnvPrefix cfg +:+ "PUBLISH") in
  let cfg' := loadEnvOverrides environ cfg in
  (v = "true" -> Publish cfg' = true) /\
  (v <> "true" -> Publish cfg' = Publish cfg) /\
  (Publish cfg' = true <-> Publish cfg = true \/ v = "true").
Proof.
  cbv zeta. rewrite loadEnv_Publish.
  destruct (String.eqb_spec
              (os_Getenv environ (EnvPrefix cfg +:+ "PUBLISH")) "true")
    as [Htrue | Hother].
  - rewrite orb_true_r. split; [reflexivity |]. split.
    + intros Hne. destruct (Hne Htrue).
    + split; [intros _; right; exact Htrue | reflexivity].
  - rewrite orb_false_r. split; [intros Heq; destruct (Hother Heq) |].
    split; [reflexivity |]. split.
    + intros Hprior. left. exact Hprior.
    + intros [Hprior | Heq]; [exact Hprior | destruct (Hother Heq)].
Qed.

(** ** The loader on the sample process *)

Lemma defaults_only_construction_witness :
  none_set env_unrelated "EDGEX_" /\
  match fst (sample_New EmptyString env_unrelated) with
  | inr c =>
      Host (Broker (config c)) = "localhost" /\
      Port (Broker (config c)) = 1883 /\
      Protocol (Broker (config c)) = "tcp" /\
      Type_ (config c) = "mqtt" /\
      Topic (config c) = "edgex/events/#" /\
      Publish (config c) = false /\
      Interval (config c) = 10 /\
      LogLevel (config c) = "INFO"
  | inl err =>
      exists cause,
        FakeBus.New (busConfigOf (defaultConfig (Sample.uuid 0))) = inl cause /\
        err = fmt_Errorf "创建消息客户端失败: " cause
  end.
Proof.
  assert (Hnone : none_set env_unrelated "EDGEX_")
    by (unfold none_set, recognized; repeat constructor).
  split; [exact Hnone |].
  exact (defaults_only_construction (MC := FakeBus.client)
           (PF := Sample.platform) (Some Sample.collect)
           (Sample.process env_unrelated) Hnone).
Defined.

Example defaults_only_constructs :
  exists c, fst (sample_New EmptyString env_unrelated) = inr c /\
            ClientID (config c) = "EdgeXClient-7c9e6679-7425-40de-944b-0".
Proof. eexists. split; vm_compute; reflexivity. Qed.

Lemma config_overlay_order_witness :
  exists c,
    fst (sample_New "config.toml" env_overrides) = inr c /\
    Host (Broker (config c)) = "broker.internal" /\
    ClientID (config c) = "edge-7" /\
    Topic (config c) = "edgex/events/#" /\
    LogLevel (config c) = "INFO".
Proof.
  pose (cfg_file := Sample.config_toml (defaultConfig (Sample.uuid 0))).
  pose (bus := FakeBus.mk
                 (busConfigOf (loadEnvOverrides (H := Sample.platform)
                                 env_overrides cfg_file))
                 [] None None None None).
  destruct (config_overlay_order (MC := FakeBus.client)
              (PF := Sample.platform) "config.toml" (Some Sample.collect)
              (Sample.process env_overrides) cfg_file bus)
    as (c & Hnew & _ & _ & Hhost & _ & _ & Htopic & Hid & _ & _ & Hlevel
        & _).
  - reflexivity.
  - vm_compute. reflexivity.
  - exists c. unfold sample_New. rewrite Hnew.
    split; [reflexivity |].
    rewrite Hhost, Hid, Htopic, Hlevel.
    repeat split; vm_compute; reflexivity.
Defined.

(** C4, as stated, fails: the environment does not win over the file
    for [publish]. With [publish = true] in the file and PUBLISH=0 in the
    environment the result is true, not what the environment says. *)
Lemma environment_does_not_win_for_publish :
  exists c,
    fst (sample_New "config.toml" env_publish_0) = inr c /\
    Publish (Sample.config_toml (defaultConfig (Sample.uuid 0))) = true /\
    env_publish_0 !! (EnvPrefix (config c) +:+ "PUBLISH") = Some "0" /\
    Publish (config c)
    <> String.eqb (os_Getenv env_publish_0 (EnvPrefix (config c) +:+ "PUBLISH"))
         "true".
Proof.
  eexists. split; [vm_compute; reflexivity |].
  split; [reflexivity |]. split; [vm_compute; reflexivity |].
  vm_compute. discriminate.
Qed.

(** C5, as stated, fails: 12abc is no well-formed integer, and the
    loader does not keep the prior port 1883 but takes 12. *)
Lemma malformed_port_is_scanned :
  GoFmt.well_formed_integer (os_Getenv env_port_12abc "EDGEX_BROKER_PORT")
    = false /\
  Port (Broker (defaultConfig "0")) = 1883 /\
  Port (Broker (loadEnvOverrides (H := Sample.platform) env_port_12abc
                  (defaultConfig "0"))) = 12 /\
  Port (Broker (loadEnvOverrides (H := Sample.platform) env_port_12abc
                  (defaultConfig "0")))
    <> Port (Broker (defaultConfig "0")).
Proof. vm_compute. repeat split; discriminate. Qed.

(** The scan on blanks, signs and what follows the digits; U+00A0 is a
    blank, a newline is an error, and twenty nines fit no 64 bits. *)
Example scanInt_samples :
  GoFmt.scanInt "12abc" = Some 12 /\
  GoFmt.scanInt (String "194" (String "160" " +12abc")) = Some 12 /\
  GoFmt.scanInt (String "009" "-7") = Some (-7) /\
  GoFmt.scanInt (String "010" "12") = None /\
  GoFmt.scanInt "- 5" = None /\
  GoFmt.scanInt "abc" = None /\
  GoFmt.scanInt "99999999999999999999abc" = None.
Proof. vm_compute. repeat split; reflexivity. Qed.

Example non_numeric_integers_are_ignored :
  let cfg' := loadEnvOverrides (H := Sample.platform) env_port_abc
                (defaultConfig "0") in
  Port (Broker cfg') = 1883 /\ Interval cfg' = 10.
Proof. vm_compute. split; reflexivity. Qed.

Lemma publish_override_only_enables_witness :
  Publish (loadEnvOverrides (H := Sample.platform) env_publish_false
             (Sample.config_toml (defaultConfig "0"))) = true /\
  Publish (loadEnvOverrides (H := Sample.platform) env_publish_false
             (defaultConfig "0")) = false.
Proof.
  split.
  - rewrite (proj1 (proj2 (publish_override_only_enables (PF := Sample.platform)
                             env_publish_false
                             (Sample.config_toml (defaultConfig "0"))))).
    + reflexivity.
    + vm_compute. discriminate.
  - rewrite (proj1 (proj2 (publish_override_only_enables (PF := Sample.platform)
                             env_publish_false (defaultConfig "0")))).
    + reflexivity.
    + vm_compute. discriminate.
Defined.

(** C7, as stated, fails: with [publish = true] in the file and
    PUBLISH=false in the environment, [publish] stays true. *)
Lemma publish_false_does_not_disable :
  exists c,
    fst (sample_New "config.toml" env_publish_false) = inr c /\
    os_Getenv env_publish_false (EnvPrefix (config c) +:+ "PUBLISH") = "false" /\
    ~ (Publish (config c) = true <->
       os_Getenv env_publish_false (EnvPrefix (config c) +:+ "PUBLISH")
       = "true").
Proof.
  eexists. split; [vm_compute; reflexivity |].
  split; [vm_compute; reflexivity |].
  vm_compute. intros [Hto _]. specialize (Hto eq_refl). discriminate Hto.
Qed.

(** * The client *)

(** Unfolding of the monad and of the primitive actions. *)
Ltac run :=
  unfold bus_call, logger_Info, logger_Error, wg_Add, wg_Done, go,
    call_handler, uuid_New_String, time_Now_, close_stopCh, time_NewTicker,
    unwinding,
    modify_client, modify_process, get_client, get_process, panic, block,
    mbind, M_bind, mret, M_ret in *;
  repeat (cbn [fst snd negb] in *; cbv beta iota in * ).

Ltac setters :=
  unfold set_logger, set_messageBus, set_stopCh, set_wg, set_uuids,
    set_clock, set_goroutines, set_called in *;
  cbn [config logger messageBus stopCh wg handler
       environ uuids clock goroutines calls user fst snd negb] in *;
  cbv beta iota in *.

Section StartFacts.
Context {B U : Type} `{MC : messaging.MessageClient B}.

(** C8. [Start] connects first: when [Connect] fails it returns the
    wrapped error, the bus having seen [Connect] only, and spawns
    nothing. When [Connect] succeeds and [Subscribe] fails it returns the
    wrapped error and spawns nothing. Only when both succeed does it
    spawn the dispatch loop, the publish loop exactly when
    [config.publish] is set, and the signal watcher, and return nil. *)
Theorem Start_error_propagation (c : MQTTClient B U) (p : Process U) :
  match messaging.Connect (messageBus c) with
  | (Some err, b1) =>
      Start (c, p)
      = (Ret (Some (fmt_Errorf "连接消息总线失败: " err)),
         (set_messageBus b1 c, p))
  | (None, b1) =>
      let c1 := set_logger (logger c ++ [Info "成功连接到MQTT消息总线"])
                  (set_messageBus b1 c) in
      let topics :=
        [types.mkTopicChannel (Topic (config c)) types.messages] in
      match messaging.Subscribe topics types.messageErrs b1 with
      | (Some err, b2) =>
          Start (c, p)
          = (Ret (Some (fmt_Errorf "订阅消息失败: " err)),
             (set_messageBus b2 c1, p))
      | (None, b2) =>
          let c2 :=
            set_logger
              (logger c1 ++ [Info ("成功订阅主题: " +:+ Topic (config c))])
              (set_messageBus b2 c1) in
          Start (c, p)
          = (Ret None,
             (set_wg (wg c + 1 + (if Publish (config c) then 1 else 0)) c2,
              set_goroutines
                (goroutines p ++ spawned (Publish (config c))) p))
      end
  end.
Proof.
  unfold Start. run.
  destruct (messaging.Connect (messageBus c)) as [[err |] b1];
    [reflexivity |].
  cbn [fst snd set_messageBus set_logger messageBus config logger].
  destruct (messaging.Subscribe _ _ b1) as [[err |] b2]; [reflexivity |].
  cbv zeta.
  destruct c as [cfg lg bus closed n h], p as [env us ck gs cs u].
  cbn. destruct (Publish cfg); cbn; unfold spawned;
    rewrite <- ?app_assoc; setters; rewrite ?Z.add_0_r; reflexivity.
Qed.

End StartFacts.

Section DispatchFacts.
Context {B U : Type}.

(** C2. An envelope whose content type is not application/json is
    logged as received, an error is logged, and nothing else happens: the
    process, and with it the record of callback invocations and the
    user's state, is unchanged, the loop goes on with what comes next,
    and the outcome does not depend on the decoder. *)
Theorem content_type_gate `{JC : JSONCodec} (msg : types.MessageEnvelope)
    (inbox : list Recv) (c : MQTTClient B U) (p : Process U) :
  types.ContentType msg <> "application/json" ->
  let c' :=
    set_logger
      (logger c
       ++ [ Info ("收到消息 - 主题: " +:+ types.ReceivedTopic msg
                    +:+ ", 关联ID: " +:+ types.CorrelationID msg);
            Error ("无效的内容类型: 收到 " +:+ types.ContentType msg
                     +:+ ", 期望 application/json") ]) c in
  handleMessage msg (c, p) = (Ret tt, (c', p)) /\
  calls (snd (snd (handleMessage msg (c, p)))) = calls p /\
  user (snd (snd (handleMessage msg (c, p)))) = user p /\
  handleMessages (RecvMsg msg :: inbox) (c, p) = handleMessages inbox (c', p) /\
  forall JC' : JSONCodec,
    handleMessage (JC := JC') msg (c, p) = handleMessage (JC := JC) msg (c, p).
Proof.
  intros Hct. apply String.eqb_neq in Hct.
  assert (Hgate : forall JC0 : JSONCodec,
             handleMessage (JC := JC0) msg (c, p)
             = (Ret tt,
                (set_logger
                   (logger c
                    ++ [ Info ("收到消息 - 主题: " +:+ types.ReceivedTopic msg
                                 +:+ ", 关联ID: " +:+ types.CorrelationID msg);
                         Error ("无效的内容类型: 收到 " +:+ types.ContentType msg
                                  +:+ ", 期望 application/json") ]) c, p))).
  { intros JC0. unfold handleMessage. rewrite Hct. run. setters.
    rewrite <- app_assoc. reflexivity. }
  cbv zeta. repeat split.
  - apply Hgate.
  - rewrite Hgate. reflexivity.
  - rewrite Hgate. reflexivity.
  - cbn [handleMessages]. unfold mbind at 1, M_bind at 1.
    rewrite Hgate. reflexivity.
  - intros JC'. rewrite !Hgate. reflexivity.
Qed.

(** Whatever the codec, [PublishEvent] hands the bus an envelope with
    content type application/json and the bytes the codec wrote, and the
    dispatch loop, given that envelope as received on a topic, invokes
    the callback once, with that topic and the event the codec reads
    from those bytes. *)
Lemma publish_then_dispatch `{MC : messaging.MessageClient B}
    `{PF : Platform} `{JC : JSONCodec}
    (event delivered : dtos.Event.t) (payload : list Byte.byte)
    (topic received_topic : string) (h : @MessageHandler U)
    (c : MQTTClient B U) (p : Process U)
    (c_rx : MQTTClient B U) (p_rx : Process U) (inbox : list Recv) :
  json_Marshal event = inr payload ->
  json_Unmarshal payload = inr delivered ->
  handler c_rx = Some h ->
  let sent :=
    types.mkEnvelope EmptyString (uuid_New (uuids p)) payload
      "application/json" in
  let inbound := received_on received_topic sent in
  let st_rx :=
    (set_logger
       (logger c_rx
        ++ [ Info ("收到消息 - 主题: " +:+ received_topic
                     +:+ ", 关联ID: " +:+ uuid_New (uuids p)) ]) c_rx,
     set_called (calls p_rx ++ [(received_topic, delivered)])
       (h received_topic delivered (user p_rx)) p_rx) in
  messageBus (fst (snd (PublishEvent event topic (c, p))))
    = snd (messaging.Publish sent topic (messageBus c)) /\
  handleMessage inbound (c_rx, p_rx) = (Ret tt, st_rx) /\
  handleMessages (RecvMsg inbound :: inbox) (c_rx, p_rx)
    = handleMessages inbox st_rx.
Proof.
  intros Hmarshal Hunmarshal Hhandler. cbv zeta.
  assert (Hdeliver :
    handleMessage
      (received_on received_topic
         (types.mkEnvelope EmptyString (uuid_New (uuids p)) payload
            "application/json")) (c_rx, p_rx)
    = (Ret tt,
       (set_logger
          (logger c_rx
           ++ [ Info ("收到消息 - 主题: " +:+ received_topic
                        +:+ ", 关联ID: " +:+ uuid_New (uuids p)) ]) c_rx,
        set_called (calls p_rx ++ [(received_topic, delivered)])
          (h received_topic delivered (user p_rx)) p_rx))).
  { unfold handleMessage, received_on.
    cbn [types.ContentType types.Payload types.ReceivedTopic
         types.CorrelationID].
    cbn [String.eqb Ascii.eqb Bool.eqb negb].
    rewrite Hunmarshal. run. setters. rewrite Hhandler. reflexivity. }
  repeat split.
  - unfold PublishEvent. rewrite Hmarshal. run.
    destruct (messaging.Publish _ topic (messageBus c)) as [[err |] b];
      reflexivity.
  - exact Hdeliver.
  - cbn [handleMessages]. unfold mbind at 1, M_bind at 1.
    rewrite Hdeliver. reflexivity.
Qed.

End DispatchFacts.

(** ** The JSON codec: what is written is read back *)

Module JSONFacts.
Import GoJSON.

Lemma append_assoc (s1 s2 s3 : string) :
  (s1 +:+ s2) +:+ s3 = s1 +:+ s2 +:+ s3.
Proof.
  induction s1 as [| a s1 IH]; [reflexivity |].
  change (String a ((s1 +:+ s2) +:+ s3) = String a (s1 +:+ s2 +:+ s3)).
  rewrite IH. reflexivity.
Qed.

Lemma append_length (s1 s2 : string) :
  String.length (s1 +:+ s2) = (String.length s1 + String.length s2)%nat.
Proof.
  induction s1 as [| a s1 IH]; [reflexivity |].
  change (S (String.length (s1 +:+ s2))
          = S (String.length s1 + String.length s2)).
  rewrite IH. reflexivity.
Qed.

(** A byte from 0x80 on is no quote, no backslash and no control
    character. *)
Lemma high_byte (a : ascii) :
  (byte_of a <? 128) = false ->
  Ascii.eqb a dquote = false /\ Ascii.eqb a backslash = false /\
  (byte_of a <? 32) = false.
Proof.
  destruct a as [[] [] [] [] [] [] [] []]; vm_compute; intros H;
    try discriminate H; repeat split.
Qed.

(** Induction along the runes of a string. *)
Lemma rune_ind (P : string -> Prop) :
  P EmptyString ->
  (forall a r, (byte_of a <? 128) = true -> P r -> P (String a r)) ->
  (forall a b r,
     (byte_of a <? 128) = false -> valid2 a b = true ->
     P r -> P (String a (String b r))) ->
  (forall a b c r,
     (byte_of a <? 128) = false -> valid2 a b = false ->
     valid3 a b c = true ->
     P r -> P (String a (String b (String c r)))) ->
  (forall a b c d r,
     (byte_of a <? 128) = false -> valid2 a b = false ->
     valid3 a b c = false -> valid4 a b c d = true ->
     P r -> P (String a (String b (String c (String d r))))) ->
  (forall a r,
     (byte_of a <? 128) = false -> rune_width (String a r) = 0%nat ->
     P r -> P (String a r)) ->
  forall s, P s.
Proof.
  intros Hnil H1 H2 H3 H4 H0 s.
  assert (Hall : forall n s, (String.length s <= n)%nat -> P s).
  { clear s. induction n as [| n IH]; intros s Hlen.
    - destruct s; [exact Hnil | cbn in Hlen; lia].
    - destruct s as [| a r1]; [exact Hnil |].
      cbn [String.length] in Hlen.
      assert (Hr1 : P r1) by (apply IH; lia).
      destruct (byte_of a <? 128) eqn:Ha; [apply H1; assumption |].
      destruct r1 as [| b r2].
      { apply H0; [exact Ha | cbn [rune_width]; rewrite Ha; reflexivity
                  | exact Hr1]. }
      cbn [String.length] in Hlen.
      destruct (valid2 a b) eqn:Hv2.
      { apply H2; [exact Ha | exact Hv2 | apply IH; lia]. }
      destruct r2 as [| c r3].
      { apply H0; [exact Ha | cbn [rune_width]; rewrite Ha, Hv2; reflexivity
                  | exact Hr1]. }
      cbn [String.length] in Hlen.
      destruct (valid3 a b c) eqn:Hv3.
      { apply H3; [exact Ha | exact Hv2 | exact Hv3 | apply IH; lia]. }
      destruct r3 as [| d r4].
      { apply H0; [exact Ha
                  | cbn [rune_width]; rewrite Ha, Hv2, Hv3; reflexivity
                  | exact Hr1]. }
      cbn [String.length] in Hlen.
      destruct (valid4 a b c d) eqn:Hv4.
      { apply H4; [exact Ha | exact Hv2 | exact Hv3 | exact Hv4
                  | apply IH; lia]. }
      apply H0; [exact Ha
                | cbn [rune_width]; rewrite Ha, Hv2, Hv3, Hv4; reflexivity
                | exact Hr1]. }
  apply (Hall (String.length s)). lia.
Qed.

(** A well-formed string is left as it is. *)
Lemma ToValidUTF8_Valid (s : string) : Valid s = true -> ToValidUTF8 s = s.
Proof.
  pattern s. apply rune_ind; clear s.
  - reflexivity.
  - intros a r Ha IH. cbn [Valid ToValidUTF8 rune_width]. rewrite Ha.
    intros Hv. rewrite IH by exact Hv. reflexivity.
  - intros a b r Ha Hv2 IH. cbn [Valid ToValidUTF8 rune_width].
    rewrite Ha, Hv2. intros Hv. rewrite IH by exact Hv. reflexivity.
  - intros a b c r Ha Hv2 Hv3 IH. cbn [Valid ToValidUTF8 rune_width].
    rewrite Ha, Hv2, Hv3. intros Hv. rewrite IH by exact Hv. reflexivity.
  - intros a b c d r Ha Hv2 Hv3 Hv4 IH. cbn [Valid ToValidUTF8 rune_width].
    rewrite Ha, Hv2, Hv3, Hv4. intros Hv. rewrite IH by exact Hv.
    reflexivity.
  - intros a r Ha Hw IH. cbn [Valid]. rewrite Hw. intros Hv.
    discriminate Hv.
Qed.

Lemma ToValidUTF8_length (s : string) :
  (String.length s <= String.length (ToValidUTF8 s))%nat.
Proof.
  pattern s. apply rune_ind; clear s.
  - reflexivity.
  - intros a r Ha IH. cbn [ToValidUTF8 rune_width]. rewrite Ha.
    cbn [String.length]. lia.
  - intros a b r Ha Hv2 IH. cbn [ToValidUTF8 rune_width].
    rewrite Ha, Hv2. cbn [String.length]. lia.
  - intros a b c r Ha Hv2 Hv3 IH. cbn [ToValidUTF8 rune_width].
    rewrite Ha, Hv2, Hv3. cbn [String.length]. lia.
  - intros a b c d r Ha Hv2 Hv3 Hv4 IH. cbn [ToValidUTF8 rune_width].
    rewrite Ha, Hv2, Hv3, Hv4. cbn [String.length]. lia.
  - intros a r Ha Hw IH. cbn [ToValidUTF8]. rewrite Hw.
    rewrite append_length. cbn [String.length replacement]. lia.
Qed.

(** And only a well-formed string is. *)
Lemma ToValidUTF8_fixed (s : string) : ToValidUTF8 s = s -> Valid s = true.
Proof.
  pattern s. apply rune_ind; clear s.
  - reflexivity.
  - intros a r Ha IH. cbn [Valid ToValidUTF8 rune_width]. rewrite Ha.
    intros Heq. injection Heq as Heq. exact (IH Heq).
  - intros a b r Ha Hv2 IH. cbn [Valid ToValidUTF8 rune_width].
    rewrite Ha, Hv2. intros Heq. injection Heq as Heq. exact (IH Heq).
  - intros a b c r Ha Hv2 Hv3 IH. cbn [Valid ToValidUTF8 rune_width].
    rewrite Ha, Hv2, Hv3. intros Heq. injection Heq as Heq. exact (IH Heq).
  - intros a b c d r Ha Hv2 Hv3 Hv4 IH. cbn [Valid ToValidUTF8 rune_width].
    rewrite Ha, Hv2, Hv3, Hv4. intros Heq. injection Heq as Heq.
    exact (IH Heq).
  - intros a r Ha Hw IH. cbn [ToValidUTF8]. rewrite Hw. intros Heq.
    apply (f_equal String.length) in Heq.
    rewrite append_length in Heq. cbn [String.length replacement] in Heq.
    pose proof (ToValidUTF8_length r). lia.
Qed.

(** What [unquote] makes of what [escape] writes for one rune. *)
Lemma unquote_escape_byte (a : ascii) (tail : string) :
  (byte_of a <? 128) = true ->
  unquote (escape_byte a +:+ tail)
  = prepend (String a EmptyString) (unquote tail).
Proof.
  destruct a as [[] [] [] [] [] [] [] []]; intros Ha;
    try discriminate Ha; reflexivity.
Qed.

Lemma unquote_replacement (tail : string) :
  unquote ("\ufffd" +:+ tail) = prepend replacement (unquote tail).
Proof. reflexivity. Qed.

Lemma unquote_separator (a b c : ascii) (tail : string) :
  is_separator a b c = true ->
  unquote ("\u202" +:+ String (hex (Z.land (byte_of c) 15)) tail)
  = prepend (String a (String b (String c EmptyString))) (unquote tail).
Proof.
  unfold is_separator. intros Hsep.
  apply andb_true_iff in Hsep as [Hab Hc].
  apply andb_true_iff in Hab as [Ha Hb].
  apply Ascii.eqb_eq in Ha, Hb. subst a b.
  apply orb_true_iff in Hc as [Hc | Hc]; apply Ascii.eqb_eq in Hc; subst c;
    reflexivity.
Qed.

Lemma prepend_Some (pre v r : string) :
  prepend pre (Some (v, r)) = Some (pre +:+ v, r).
Proof. reflexivity. Qed.

(** The round trip of a string: behind the opening quote, [unquote]
    reads what [escape] wrote up to the closing quote, as the string
    made well-formed. *)
Lemma unquote_escape (s rest : string) :
  unquote (escape s +:+ String dquote rest) = Some (ToValidUTF8 s, rest).
Proof.
  pattern s. apply rune_ind; clear s.
  - reflexivity.
  - intros a r Ha IH. cbn [escape ToValidUTF8 rune_width]. rewrite Ha.
    cbv iota. rewrite append_assoc, (unquote_escape_byte _ _ Ha), IH.
    reflexivity.
  - intros a b r Ha Hv2 IH. cbn [escape ToValidUTF8 rune_width].
    rewrite Ha, Hv2. cbv iota.
    change (String a (String b (escape r)) +:+ String dquote rest)
      with (String a (String b (escape r +:+ String dquote rest))).
    destruct (high_byte a Ha) as (Hq & Hb & Hc).
    cbn [unquote rune_width]. rewrite Hq, Hb, Hc, Ha, Hv2. cbv iota.
    rewrite IH. reflexivity.
  - intros a b c r Ha Hv2 Hv3 IH. cbn [escape ToValidUTF8 rune_width].
    rewrite Ha, Hv2, Hv3. cbv iota.
    destruct (is_separator a b c) eqn:Hsep.
    + rewrite append_assoc.
      change (String (hex (Z.land (byte_of c) 15)) (escape r)
              +:+ String dquote rest)
        with (String (hex (Z.land (byte_of c) 15))
                (escape r +:+ String dquote rest)).
      rewrite (unquote_separator a b c _ Hsep), IH. reflexivity.
    + change (String a (String b (String c (escape r))) +:+ String dquote rest)
        with (String a (String b (String c (escape r +:+ String dquote rest)))).
      destruct (high_byte a Ha) as (Hq & Hb & Hc).
      cbn [unquote rune_width]. rewrite Hq, Hb, Hc, Ha, Hv2, Hv3. cbv iota.
      rewrite IH. reflexivity.
  - intros a b c d r Ha Hv2 Hv3 Hv4 IH. cbn [escape ToValidUTF8 rune_width].
    rewrite Ha, Hv2, Hv3, Hv4. cbv iota.
    change (String a (String b (String c (String d (escape r))))
            +:+ String dquote rest)
      with (String a (String b (String c (String d
              (escape r +:+ String dquote rest))))).
    destruct (high_byte a Ha) as (Hq & Hb & Hc).
    cbn [unquote rune_width]. rewrite Hq, Hb, Hc, Ha, Hv2, Hv3, Hv4.
    cbv iota. rewrite IH. reflexivity.
  - intros a r Ha Hw IH. cbn [escape ToValidUTF8]. rewrite Hw. cbv iota.
    rewrite append_assoc, unquote_replacement, IH. reflexivity.
Qed.

Lemma expect_append (lit rest : string) :
  expect lit (lit +:+ rest) = Some rest.
Proof.
  induction lit as [| a lit IH]; [reflexivity |].
  change (String a lit +:+ rest) with (String a (lit +:+ rest)).
  cbn [expect]. rewrite Ascii.eqb_refl. exact IH.
Qed.

Lemma read_string_appendString (s rest : string) :
  read_string (appendString s +:+ rest) = Some (ToValidUTF8 s, rest).
Proof.
  unfold read_string, appendString.
  change (String dquote (escape s +:+ String dquote EmptyString) +:+ rest)
    with (String dquote EmptyString
          +:+ ((escape s +:+ String dquote EmptyString) +:+ rest)).
  rewrite expect_append, append_assoc. cbn [mbind option_bind].
  apply unquote_escape.
Qed.

Lemma string_field_print (name s rest : string) :
  string_field name (key name +:+ appendString s +:+ rest)
  = Some (ToValidUTF8 s, rest).
Proof.
  unfold string_field. rewrite expect_append. cbn [mbind option_bind].
  apply read_string_appendString.
Qed.

(** The digits [strconv.AppendInt] writes are read back as far as they
    go. *)
Lemma span_digits_print (d : Decimal.uint) (tail : string) :
  span_digits (NilEmpty.string_of_uint d +:+ String "," tail)
  = (NilEmpty.string_of_uint d, String "," tail).
Proof.
  induction d as [| d IH | d IH | d IH | d IH | d IH | d IH | d IH | d IH
                 | d IH | d IH ];
    [reflexivity | ..];
    cbn [NilEmpty.string_of_uint];
    match goal with
    | |- context [String ?a ?s +:+ ?t] =>
        change (String a s +:+ t) with (String a (s +:+ t))
    end;
    cbn [span_digits]; rewrite IH; reflexivity.
Qed.

(** The decimal form of a positive number begins with no zero. *)
Lemma to_uint_no_leading_zero (p : positive) (d : Decimal.uint) :
  Pos.to_uint p <> Decimal.D0 d.
Proof.
  intros Heq.
  assert (Hnorm : Decimal.unorm (Pos.to_uint p) = Pos.to_uint p).
  { rewrite <- (Unsigned.to_of (Pos.to_uint p)), Unsigned.of_to.
    reflexivity. }
  rewrite Heq, unorm_D0 in Hnorm.
  destruct d as [| d | d | d | d | d | d | d | d | d | d ];
    [exact (Unsigned.to_uint_nonzero p Heq) | ..];
    match type of Hnorm with
    | Decimal.unorm ?u = _ =>
        assert (Hlen : (Decimal.nb_digits (Decimal.unorm u)
                        <= Decimal.nb_digits u)%nat)
          by (apply nb_digits_unorm; discriminate);
        rewrite Hnorm in Hlen; cbn [Decimal.nb_digits] in Hlen; lia
    end.
Qed.

Lemma leading_zero_print (p : positive) :
  leading_zero (NilEmpty.string_of_uint (Pos.to_uint p)) = false.
Proof.
  pose proof (to_uint_no_leading_zero p) as Hlead.
  destruct (Pos.to_uint p) as [| d | d | d | d | d | d | d | d | d | d ];
    [reflexivity | destruct (Hlead d); reflexivity | ..];
    cbn [NilEmpty.string_of_uint leading_zero];
    destruct (NilEmpty.string_of_uint d); reflexivity.
Qed.

Lemma print_nonempty (p : positive) :
  exists a ds,
    NilEmpty.string_of_uint (Pos.to_uint p) = String a ds /\
    Ascii.eqb a "-"%char = false.
Proof.
  pose proof (Unsigned.to_uint_nonnil p) as Hnil.
  destruct (Pos.to_uint p) as [| d | d | d | d | d | d | d | d | d | d ];
    [destruct Hnil; reflexivity | ..];
    cbn [NilEmpty.string_of_uint]; eexists _, _; split; reflexivity.
Qed.

Lemma string_of_uint_print (p : positive) :
  NilZero.string_of_uint (Pos.to_uint p)
  = NilEmpty.string_of_uint (Pos.to_uint p).
Proof.
  pose proof (Unsigned.to_uint_nonnil p) as Hnil.
  unfold NilZero.string_of_uint.
  destruct (Pos.to_uint p); [destruct Hnil | ..]; reflexivity.
Qed.

(** The round trip of an integer that fits 64 bits. *)
Lemma read_int_AppendInt (z : Z) (tail : string) :
  int64 z = true ->
  read_int (AppendInt z +:+ String "," tail) = Some (z, String "," tail).
Proof.
  intros Hfits. unfold int64 in Hfits.
  assert (Hparse : z <> 0 ->
    NilZero.int_of_string (AppendInt z) = Some (Z.to_int z)).
  { intros Hz. unfold AppendInt. apply NilZero.isi; destruct z as [| p | p];
      try (destruct Hz; reflexivity); cbn [Z.to_int];
      intros Heq; try discriminate Heq;
      injection Heq as Heq; exact (Unsigned.to_uint_nonnil p Heq). }
  pose proof (DecimalZ.of_to z) as Hvalue.
  destruct z as [| p | p]; [reflexivity | |];
    specialize (Hparse ltac:(discriminate));
    unfold AppendInt in *; cbn [Z.to_int NilZero.string_of_int] in *;
    rewrite string_of_uint_print in *;
    pose proof (span_digits_print (Pos.to_uint p) tail) as Hspan;
    pose proof (leading_zero_print p) as Hlead;
    destruct (print_nonempty p) as (a & ds & Hds & Hminus);
    rewrite Hds in *.
  - change (String a ds +:+ String "," tail)
      with (String a (ds +:+ String "," tail)) in *.
    unfold read_int. rewrite Hminus, Hspan, Hlead.
    cbn [String.eqb continues_number Ascii.eqb Bool.eqb orb].
    change (EmptyString +:+ String a ds) with (String a ds).
    rewrite Hparse, Hvalue. cbv zeta. rewrite Hfits. reflexivity.
  - change (String "-" (String a ds) +:+ String "," tail)
      with (String "-" (String a ds +:+ String "," tail)).
    unfold read_int. cbn [Ascii.eqb Bool.eqb]. cbv iota beta.
    rewrite Hspan, Hlead.
    cbn [String.eqb continues_number Ascii.eqb Bool.eqb orb].
    change ("-" +:+ String a ds) with (String "-" (String a ds)).
    rewrite Hparse, Hvalue. cbv zeta. rewrite Hfits. reflexivity.
Qed.

Lemma int_field_print (name : string) (z : Z) (rest : string) :
  int64 z = true ->
  int_field name (key name +:+ AppendInt z +:+ "," +:+ rest)
  = Some (z, "," +:+ rest).
Proof.
  intros Hfits. unfold int_field. rewrite expect_append.
  cbn [mbind option_bind].
  apply (read_int_AppendInt z rest Hfits).
Qed.

Ltac read_member :=
  first [ rewrite expect_append
        | rewrite string_field_print
        | rewrite int_field_print by assumption ];
  cbn [mbind option_bind]; cbv beta iota.

Lemma read_reading_print (r : dtos.BaseReading.t) (rest : string) :
  int64 (dtos.BaseReading.Origin r) = true ->
  read_reading (print_reading r +:+ rest)
  = Some (ToValidUTF8_reading r, rest).
Proof.
  intros Hfits. unfold print_reading, read_reading.
  rewrite !append_assoc. repeat read_member. reflexivity.
Qed.

Lemma print_reading_head (r : dtos.BaseReading.t) :
  exists s, print_reading r = String "{" s.
Proof. eexists. reflexivity. Qed.

Lemma print_readings_head (r : dtos.BaseReading.t)
    (rs : list dtos.BaseReading.t) :
  exists s, print_readings (r :: rs) = String "{" s.
Proof. destruct rs; eexists; reflexivity. Qed.

Lemma print_readings_length (rs : list dtos.BaseReading.t) :
  (length rs <= String.length (print_readings rs))%nat.
Proof.
  induction rs as [| r rs IH]; [reflexivity |].
  destruct (print_reading_head r) as [s Hs].
  destruct rs as [| r2 rs].
  - cbn [print_readings length]. rewrite Hs. cbn [String.length]. lia.
  - change (print_readings (r :: r2 :: rs))
      with (print_reading r +:+ "," +:+ print_readings (r2 :: rs)).
    rewrite !append_length, Hs. cbn [String.length length] in *. lia.
Qed.

Lemma read_more_print (rs : list dtos.BaseReading.t) :
  forall (r : dtos.BaseReading.t) (fuel : nat) (rest : string),
    (length (r :: rs) <= fuel)%nat ->
    forallb (fun r => int64 (dtos.BaseReading.Origin r)) (r :: rs) = true ->
    read_more fuel (print_readings (r :: rs) +:+ "]" +:+ rest)
    = Some (List.map ToValidUTF8_reading (r :: rs), rest).
Proof.
  induction rs as [| r2 rs IH]; intros r fuel rest Hfuel Hfits;
    (destruct fuel as [| fuel]; [cbn [length] in Hfuel; lia |]);
    cbn [forallb] in Hfits; apply andb_true_iff in Hfits as [Hr Hfits].
  - cbn [print_readings read_more List.map].
    rewrite (read_reading_print r _ Hr). cbn [mbind option_bind].
    cbv beta iota. reflexivity.
  - change (print_readings (r :: r2 :: rs))
      with (print_reading r +:+ "," +:+ print_readings (r2 :: rs)).
    rewrite !append_assoc. cbn [read_more].
    rewrite (read_reading_print r _ Hr). cbn [mbind option_bind].
    cbv beta iota. rewrite expect_append.
    rewrite (IH r2 fuel rest); [reflexivity | cbn [length] in *; lia |].
    cbn [forallb]. exact Hfits.
Qed.

Lemma read_readings_print (rs : list dtos.BaseReading.t) (rest : string) :
  forallb (fun r => int64 (dtos.BaseReading.Origin r)) rs = true ->
  read_readings ("[" +:+ print_readings rs +:+ "]" +:+ rest)
  = Some (List.map ToValidUTF8_reading rs, rest).
Proof.
  intros Hfits. destruct rs as [| r rs]; [reflexivity |].
  unfold read_readings.
  change (expect "null" ("[" +:+ print_readings (r :: rs) +:+ "]" +:+ rest))
    with (@None string).
  rewrite expect_append. cbn [mbind option_bind].
  destruct (print_readings_head r rs) as [s Hs].
  assert (Hclose : expect "]" (print_readings (r :: rs) +:+ "]" +:+ rest)
                   = None) by (rewrite Hs; reflexivity).
  rewrite Hclose. apply read_more_print; [| exact Hfits].
  rewrite append_length. pose proof (print_readings_length (r :: rs)). lia.
Qed.

(** The round trip of an event: what [json.Marshal] writes,
    [json.Unmarshal] reads back as the event with its strings made
    well-formed UTF-8. *)
Lemma Unmarshal_Marshal (event : dtos.Event.t) :
  int64_event event = true ->
  exists payload,
    json_Marshal event = inr payload /\
    json_Unmarshal payload = inr (ToValidUTF8_event event).
Proof.
  intros Hfits. unfold int64_event in Hfits.
  apply andb_true_iff in Hfits as [Horigin Hreadings].
  eexists. split; [reflexivity |].
  cbn [json_Unmarshal codec]. rewrite string_of_list_byte_of_string.
  unfold print_event, read_event. repeat read_member.
  rewrite (read_readings_print _ _ Hreadings). reflexivity.
Qed.

(** An event of well-formed strings is left as it is. *)
Lemma ToValidUTF8_reading_Valid (r : dtos.BaseReading.t) :
  Valid_reading r = true -> ToValidUTF8_reading r = r.
Proof.
  unfold Valid_reading, ToValidUTF8_reading. intros Hv.
  repeat (apply andb_true_iff in Hv as [Hv ?]).
  destruct r as [id dev res prof origin vt [v]]; cbn in *.
  rewrite !ToValidUTF8_Valid by assumption. reflexivity.
Qed.

Lemma ToValidUTF8_event_Valid (event : dtos.Event.t) :
  Valid_event event = true -> ToValidUTF8_event event = event.
Proof.
  unfold Valid_event, ToValidUTF8_event. intros Hv.
  repeat (apply andb_true_iff in Hv as [Hv ?]).
  destruct event as [id dev prof src origin rs]; cbn in *.
  rewrite !ToValidUTF8_Valid by assumption. f_equal.
  induction rs as [| r rs IH]; [reflexivity |].
  cbn [forallb List.map] in *.
  match goal with
  | H : _ && _ = true |- _ => apply andb_true_iff in H as [Hr Hrs]
  end.
  rewrite (ToValidUTF8_reading_Valid r Hr), (IH Hrs). reflexivity.
Qed.

Lemma ToValidUTF8_reading_fixed (r : dtos.BaseReading.t) :
  ToValidUTF8_reading r = r -> Valid_reading r = true.
Proof.
  destruct r as [id dev res prof origin vt [v]].
  unfold ToValidUTF8_reading, Valid_reading. cbn.
  intros Heq. injection Heq as Hid Hdev Hres Hprof Hvt Hv.
  rewrite !ToValidUTF8_fixed by assumption. reflexivity.
Qed.

Lemma ToValidUTF8_event_fixed (event : dtos.Event.t) :
  ToValidUTF8_event event = event -> Valid_event event = true.
Proof.
  destruct event as [id dev prof src origin rs].
  unfold ToValidUTF8_event, Valid_event. cbn.
  intros Heq. injection Heq as Hid Hdev Hprof Hsrc Hrs.
  rewrite !ToValidUTF8_fixed by assumption. cbn [andb].
  induction rs as [| r rs IH]; [reflexivity |].
  cbn [List.map forallb] in *. injection Hrs as Hr Hrs.
  rewrite (ToValidUTF8_reading_fixed r Hr), (IH Hrs). reflexivity.
Qed.

End JSONFacts.

(** C3, as stated, fails: a string that is not well-formed UTF-8 does
    not come back. The byte 0xFF of the id is written as the escape of
    U+FFFD, and the callback is given an event whose id begins with the
    three bytes of U+FFFD instead. *)
Lemma invalid_utf8_is_not_round_tripped :
  exists sent delivered,
    FakeBus.received
      (messageBus (fst (snd (PublishEvent (MC := FakeBus.client)
                               (PF := Sample.platform) (JC := GoJSON.codec)
                               Sample.event_FF "edgex/events/ns/dev"
                               (sample_client, sample_process)))))
    = [FakeBus.Publish sent "edgex/events/ns/dev"] /\
    types.ContentType sent = "application/json" /\
    @json_Marshal GoJSON.codec Sample.event_FF = inr (types.Payload sent) /\
    user (snd (snd (handleMessage (JC := GoJSON.codec)
                      (received_on "edgex/events/ns/dev" sent)
                      (sample_client, sample_process))))
    = [("edgex/events/ns/dev", delivered)] /\
    dtos.Event.Id Sample.event_FF = String "255" "E-1" /\
    dtos.Event.Id delivered = GoJSON.replacement +:+ "E-1" /\
    delivered <> Sample.event_FF.
Proof.
  eexists _, _.
  split; [vm_compute; reflexivity |].
  split; [reflexivity |].
  split; [vm_compute; reflexivity |].
  split; [vm_compute; reflexivity |].
  split; [reflexivity |].
  split; [vm_compute; reflexivity |].
  vm_compute. discriminate.
Qed.

(** C3, as amended. With Go's JSON codec, [PublishEvent] hands the bus an
    envelope with content type application/json and the encoded event,
    and the dispatch loop, given that envelope as received on a topic,
    invokes the callback once, with that topic and the published event
    in which every string has been made well-formed UTF-8; that is
    exactly the published event if and only if all its strings are
    well-formed UTF-8. *)
Theorem publish_dispatch_roundtrip {B U : Type}
    `{MC : messaging.MessageClient B} `{PF : Platform}
    (event : dtos.Event.t)
    (topic received_topic : string) (h : @MessageHandler U)
    (c : MQTTClient B U) (p : Process U)
    (c_rx : MQTTClient B U) (p_rx : Process U) (inbox : list Recv) :
  GoJSON.int64_event event = true ->
  handler c_rx = Some h ->
  let payload := list_byte_of_string (GoJSON.print_event event) in
  let delivered := GoJSON.ToValidUTF8_event event in
  let sent :=
    types.mkEnvelope EmptyString (uuid_New (uuids p)) payload
      "application/json" in
  let inbound := received_on received_topic sent in
  let st_rx :=
    (set_logger
       (logger c_rx
        ++ [ Info ("收到消息 - 主题: " +:+ received_topic
                     +:+ ", 关联ID: " +:+ uuid_New (uuids p)) ]) c_rx,
     set_called (calls p_rx ++ [(received_topic, delivered)])
       (h received_topic delivered (user p_rx)) p_rx) in
  @json_Marshal GoJSON.codec event = inr payload /\
  messageBus (fst (snd (PublishEvent (JC := GoJSON.codec) event topic (c, p))))
    = snd (messaging.Publish sent topic (messageBus c)) /\
  handleMessage (JC := GoJSON.codec) inbound (c_rx, p_rx) = (Ret tt, st_rx) /\
  handleMessages (JC := GoJSON.codec) (RecvMsg inbound :: inbox) (c_rx, p_rx)
    = handleMessages (JC := GoJSON.codec) inbox st_rx /\
  (delivered = event <-> GoJSON.Valid_event event = true).
Proof.
  intros Hfits Hhandler. cbv zeta.
  destruct (JSONFacts.Unmarshal_Marshal event Hfits)
    as (payload & Hmarshal & Hunmarshal).
  assert (Hpayload : payload = list_byte_of_string (GoJSON.print_event event)).
  { cbn [json_Marshal GoJSON.codec] in Hmarshal.
    injection Hmarshal as <-. reflexivity. }
  subst payload.
  destruct (publish_then_dispatch (JC := GoJSON.codec) event
              (GoJSON.ToValidUTF8_event event)
              (list_byte_of_string (GoJSON.print_event event))
              topic received_topic h c p c_rx p_rx inbox
              Hmarshal Hunmarshal Hhandler)
    as (Hsent & Hdeliver & Hloop).
  split; [exact Hmarshal |]. split; [exact Hsent |].
  split; [exact Hdeliver |]. split; [exact Hloop |].
  split; [apply JSONFacts.ToValidUTF8_event_fixed
         | apply JSONFacts.ToValidUTF8_event_Valid].
Qed.

(** ** Publishing *)

Section PublishFacts.
Context {B U : Type} `{MC : messaging.MessageClient B}.
Context `{PF : Platform} `{JC : JSONCodec}.

(** C9. [PublishTestEvent] draws the event's id and the reading's id as
    the next two UUIDs of the process and reads the clock three times; it
    builds the synthetic event from them; when encoding fails it returns
    the serialization error and publishes nothing; otherwise it draws a
    third UUID as correlation id, publishes the encoded event with
    content type application/json on the given topic, and returns the bus
    error when publishing fails, and nil, after an info line, when it
    succeeds. *)
Theorem PublishTestEvent_postcondition (topic : string)
    (c : MQTTClient B U) (p : Process U) :
  let n := uuids p in
  let k := clock p in
  let event :=
    synthetic_event (uuid_New n) (uuid_New (S n))
      (time_Now k) (time_Now (S k)) (time_Now (S (S k))) in
  let drawn (m : nat) :=
    mkProcess (environ p) m (S (S (S k))) (goroutines p) (calls p) (user p) in
  match json_Marshal event with
  | inl err =>
      PublishTestEvent topic (c, p)
      = (Ret (Some (fmt_Errorf "序列化事件失败: " err)), (c, drawn (S (S n))))
  | inr payload =>
      let sent :=
        types.mkEnvelope EmptyString (uuid_New (S (S n))) payload
          "application/json" in
      match messaging.Publish sent topic (messageBus c) with
      | (Some err, b) =>
          PublishTestEvent topic (c, p)
          = (Ret (Some (fmt_Errorf "发布消息失败: " err)),
             (set_messageBus b c, drawn (S (S (S n)))))
      | (None, b) =>
          PublishTestEvent topic (c, p)
          = (Ret None,
             (set_logger
                (logger c
                 ++ [ Info ("成功发布测试事件到主题 " +:+ topic
                              +:+ ", 事件ID: " +:+ uuid_New n) ])
                (set_messageBus b c),
              drawn (S (S (S n)))))
      end
  end.
Proof.
  cbv zeta. unfold PublishTestEvent, synthetic_event, synthetic_reading.
  run. setters.
  destruct (json_Marshal _) as [err | payload]; [reflexivity |].
  run. setters.
  destruct (messaging.Publish _ topic (messageBus c)) as [[err |] b];
    reflexivity.
Qed.

(** The identifiers of one call are fresh when the UUID source never
    repeats itself: they differ from one another and from every UUID
    drawn before. *)
Remark drawn_uuids_are_fresh (n : nat) :
  (forall i j, uuid_New i = uuid_New j -> i = j) ->
  uuid_New n <> uuid_New (S n) /\
  uuid_New n <> uuid_New (S (S n)) /\
  uuid_New (S n) <> uuid_New (S (S n)) /\
  forall i, (i < n)%nat ->
    uuid_New i <> uuid_New n /\
    uuid_New i <> uuid_New (S n) /\
    uuid_New i <> uuid_New (S (S n)).
Proof.
  intros Hinj.
  repeat split; intros Heq; apply Hinj in Heq; lia.
Qed.

(** C10. Neither publishing call looks at the client's life cycle: each
    returns, never panics or waits; it returns an error exactly when the
    encoding fails or the bus's [Publish] reports one; and what it
    returns is the same whatever the stop channel, the wait group, the
    log, the configuration, the callback and the goroutines are. *)
Theorem publish_has_no_lifecycle_precondition (event : dtos.Event.t)
    (topic : string) (c : MQTTClient B U) (p : Process U) :
  let sent (m : nat) (payload : list Byte.byte) :=
    types.mkEnvelope EmptyString (uuid_New m) payload "application/json" in
  let answers (e : dtos.Event.t) (m : nat) : option error * option error :=
    match json_Marshal e with
    | inl err => (Some err, None)
    | inr payload =>
        (None, fst (messaging.Publish (sent m payload) topic (messageBus c)))
    end in
  let test_event :=
    synthetic_event (uuid_New (uuids p)) (uuid_New (S (uuids p)))
      (time_Now (clock p)) (time_Now (S (clock p)))
      (time_Now (S (S (clock p)))) in
  let other cfg lg closed n h gs :=
    (mkClient cfg lg (messageBus c) closed n h, set_goroutines gs p) in
  fst (PublishEvent event topic (c, p))
    = Ret (publish_result (fst (answers event (uuids p)))
                          (snd (answers event (uuids p)))) /\
  fst (PublishTestEvent topic (c, p))
    = Ret (publish_result (fst (answers test_event (S (S (uuids p)))))
                          (snd (answers test_event (S (S (uuids p)))))) /\
  (forall e m,
     publish_result (fst (answers e m)) (snd (answers e m)) <> None <->
     fst (answers e m) <> None \/ snd (answers e m) <> None) /\
  (forall cfg lg closed n h gs,
     fst (PublishEvent event topic (other cfg lg closed n h gs))
       = fst (PublishEvent event topic (c, p)) /\
     fst (PublishTestEvent topic (other cfg lg closed n h gs))
       = fst (PublishTestEvent topic (c, p))).
Proof.
  cbv zeta.
  assert (Hevent : forall st : St B U,
    fst (PublishEvent event topic st)
    = Ret (match json_Marshal event with
           | inl err => Some (fmt_Errorf "序列化事件失败: " err)
           | inr payload =>
               match fst (messaging.Publish
                            (types.mkEnvelope EmptyString
                               (uuid_New (uuids (snd st))) payload
                               "application/json") topic
                            (messageBus (fst st))) with
               | Some err => Some (fmt_Errorf "发布消息失败: " err)
               | None => None
               end
           end)).
  { intros st. unfold PublishEvent.
    destruct (json_Marshal event) as [err | payload]; [reflexivity |].
    run. destruct (messaging.Publish _ topic _) as [[err |] b]; reflexivity. }
  assert (Htest : forall st : St B U,
    fst (PublishTestEvent topic st)
    = Ret (match json_Marshal
                   (synthetic_event (uuid_New (uuids (snd st)))
                      (uuid_New (S (uuids (snd st))))
                      (time_Now (clock (snd st)))
                      (time_Now (S (clock (snd st))))
                      (time_Now (S (S (clock (snd st)))))) with
           | inl err => Some (fmt_Errorf "序列化事件失败: " err)
           | inr payload =>
               match fst (messaging.Publish
                            (types.mkEnvelope EmptyString
                               (uuid_New (S (S (uuids (snd st))))) payload
                               "application/json") topic
                            (messageBus (fst st))) with
               | Some err => Some (fmt_Errorf "发布消息失败: " err)
               | None => None
               end
           end)).
  { intros [c0 p0]. clear Hevent.
    unfold PublishTestEvent, synthetic_event, synthetic_reading.
    run. setters.
    destruct (json_Marshal _) as [err | payload]; [reflexivity |].
    run. setters.
    destruct (messaging.Publish _ topic (messageBus c0)) as [[err |] b];
      reflexivity. }
  repeat split.
  - rewrite Hevent. clear Hevent Htest. cbn [fst snd].
    destruct (json_Marshal event) as [err | payload]; [reflexivity |].
    cbn [fst snd publish_result].
    destruct (fst _) as [err |]; reflexivity.
  - rewrite Htest. clear Hevent Htest. cbn [fst snd].
    destruct (json_Marshal _) as [err | payload]; [reflexivity |].
    cbn [fst snd publish_result].
    destruct (fst _) as [err |]; reflexivity.
  - clear Hevent Htest.
    destruct (json_Marshal e) as [err | payload]; cbn [fst snd].
    + intros _. left. discriminate.
    + destruct (fst _) as [err |]; cbn [publish_result].
      * intros _. right. discriminate.
      * intros Hnot. contradiction.
  - clear Hevent Htest.
    destruct (json_Marshal e) as [err | payload]; cbn [fst snd].
    + intros _. discriminate.
    + destruct (fst _) as [err |]; cbn [publish_result].
      * intros _. discriminate.
      * intros [Hnot | Hnot]; contradiction.
  - rewrite !Hevent. reflexivity.
  - rewrite !Htest. reflexivity.
Qed.

End PublishFacts.

(** ** Stopping *)

Lemma loops_nonneg (gs : list Goroutine) : 0 <= loops gs.
Proof. induction gs as [| [] gs IH]; cbn [loops]; lia. Qed.

Lemma loops_app (gs1 gs2 : list Goroutine) :
  loops (gs1 ++ gs2)%list = loops gs1 + loops gs2.
Proof. induction gs1 as [| [] gs1 IH]; cbn [loops app]; lia. Qed.

Section JoinFacts.
Context {B U : Type} `{MC : messaging.MessageClient B}.
Context `{PF : Platform} `{JC : JSONCodec}.
#[local] Open Scope list_scope.

(** The dispatch loop taking its stop case, the channel being closed. *)
Lemma handleMessages_stop (c : MQTTClient B U) (p : Process U) :
  stopCh c = true -> 1 <= wg c ->
  handleMessages [RecvStop] (c, p) = (Ret tt, (set_wg (wg c - 1) c, p)).
Proof.
  intros Hclosed Hwg.
  cbn [handleMessages]. run. rewrite Hclosed. run.
  destruct (Z.ltb_spec (wg c - 1) 0) as [Hneg | Hpos]; [lia | reflexivity].
Qed.

(** The publish goroutine told to stop: in both cases [Done] has run. *)
Lemma startPublishing_stop (c : MQTTClient B U) (p : Process U) :
  stopCh c = true -> 1 <= wg c ->
  startPublishing [TickStop] (c, p)
  = (if wrap64 (Interval (config c) * 1000000000) <=? 0
     then Panic "non-positive interval for NewTicker" else Ret tt,
     (set_wg (wg c - 1) c, p)).
Proof.
  intros Hclosed Hwg.
  unfold startPublishing. cbn [publishTicks]. run.
  destruct (wrap64 (Interval (config c) * 1000000000) <=? 0); run.
  - destruct (Z.ltb_spec (wg c - 1) 0) as [Hneg | Hpos]; [lia | reflexivity].
  - rewrite Hclosed. run.
    destruct (Z.ltb_spec (wg c - 1) 0) as [Hneg | Hpos]; [lia | reflexivity].
Qed.

Lemma join_run (gs : list Goroutine) :
  forall (c : MQTTClient B U) (p : Process U) (n : Z),
    stopCh c = true -> 0 <= n -> wg c = n + loops gs ->
    (In go_startPublishing gs -> ticker_starts (config c)) ->
    join gs (c, p) = (Ret tt, (set_wg n c, p)).
Proof.
  induction gs as [| g gs IH]; intros c p n Hclosed Hn Hwg Hticker.
  - cbn [join loops] in *. run. destruct c; cbn in *.
    unfold set_wg; cbn. repeat f_equal. lia.
  - pose proof (loops_nonneg gs) as Hge.
    destruct g; cbn [join loops] in *.
    + unfold mbind at 1, M_bind at 1.
      rewrite handleMessages_stop by (assumption || lia).
      rewrite (IH (set_wg (wg c - 1) c) p n);
        [reflexivity | exact Hclosed | exact Hn | cbn; lia |].
      intros Hin. apply Hticker. right. exact Hin.
    + unfold mbind at 1, M_bind at 1.
      rewrite startPublishing_stop by (assumption || lia).
      assert (Hok : ticker_starts (config c)) by (apply Hticker; left; reflexivity).
      unfold ticker_starts in Hok.
      destruct (Z.leb_spec (wrap64 (Interval (config c) * 1000000000)) 0)
        as [Hbad | _]; [lia |].
      rewrite (IH (set_wg (wg c - 1) c) p n);
        [reflexivity | exact Hclosed | exact Hn | cbn; lia |].
      intros Hin. apply Hticker. right. exact Hin.
    + apply IH; try assumption.
      intros Hin. apply Hticker. right. exact Hin.
Qed.

Lemma join_panics (gs : list Goroutine) :
  forall (c : MQTTClient B U) (p : Process U) (n : Z),
    stopCh c = true -> 0 <= n -> wg c = n + loops gs ->
    In go_startPublishing gs -> ~ ticker_starts (config c) ->
    exists m,
      join gs (c, p)
      = (Panic "non-positive interval for NewTicker", (set_wg m c, p)).
Proof.
  induction gs as [| g gs IH]; intros c p n Hclosed Hn Hwg Hin Hbad.
  - destruct Hin.
  - pose proof (loops_nonneg gs) as Hge.
    destruct g; cbn [join loops] in *.
    + destruct Hin as [Heq | Hin]; [discriminate Heq |].
      unfold mbind at 1, M_bind at 1.
      rewrite handleMessages_stop by (assumption || lia).
      destruct (IH (set_wg (wg c - 1) c) p n) as [m Hm];
        [exact Hclosed | exact Hn | cbn; lia | exact Hin | exact Hbad |].
      exists m. rewrite Hm. reflexivity.
    + unfold mbind at 1, M_bind at 1.
      rewrite startPublishing_stop by (assumption || lia).
      unfold ticker_starts in Hbad.
      destruct (Z.leb_spec (wrap64 (Interval (config c) * 1000000000)) 0)
        as [_ | Hok]; [| lia].
      exists (wg c - 1). reflexivity.
    + destruct Hin as [Heq | Hin]; [discriminate Heq |].
      apply (IH c p n); assumption.
Qed.

Lemma Stop_on_closed (st : St B U) :
  stopCh (fst st) = true ->
  Stop st = (Panic "close of closed channel", st).
Proof.
  intros Hclosed. destruct st as [c p]. cbn [fst] in Hclosed.
  unfold Stop. run. rewrite Hclosed. reflexivity.
Qed.

(** [Stop] on an open channel, up to the join of the goroutines. *)
Lemma Stop_open (c : MQTTClient B U) (p : Process U) :
  stopCh c = false ->
  Stop (c, p)
  = match join (goroutines p)
            (mkClient (config c)
               (logger c
                ++ match fst (messaging.Disconnect (messageBus c)) with
                   | Some err => [Error ("断开消息总线失败: " +:+ err)]
                   | None => []
                   end)
               (snd (messaging.Disconnect (messageBus c))) true (wg c)
               (handler c), p) with
    | (Ret _, (c2, p2)) =>
        if wg c2 =? 0
        then (Ret tt,
              (set_logger (logger c2 ++ [Info "MQTT客户端已停止"]) c2,
               set_goroutines (List.filter is_signal_watcher (goroutines p2))
                 p2))
        else (Blocked,
              (c2,
               set_goroutines (List.filter is_signal_watcher (goroutines p2))
                 p2))
    | (Panic msg, st') => (Panic msg, st')
    | (Blocked, st') => (Blocked, st')
    end.
Proof.
  intros Hopen. unfold Stop, wg_Wait, fmt_Errorf. run. rewrite Hopen.
  run. setters.
  destruct (messaging.Disconnect (messageBus c)) as [[err |] b];
    run; setters; rewrite ?app_nil_r;
    destruct (join (goroutines p) _) as [[[] | msg |] [c2 p2]];
    run; setters; try reflexivity;
    destruct (wg c2 =? 0); reflexivity.
Qed.

End JoinFacts.

Section StopFacts.
Context {B U : Type} `{MC : messaging.MessageClient B}.
Context `{PF : Platform} `{JC : JSONCodec}.
#[local] Open Scope list_scope.

(** C1 fails on the code. For a client that [Start] has started, the first
    [Stop] closes the stop channel and disconnects the bus once; it
    returns, having joined the loops, whenever the publish loop, if there
    is one, could make its ticker, and ends with that loop's panic when
    it could not; and the second [Stop] panics on closing the closed
    channel, before it reaches [Disconnect] and leaving the state as the
    first call left it. *)
Theorem second_Stop_panics (c0 : MQTTClient B U) (p0 : Process U)
    (st : St B U) :
  stopCh c0 = false ->
  wg c0 = 0 ->
  goroutines p0 = [] ->
  Start (c0, p0) = (Ret None, st) ->
  exists o st1,
    Stop st = (o, st1) /\
    ((Publish (config c0) = true -> ticker_starts (config c0)) ->
     o = Ret tt) /\
    (Publish (config c0) = true -> ~ ticker_starts (config c0) ->
     o = Panic "non-positive interval for NewTicker") /\
    stopCh (fst st1) = true /\
    messageBus (fst st1) = snd (messaging.Disconnect (messageBus (fst st))) /\
    Stop st1 = (Panic "close of closed channel", st1).
Proof.
  intros Hopen Hwg Hgs Hstart.
  destruct c0 as [cfg lg bus closed n h], p0 as [env us ck gs cs u].
  cbn in Hopen, Hwg, Hgs. subst closed n gs.
  unfold Start in Hstart. run. setters.
  destruct (messaging.Connect bus) as [[err |] b1];
    [discriminate Hstart |].
  setters.
  destruct (messaging.Subscribe _ _ b1) as [[err |] b2];
    [discriminate Hstart |].
  setters.
  assert (Hst : st = snd (Ret (@None error), st)) by reflexivity.
  rewrite <- Hstart in Hst. clear Hstart.
  destruct (Publish cfg) eqn:Hpub; run; setters; subst st;
    rewrite Stop_open by reflexivity; setters.
  - destruct (Z.lt_ge_cases 0 (wrap64 (Interval cfg * 1000000000)))
      as [Hok | Hbad].
    + rewrite (join_run _ _ _ 0);
        [| reflexivity | lia | cbn; lia | intros _; exact Hok].
      cbn. eexists _, _. split; [reflexivity |].
      split; [reflexivity |].
      split; [intros _ Hbad; destruct Hbad; exact Hok |].
      split; [reflexivity |].
      split; [reflexivity |]. apply Stop_on_closed. reflexivity.
    + match goal with
      | |- context [join ?gs (?c1, ?p1)] =>
          destruct (join_panics gs c1 p1 0) as [m Hm];
            [ reflexivity | lia | cbn; lia | right; left; reflexivity
            | unfold ticker_starts; cbn [config Interval]; lia
            | rewrite Hm ]
      end.
      eexists _, _. split; [reflexivity |].
      split; [intros Hstarts; specialize (Hstarts eq_refl);
              unfold ticker_starts in Hstarts; cbn in Hstarts; lia |].
      split; [reflexivity |].
      split; [reflexivity |]. split; [reflexivity |].
      apply Stop_on_closed. reflexivity.
  - rewrite (join_run _ _ _ 0);
      [| reflexivity | lia | cbn; lia
       | intros [Heq | [Heq | []]]; discriminate Heq].
    cbn. eexists _, _. split; [reflexivity |].
    split; [reflexivity |].
    split; [intros Hpub'; discriminate Hpub' |].
    split; [reflexivity |].
    split; [reflexivity |]. apply Stop_on_closed. reflexivity.
Qed.

End StopFacts.

(** ** The client on the sample process and the in-memory bus *)

Example sample_client_constructed :
  sample_New EmptyString env_unrelated = (inr sample_client, sample_process).
Proof. vm_compute. reflexivity. Qed.

Lemma content_type_gate_witness :
  types.ContentType text_plain_envelope <> "application/json" /\
  calls (snd (snd (handleMessage (JC := WireJSON.codec) text_plain_envelope
                     (sample_client, sample_process)))) = [] /\
  user (snd (snd (handleMessage (JC := WireJSON.codec) text_plain_envelope
                    (sample_client, sample_process)))) = [] /\
  logger (fst (snd (handleMessage (JC := WireJSON.codec) text_plain_envelope
                      (sample_client, sample_process))))
  = [ Info "收到消息 - 主题: edgex/events/ns/dev, 关联ID: c-1";
      Error "无效的内容类型: 收到 text/plain, 期望 application/json" ].
Proof.
  assert (Hct : types.ContentType text_plain_envelope <> "application/json")
    by (vm_compute; discriminate).
  destruct (content_type_gate (JC := WireJSON.codec) text_plain_envelope []
              sample_client sample_process Hct)
    as (Hstep & Hcalls & Huser & _ & _).
  split; [exact Hct |].
  rewrite Hcalls, Huser, Hstep.
  repeat split; vm_compute; reflexivity.
Defined.

Lemma publish_dispatch_roundtrip_witness :
  exists sent,
    FakeBus.received
      (messageBus (fst (snd (PublishEvent (MC := FakeBus.client)
                               (PF := Sample.platform) (JC := GoJSON.codec)
                               Sample.event_E2 "edgex/events/test"
                               (sample_client, sample_process)))))
    = [FakeBus.Publish sent "edgex/events/test"] /\
    types.ContentType sent = "application/json" /\
    GoJSON.Valid_event Sample.event_E2 = true /\
    user (snd (snd (handleMessage (JC := GoJSON.codec)
                      (received_on "edgex/events/ns/dev" sent)
                      (sample_client, sample_process))))
    = [("edgex/events/ns/dev", Sample.event_E2)].
Proof.
  assert (Hvalid : GoJSON.Valid_event Sample.event_E2 = true)
    by (vm_compute; reflexivity).
  destruct (publish_dispatch_roundtrip (MC := FakeBus.client)
              (PF := Sample.platform) Sample.event_E2
              "edgex/events/test" "edgex/events/ns/dev" Sample.collect
              sample_client sample_process sample_client sample_process [])
    as (_ & Hsent & Hdeliver & _ & Hsame).
  - vm_compute. reflexivity.
  - reflexivity.
  - eexists. rewrite Hsent, Hdeliver, (proj2 Hsame Hvalid).
    split; [vm_compute; reflexivity |].
    split; [reflexivity |].
    split; [exact Hvalid |].
    vm_compute. reflexivity.
Defined.

Lemma second_Stop_panics_witness :
  exists st1,
    Stop (MC := FakeBus.client) (PF := Sample.platform)
         (JC := WireJSON.codec) (snd sample_Start) = (Ret tt, st1) /\
    FakeBus.count_Disconnect (messageBus (fst st1)) = 1%nat /\
    Stop (MC := FakeBus.client) (PF := Sample.platform)
         (JC := WireJSON.codec) st1
    = (Panic "close of closed channel", st1).
Proof.
  destruct (second_Stop_panics (MC := FakeBus.client) (PF := Sample.platform)
              (JC := WireJSON.codec) sample_client sample_process
              (snd sample_Start))
    as (o & st1 & Hfirst & Hreturns & _ & _ & Hbus & Hsecond).
  - reflexivity.
  - reflexivity.
  - reflexivity.
  - vm_compute. reflexivity.
  - exists st1. rewrite Hreturns in Hfirst by (intros Hpub; discriminate Hpub).
    split; [exact Hfirst |]. split; [| exact Hsecond].
    rewrite Hbus. vm_compute. reflexivity.
Defined.

(** What [receive-test] does when SIGINT arrives: the signal watcher of
    the client and [main] both call [Stop]. *)
Example signal_watcher_and_main_both_Stop :
  fst (receive_test_on_signal (MC := FakeBus.client) (PF := Sample.platform)
         (JC := WireJSON.codec) (snd sample_Start))
  = Panic "close of closed channel".
Proof. vm_compute. reflexivity. Qed.

Example Start_on_failing_Connect :
  let bus := FakeBus.failing (Some "connection refused") None None None
               sample_bus in
  let r := Start (MC := FakeBus.client)
             (set_messageBus bus sample_client, sample_process) in
  fst r = Ret (Some "连接消息总线失败: connection refused") /\
  FakeBus.received (messageBus (fst (snd r))) = [FakeBus.Connect] /\
  goroutines (snd (snd r)) = [].
Proof. vm_compute. repeat split; reflexivity. Qed.

Example Start_on_failing_Subscribe :
  let bus := FakeBus.failing None (Some "not authorized") None None
               sample_bus in
  let r := Start (MC := FakeBus.client)
             (set_messageBus bus sample_client, sample_process) in
  fst r = Ret (Some "订阅消息失败: not authorized") /\
  goroutines (snd (snd r)) = [] /\ wg (fst (snd r)) = 0.
Proof. vm_compute. repeat split; reflexivity. Qed.

Example Start_spawns :
  fst sample_Start = Ret None /\
  goroutines (snd (snd sample_Start)) = [go_handleMessages; go_handleSignals] /\
  wg (fst (snd sample_Start)) = 1.
Proof. vm_compute. repeat split; reflexivity. Qed.

Example PublishTestEvent_on_sample :
  let r := PublishTestEvent (MC := FakeBus.client) (PF := Sample.platform)
             (JC := WireJSON.codec) "edgex/events/test"
             (sample_client, sample_process) in
  fst r = Ret None /\
  exists payload,
    FakeBus.received (messageBus (fst (snd r)))
    = [ FakeBus.Publish
          (types.mkEnvelope EmptyString "7c9e6679-7425-40de-944b-3" payload
             "application/json") "edgex/events/test" ] /\
    @json_Unmarshal WireJSON.codec payload
    = inr (synthetic_event "7c9e6679-7425-40de-944b-1"
             "7c9e6679-7425-40de-944b-2" (Sample.now 0) (Sample.now 1)
             (Sample.now 2)).
Proof.
  cbv zeta. split; [vm_compute; reflexivity |].
  eexists. split; vm_compute; reflexivity.
Qed.

(** * Further properties of the loader and of the constructor *)

Lemma Config_ext (a b : Config) :
  Host (Broker a) = Host (Broker b) ->
  Port (Broker a) = Port (Broker b) ->
  Protocol (Broker a) = Protocol (Broker b) ->
  Type_ a = Type_ b -> Topic a = Topic b -> ClientID a = ClientID b ->
  Username a = Username b -> Password a = Password b ->
  Publish a = Publish b -> Interval a = Interval b ->
  LogLevel a = LogLevel b -> EnvPrefix a = EnvPrefix b ->
  a = b.
Proof.
  destruct a as [[ha pa ra] ta oa ca ua wa ba ia la ea],
           b as [[hb pb rb] tb ob cb ub wb bb ib lb eb].
  cbn. intros. subst. reflexivity.
Qed.

Lemma overlay_twice prior v : overlay (overlay prior v) v = overlay prior v.
Proof. unfold overlay. destruct (String.eqb v EmptyString); reflexivity. Qed.

Lemma scanned_or_twice `{PF : Platform} prior v :
  scanned_or (scanned_or prior v) v = scanned_or prior v.
Proof.
  unfold scanned_or. destruct (String.eqb v EmptyString); [reflexivity |].
  destruct (scan_d v); reflexivity.
Qed.

(** X1. Applying the environment a second time changes nothing: a
    configuration that went through [loadEnvOverrides] is a fixed point
    of it, for every environment and every prior configuration. *)
Theorem loadEnvOverrides_idempotent `{PF : Platform}
    (environ : gmap string string) (cfg : Config) :
  loadEnvOverrides environ (loadEnvOverrides environ cfg)
  = loadEnvOverrides environ cfg.
Proof.
  apply Config_ext;
    rewrite ?loadEnv_Host, ?loadEnv_Port, ?loadEnv_Protocol, ?loadEnv_Type,
      ?loadEnv_Topic, ?loadEnv_ClientID, ?loadEnv_Username,
      ?loadEnv_Password, ?loadEnv_Publish, ?loadEnv_Interval,
      ?loadEnv_LogLevel, ?loadEnv_EnvPrefix;
    rewrite ?overlay_twice, ?scanned_or_twice; try reflexivity.
  rewrite <- orb_assoc, orb_diag. reflexivity.
Qed.

(** X2. The loader reads nothing but the eleven variables named by the
    configuration's prefix: two environments that agree on them give the
    same configuration, whatever else they hold. *)
Theorem loadEnvOverrides_reads_only_prefixed `{PF : Platform}
    (env1 env2 : gmap string string) (cfg : Config) :
  Forall (fun suffix =>
            os_Getenv env1 (EnvPrefix cfg +:+ suffix)
            = os_Getenv env2 (EnvPrefix cfg +:+ suffix)) recognized ->
  loadEnvOverrides env1 cfg = loadEnvOverrides env2 cfg.
Proof.
  intros Hall. unfold recognized in Hall.
  repeat match type of Hall with
         | Forall _ (_ :: _) =>
             let Hv := fresh "Hv" in
             apply Forall_cons in Hall as [Hv Hall]
         end.
  apply Config_ext;
    rewrite ?loadEnv_Host, ?loadEnv_Port, ?loadEnv_Protocol, ?loadEnv_Type,
      ?loadEnv_Topic, ?loadEnv_ClientID, ?loadEnv_Username,
      ?loadEnv_Password, ?loadEnv_Publish, ?loadEnv_Interval,
      ?loadEnv_LogLevel, ?loadEnv_EnvPrefix;
    congruence.
Qed.

Lemma loadEnvOverrides_reads_only_prefixed_witness :
  env_overrides <> <[ "HOME" := "/root" ]> env_overrides /\
  loadEnvOverrides (H := Sample.platform) env_overrides (defaultConfig "0")
  = loadEnvOverrides (H := Sample.platform)
      (<[ "HOME" := "/root" ]> env_overrides) (defaultConfig "0").
Proof.
  split.
  - intros Heq.
    assert (Hlook : env_overrides !! "HOME"
                    = (<[ "HOME" := "/root" ]> env_overrides) !! "HOME")
      by (rewrite <- Heq; reflexivity).
    vm_compute in Hlook. discriminate Hlook.
  - apply (loadEnvOverrides_reads_only_prefixed (PF := Sample.platform)).
    unfold recognized. repeat constructor.
Defined.

(** X3. The options handed to the bus client: the client id always, the
    user name and the password exactly when they are not empty, and no
    other key; host, port, protocol and type are the configuration's. *)
Theorem busConfigOf_options (cfg : Config) :
  let opts := types.Optional (busConfigOf cfg) in
  opts !! "ClientId" = Some (ClientID cfg) /\
  opts !! "Username"
    = (if String.eqb (Username cfg) EmptyString then None
       else Some (Username cfg)) /\
  opts !! "Password"
    = (if String.eqb (Password cfg) EmptyString then None
       else Some (Password cfg)) /\
  (forall k, k <> "ClientId" -> k <> "Username" -> k <> "Password" ->
             opts !! k = None) /\
  types.Host (types.Broker (busConfigOf cfg)) = Host (Broker cfg) /\
  types.Port (types.Broker (busConfigOf cfg)) = Port (Broker cfg) /\
  types.Protocol (types.Broker (busConfigOf cfg)) = Protocol (Broker cfg) /\
  types.Type_ (busConfigOf cfg) = Type_ cfg.
Proof.
  cbv zeta. unfold busConfigOf.
  destruct (String.eqb (Username cfg) EmptyString),
           (String.eqb (Password cfg) EmptyString);
    cbn [negb types.Optional types.Broker types.Type_ types.Host types.Port
         types.Protocol];
    repeat split;
    try (intros k Hc Hu Hp);
    repeat first
      [ rewrite lookup_insert_eq
      | rewrite lookup_insert_ne by congruence
      | rewrite lookup_singleton_eq
      | rewrite lookup_singleton_ne by congruence ];
    reflexivity.
Qed.

(** * Further properties of the dispatch loop *)

Section DispatchLoop.
Context {B U : Type} `{JC : JSONCodec}.
#[local] Open Scope list_scope.

Lemma log_extended_refl (c : MQTTClient B U) : log_extended c c.
Proof.
  unfold log_extended. repeat split.
  exists []. rewrite app_nil_r. reflexivity.
Qed.

Lemma log_extended_trans (c1 c2 c3 : MQTTClient B U) :
  log_extended c1 c2 -> log_extended c2 c3 -> log_extended c1 c3.
Proof.
  intros (Hc & Hb & Hs & Hh & l1 & Hl1) (Hc' & Hb' & Hs' & Hh' & l2 & Hl2).
  unfold log_extended. repeat split; try congruence.
  exists (l1 ++ l2)%list. rewrite Hl2, Hl1, <- app_assoc. reflexivity.
Qed.

Lemma log_extended_append (c : MQTTClient B U) (lines : list LogEntry) :
  log_extended c (set_logger (logger c ++ lines) c).
Proof. unfold log_extended. repeat split. exists lines. reflexivity. Qed.

Ltac log_ext :=
  unfold log_extended;
  cbn [config messageBus stopCh handler logger];
  rewrite <- ?app_assoc;
  repeat split;
  first [ assumption | symmetry; assumption | eexists; reflexivity ].

(** One envelope: the loop body returns, extends the log, and calls the
    callback exactly when there is one and the envelope decodes. *)
Lemma handleMessage_step (msg : types.MessageEnvelope)
    (c : MQTTClient B U) (p : Process U) :
  exists c' p',
    handleMessage msg (c, p) = (Ret tt, (c', p')) /\
    log_extended c c' /\ wg c' = wg c /\
    callback_only p p' /\
    calls p' = calls p ++ deliveries (handler c) [RecvMsg msg] /\
    user p' = apply_handler (handler c)
                (deliveries (handler c) [RecvMsg msg]) (user p).
Proof.
  unfold deliveries. cbn [before_stop accepted].
  unfold handleMessage, decodes. run.
  destruct (String.eqb (types.ContentType msg) "application/json");
    cbn [negb].
  - destruct (json_Unmarshal (types.Payload msg)) as [err | event].
    + run. setters. eexists _, p. split; [reflexivity |].
      split; [log_ext |].
      split; [reflexivity |]. split; [repeat split |].
      destruct (handler c); cbn; rewrite app_nil_r; split; reflexivity.
    + run. setters. destruct (handler c) as [h |] eqn:Hh.
      * run. setters. eexists _, _. split; [reflexivity |].
        split; [log_ext |].
        repeat split.
      * eexists _, p. split; [reflexivity |].
        split; [log_ext |].
        split; [reflexivity |]. split; [repeat split |].
        cbn. rewrite app_nil_r. split; reflexivity.
  - run. setters. eexists _, p. split; [reflexivity |].
    split; [log_ext |].
    split; [reflexivity |]. split; [repeat split |].
    destruct (handler c); cbn; rewrite app_nil_r; split; reflexivity.
Qed.

Lemma deliveries_cons_msg (h : option (@MessageHandler U))
    (msg : types.MessageEnvelope) (inbox : list Recv) :
  deliveries h (RecvMsg msg :: inbox)
  = deliveries h [RecvMsg msg] ++ deliveries h inbox.
Proof.
  unfold deliveries. destruct h; [| reflexivity].
  cbn [before_stop accepted]. destruct (decodes msg); reflexivity.
Qed.

Lemma apply_handler_app (h : option (@MessageHandler U))
    (ds1 ds2 : list (string * dtos.Event.t)) (u : U) :
  apply_handler h (ds1 ++ ds2) u = apply_handler h ds2 (apply_handler h ds1 u).
Proof. unfold apply_handler. destruct h; [apply fold_left_app | reflexivity]. Qed.

(** The whole run of the loop on an inbox. *)
Lemma handleMessages_run (inbox : list Recv) :
  forall (c : MQTTClient B U) (p : Process U),
  exists c' p',
    handleMessages inbox (c, p)
    = (stop_outcome (has_stop inbox) (stopCh c) (wg c), (c', p')) /\
    log_extended c c' /\
    wg c' = (match stop_outcome (has_stop inbox) (stopCh c) (wg c) with
             | Ret _ => wg c - 1
             | _ => wg c
             end) /\
    callback_only p p' /\
    calls p' = calls p ++ deliveries (handler c) inbox /\
    user p' = apply_handler (handler c) (deliveries (handler c) inbox) (user p).
Proof.
  induction inbox as [| r inbox IH]; intros c p.
  - exists c, p. cbn [handleMessages has_stop]. unfold stop_outcome.
    cbn [andb]. run. split; [reflexivity |].
    split; [apply log_extended_refl |]. split; [reflexivity |].
    split; [repeat split |].
    unfold deliveries. destruct (handler c); cbn; rewrite app_nil_r;
      split; reflexivity.
  - destruct r as [err | msg |].
    + cbn [handleMessages has_stop]. run. setters.
      destruct (IH (set_logger
                      (logger c ++ [Error (fmt_Errorf "接收消息错误: " err)]) c)
                   p)
        as (c' & p' & Hrun & Hlog & Hwg & Hp & Hcalls & Huser).
      setters. exists c', p'. rewrite Hrun.
      split; [reflexivity |].
      split; [eapply log_extended_trans;
                [apply (log_extended_append c) | exact Hlog] |].
      split; [exact Hwg |]. split; [exact Hp |].
      unfold deliveries in *. cbn [before_stop accepted].
      split; assumption.
    + cbn [handleMessages has_stop].
      destruct (handleMessage_step msg c p)
        as (c1 & p1 & Hstep & Hlog1 & Hwg1 & Hp1 & Hcalls1 & Huser1).
      unfold mbind at 1, M_bind at 1. rewrite Hstep.
      destruct (IH c1 p1) as (c' & p' & Hrun & Hlog & Hwg & Hp & Hcalls & Huser).
      pose proof Hlog1 as (Hcfg1 & Hbus1 & Hstop1 & Hh1 & _).
      rewrite Hstop1, Hwg1, Hh1 in *.
      exists c', p'. split; [exact Hrun |].
      split; [eapply log_extended_trans; eassumption |].
      split; [exact Hwg |].
      split.
      { destruct Hp1 as (He1 & Hu1 & Hk1 & Hg1), Hp as (He & Hu & Hk & Hg).
        repeat split; congruence. }
      rewrite deliveries_cons_msg, apply_handler_app.
      rewrite Hcalls, Hcalls1, Huser, Huser1, app_assoc.
      split; reflexivity.
    + exists (match stop_outcome true (stopCh c) (wg c) with
              | Ret _ => set_wg (wg c - 1) c
              | _ => c
              end), p.
      cbn [handleMessages has_stop]. unfold stop_outcome. run.
      destruct (stopCh c) eqn:Hclosed; cbn [andb]; run.
      * destruct (wg c - 1 <? 0); run; setters.
        all: split; [reflexivity |].
        all: split; [unfold log_extended; setters; repeat split;
                     try assumption; exists []; rewrite app_nil_r;
                     reflexivity |].
        all: split; [reflexivity |]. all: split; [repeat split |].
        all: unfold deliveries; destruct (handler c); cbn;
          rewrite app_nil_r; split; reflexivity.
      * split; [reflexivity |]. split; [apply log_extended_refl |].
        split; [reflexivity |]. split; [repeat split |].
        unfold deliveries; destruct (handler c); cbn;
          rewrite app_nil_r; split; reflexivity.
Qed.

End DispatchLoop.

Section DispatchProperties.
Context {B U : Type} `{JC : JSONCodec}.
#[local] Open Scope list_scope.



(** X6. Decode isolation: an envelope with the JSON content type whose
    payload does not decode is logged as received, the decode error is
    logged, the callback is not invoked, and the loop goes on with the
    envelopes that follow. *)
Theorem decode_error_is_dropped (msg : types.MessageEnvelope) (err : error)
    (inbox : list Recv) (c : MQTTClient B U) (p : Process U) :
  types.ContentType msg = "application/json" ->
  json_Unmarshal (types.Payload msg) = inl err ->
  let c' :=
    set_logger
      (logger c
       ++ [ Info ("收到消息 - 主题: " +:+ types.ReceivedTopic msg
                    +:+ ", 关联ID: " +:+ types.CorrelationID msg);
            Error ("解析事件失败: " +:+ err) ]) c in
  handleMessage msg (c, p) = (Ret tt, (c', p)) /\
  handleMessages (RecvMsg msg :: inbox) (c, p) = handleMessages inbox (c', p).
Proof.
  intros Hct Herr. cbv zeta.
  assert (Hstep :
    handleMessage msg (c, p)
    = (Ret tt,
       (set_logger
          (logger c
           ++ [ Info ("收到消息 - 主题: " +:+ types.ReceivedTopic msg
                        +:+ ", 关联ID: " +:+ types.CorrelationID msg);
                Error ("解析事件失败: " +:+ err) ]) c, p))).
  { unfold handleMessage. rewrite Hct, Herr.
    cbn [String.eqb Ascii.eqb Bool.eqb negb]. run. setters.
    rewrite <- app_assoc. reflexivity. }
  split; [exact Hstep |].
  cbn [handleMessages]. unfold mbind at 1, M_bind at 1.
  rewrite Hstep. reflexivity.
Qed.

End DispatchProperties.

Lemma print_readings_app (readings : list dtos.BaseReading.t)
    (stdout : list string) :
  receive_test.print_readings readings stdout
  = (stdout ++ map receive_test.reading_line readings)%list.
Proof.
  revert stdout. induction readings as [| r readings IH]; intros stdout; cbn.
  - rewrite app_nil_r. reflexivity.
  - rewrite IH, <- app_assoc. reflexivity.
Qed.

(** X7. With the callback of [receive-test], what the dispatch loop
    prints for an inbox is one line per reading of every accepted event,
    events in arrival order and readings in the event's order, appended
    to what was printed before; rejected envelopes print nothing. *)
Theorem receive_test_prints_readings {B : Type} `{JC : JSONCodec}
    (inbox : list Recv) (c : MQTTClient B (list string))
    (p : Process (list string)) :
  handler c = Some receive_test.handler ->
  user (snd (snd (handleMessages inbox (c, p))))
  = (user p
     ++ flat_map (fun d => map receive_test.reading_line
                             (dtos.Event.Readings (snd d)))
          (accepted (before_stop inbox)))%list.
Proof.
  intros Hh.
  destruct (handleMessages_run inbox c p)
    as (c' & p' & Hrun & _ & _ & _ & _ & Huser).
  rewrite Hrun. cbn [fst snd]. rewrite Huser, Hh.
  unfold deliveries, apply_handler.
  generalize (user p) as stdout.
  induction (accepted (before_stop inbox)) as [| d ds IH]; intros stdout.
  - cbn. rewrite app_nil_r. reflexivity.
  - cbn [fold_left flat_map]. rewrite IH.
    unfold receive_test.handler. rewrite print_readings_app, <- app_assoc.
    reflexivity.
Qed.

(** * Further properties of the life cycle *)

Section LifeCycle.
Context {B U : Type} `{MC : messaging.MessageClient B}.
Context `{PF : Platform} `{JC : JSONCodec}.
#[local] Open Scope list_scope.


(** X9. [Start] never panics or waits, never touches the stop channel,
    and keeps the wait group equal to the number of running loops,
    whether it fails at [Connect], fails at [Subscribe] or succeeds, and
    also when it is called on a client that was started before. *)
Theorem Start_keeps_wait_group_balanced (c : MQTTClient B U) (p : Process U) :
  wg c = loops (goroutines p) ->
  (exists r, fst (Start (c, p)) = Ret r) /\
  wg (fst (snd (Start (c, p)))) = loops (goroutines (snd (snd (Start (c, p))))) /\
  stopCh (fst (snd (Start (c, p)))) = stopCh c.
Proof.
  intros Hwg. unfold Start. run. setters.
  destruct (messaging.Connect (messageBus c)) as [[err |] b1]; cbn [fst snd].
  { split; [eexists; reflexivity |]. split; [exact Hwg | reflexivity]. }
  run. setters.
  destruct (messaging.Subscribe _ _ b1) as [[err |] b2]; cbn [fst snd].
  { split; [eexists; reflexivity |]. split; [exact Hwg | reflexivity]. }
  run. setters.
  destruct (Publish (config c)); run; setters;
    (split; [eexists; reflexivity |]); (split; [| reflexivity]);
    rewrite !loops_app; cbn [loops]; lia.
Qed.

End LifeCycle.

(** * Further properties of publishing *)

Section Publishing.
Context {B U : Type} `{MC : messaging.MessageClient B}.
Context `{PF : Platform} `{JC : JSONCodec}.
#[local] Open Scope list_scope.

(** X10. [PublishEvent]: when the event cannot be encoded it returns
    the serialization error and nothing at all has happened, no UUID is
    drawn and the bus is not called; otherwise it draws one UUID as
    correlation id, hands the bus the encoded event with content type
    application/json and an empty received topic, and returns the bus
    error, or nil after one info line that names the topic and the
    event's id. *)
Theorem PublishEvent_postcondition (event : dtos.Event.t) (topic : string)
    (c : MQTTClient B U) (p : Process U) :
  match json_Marshal event with
  | inl err =>
      PublishEvent event topic (c, p)
      = (Ret (Some ("序列化事件失败: " +:+ err)), (c, p))
  | inr payload =>
      let sent :=
        types.mkEnvelope EmptyString (uuid_New (uuids p)) payload
          "application/json" in
      match messaging.Publish sent topic (messageBus c) with
      | (Some err, b) =>
          PublishEvent event topic (c, p)
          = (Ret (Some ("发布消息失败: " +:+ err)),
             (set_messageBus b c, set_uuids (S (uuids p)) p))
      | (None, b) =>
          PublishEvent event topic (c, p)
          = (Ret None,
             (set_logger
                (logger c
                 ++ [ Info ("成功发布事件到主题 " +:+ topic +:+ ", 事件ID: "
                              +:+ dtos.Event.Id event) ])
                (set_messageBus b c),
              set_uuids (S (uuids p)) p))
      end
  end.
Proof.
  unfold PublishEvent, fmt_Errorf.
  destruct (json_Marshal event) as [err | payload].
  - run. destruct c, p; reflexivity.
  - run. setters.
    destruct (messaging.Publish _ topic (messageBus c)) as [[err |] b];
      reflexivity.
Qed.

Lemma PublishTestEvent_run (topic : string) (c : MQTTClient B U)
    (p : Process U) :
  exists r c' p',
    PublishTestEvent topic (c, p) = (Ret r, (c', p')) /\
    lifecycle_kept (c, p) (c', p') /\
    clock p' = (3 + clock p)%nat /\
    (2 + uuids p <= uuids p' <= 3 + uuids p)%nat.
Proof.
  unfold PublishTestEvent. run. setters.
  destruct (json_Marshal _) as [err | payload].
  - run. eexists _, _, _. split; [reflexivity |].
    unfold lifecycle_kept. cbn. repeat split; lia.
  - run. setters.
    destruct (messaging.Publish _ topic (messageBus c)) as [[err |] b];
      eexists _, _, _; (split; [reflexivity |]);
      unfold lifecycle_kept; cbn; repeat split; lia.
Qed.

(** X11. Neither publishing call touches the life cycle: the
    configuration, the stop channel, the wait group, the callback, the
    environment, the goroutines, the record of callback invocations and
    the user's state are after the call what they were before it. *)
Theorem publishing_keeps_lifecycle (event : dtos.Event.t) (topic : string)
    (st : St B U) :
  lifecycle_kept st (snd (PublishEvent event topic st)) /\
  lifecycle_kept st (snd (PublishTestEvent topic st)).
Proof.
  destruct st as [c p]. split.
  - unfold PublishEvent.
    destruct (json_Marshal event) as [err | payload].
    + run. unfold lifecycle_kept. repeat split.
    + run. setters.
      destruct (messaging.Publish _ topic (messageBus c)) as [[err |] b];
        unfold lifecycle_kept; cbn; repeat split.
  - destruct (PublishTestEvent_run topic c p)
      as (r & c' & p' & Hrun & Hkept & _).
    rewrite Hrun. exact Hkept.
Qed.

(** The publish loop from its [select] on. *)
Lemma publishTicks_run (ticks : list Tick) :
  forall (c : MQTTClient B U) (p : Process U),
  exists c' p',
    publishTicks ticks (c, p)
    = (stop_outcome (has_tick_stop ticks) (stopCh c) (wg c), (c', p')) /\
    config c' = config c /\ stopCh c' = stopCh c /\ handler c' = handler c /\
    wg c' = (if has_tick_stop ticks && stopCh c && (0 <=? wg c - 1)
             then wg c - 1 else wg c) /\
    calls p' = calls p /\ user p' = user p /\
    goroutines p' = goroutines p /\
    clock p' = (3 * ticks_before_stop ticks + clock p)%nat.
Proof.
  induction ticks as [| t ticks IH]; intros c p.
  - exists c, p. cbn. unfold stop_outcome. cbn. run.
    repeat split.
  - destruct t.
    + cbn [publishTicks has_tick_stop ticks_before_stop].
      destruct (PublishTestEvent_run "edgex/events/test" c p)
        as (r & c1 & p1 & Hrun & Hkept & Hclock & _).
      destruct Hkept as (Hcfg & Hstop & Hwg & Hh & _ & Hgs & Hcalls & Huser).
      cbn [fst snd] in *.
      unfold mbind at 1, M_bind at 1. rewrite Hrun. cbv beta iota.
      destruct r as [err |]; run; setters;
        match goal with
        | |- context [publishTicks ticks (?c2, p1)] =>
            destruct (IH c2 p1)
              as (c' & p' & Hrest & Hcfg' & Hstop' & Hh' & Hwg' & Hcalls'
                  & Huser' & Hgs' & Hclock')
        end;
        setters; exists c', p'; rewrite Hrest;
        rewrite ?Hstop, ?Hwg in *;
        repeat split; try congruence; lia.
    + exists (if stopCh c && (0 <=? wg c - 1) then set_wg (wg c - 1) c else c), p.
      cbn [publishTicks has_tick_stop ticks_before_stop]. unfold stop_outcome.
      run. destruct (stopCh c) eqn:Hclosed; cbn [andb]; run.
      * destruct (Z.ltb_spec (wg c - 1) 0) as [Hneg | Hpos];
          destruct (Z.leb_spec 0 (wg c - 1)) as [Hle | Hgt]; try lia;
          run; setters; repeat split; assumption.
      * repeat split. exact Hclosed.
Qed.

(** X12. The publish loop ends through its stop case only. On a tick it
    publishes one test event on edgex/events/test; when that fails, to
    encode or to publish, it logs the error it was returned as one error
    line, and in either case it takes the next tick. It returns exactly
    when a stop is among its ticks and the stop channel is closed; until
    then it has read the clock three times per tick and has invoked no
    callback. *)
Theorem publishTicks_survives_publish_errors (ticks : list Tick)
    (c : MQTTClient B U) (p : Process U) :
  let st' := snd (publishTicks ticks (c, p)) in
  let published := PublishTestEvent "edgex/events/test" (c, p) in
  fst (publishTicks ticks (c, p))
    = stop_outcome (has_tick_stop ticks) (stopCh c) (wg c) /\
  publishTicks (TickC :: ticks) (c, p)
    = publishTicks ticks
        (match fst published with
         | Ret (Some err) =>
             (set_logger (logger (fst (snd published)) ++ [Error err])
                (fst (snd published)),
              snd (snd published))
         | _ => snd published
         end) /\
  clock (snd st') = (3 * ticks_before_stop ticks + clock p)%nat /\
  calls (snd st') = calls p /\
  user (snd st') = user p /\
  stopCh (fst st') = stopCh c.
Proof.
  cbv zeta.
  destruct (publishTicks_run ticks c p)
    as (c' & p' & Hrun & _ & Hstop & _ & _ & Hcalls & Huser & _ & Hclock).
  rewrite Hrun. cbn [fst snd].
  split; [reflexivity |]. split; [| repeat split; assumption].
  destruct (PublishTestEvent_run "edgex/events/test" c p)
    as (r & c1 & p1 & Hpub & _).
  cbn [publishTicks]. unfold mbind at 1, M_bind at 1.
  rewrite Hpub. cbn [fst snd]. cbv beta iota.
  destruct r as [err |]; run; setters; reflexivity.
Qed.

(** X13. The ticker of the publish loop is made from [publish_interval]
    seconds as 64-bit nanoseconds. The loop starts when that number is
    positive: for 1 to 9223372036 seconds, and also for -18446744073 to
    -9223372037, where the product wraps around to a positive number.
    [time.NewTicker] panics before the first tick when it is not: for
    -9223372036 to 0 seconds, which the loader accepts, and for
    9223372037 to 18446744073, where the product wraps around to a
    negative number. The deferred [Done] has then run: the wait group,
    which counted the goroutine, is one less. *)
Theorem startPublishing_ticker (ticks : list Tick)
    (c : MQTTClient B U) (p : Process U) :
  1 <= wg c ->
  let seconds := Interval (config c) in
  let panicked :=
    (Panic "non-positive interval for NewTicker",
     (set_wg (wg c - 1) c, p)) in
  (1 <= seconds <= 9223372036 ->
   startPublishing ticks (c, p) = publishTicks ticks (c, p)) /\
  (- 9223372036 <= seconds <= 0 ->
   startPublishing ticks (c, p) = panicked) /\
  (9223372037 <= seconds <= 18446744073 ->
   startPublishing ticks (c, p) = panicked) /\
  (- 18446744073 <= seconds <= - 9223372037 ->
   startPublishing ticks (c, p) = publishTicks ticks (c, p)).
Proof.
  intros Hwg. cbv zeta.
  assert (Hcases :
    startPublishing ticks (c, p)
    = if wrap64 (Interval (config c) * 1000000000) <=? 0
      then (Panic "non-positive interval for NewTicker",
            (set_wg (wg c - 1) c, p))
      else publishTicks ticks (c, p)).
  { unfold startPublishing. run.
    destruct (wrap64 (Interval (config c) * 1000000000) <=? 0); run.
    - destruct (Z.ltb_spec (wg c - 1) 0) as [Hneg | Hpos];
        [lia | reflexivity].
    - reflexivity. }
  rewrite Hcases. unfold wrap64.
  repeat split; intros Hrange.
  - rewrite Z.mod_small by lia.
    destruct (Z.leb_spec (Interval (config c) * 1000000000 + 2 ^ 63 - 2 ^ 63) 0);
      [lia | reflexivity].
  - rewrite Z.mod_small by lia.
    destruct (Z.leb_spec (Interval (config c) * 1000000000 + 2 ^ 63 - 2 ^ 63) 0);
      [reflexivity | lia].
  - replace ((Interval (config c) * 1000000000 + 2 ^ 63) mod 2 ^ 64)
      with (Interval (config c) * 1000000000 + 2 ^ 63 - 2 ^ 64).
    + destruct (Z.leb_spec
                  (Interval (config c) * 1000000000 + 2 ^ 63 - 2 ^ 64 - 2 ^ 63)
                  0); [reflexivity | lia].
    + apply Z.mod_unique with (q := 1); lia.
  - replace ((Interval (config c) * 1000000000 + 2 ^ 63) mod 2 ^ 64)
      with (Interval (config c) * 1000000000 + 2 ^ 63 + 2 ^ 64).
    + destruct (Z.leb_spec
                  (Interval (config c) * 1000000000 + 2 ^ 63 + 2 ^ 64 - 2 ^ 63)
                  0); [lia | reflexivity].
    + apply Z.mod_unique with (q := -1); lia.
Qed.

End Publishing.

(** * Further properties of the constructor *)

(** X14. [NewMQTTClient] draws one UUID whatever happens. A
    configuration file that cannot be decoded is fatal, whatever the
    environment holds. A client that is returned is in its initial state
    (stop channel open, wait group at zero, empty log, the given
    callback), its configuration is the file stage overlaid by the
    environment, and its bus client was created from that final
    configuration. *)
Theorem NewMQTTClient_outcomes {B U : Type}
    `{MC : messaging.MessageClient B} `{PF : Platform}
    (configPath : string) (h : option (@MessageHandler U)) (p : Process U) :
  let staged :=
    if String.eqb configPath EmptyString
    then inr (defaultConfig (uuid_New (uuids p)))
    else toml_DecodeFile configPath (defaultConfig (uuid_New (uuids p))) in
  snd (NewMQTTClient configPath h p) = set_uuids (S (uuids p)) p /\
  (forall err, staged = inl err ->
     fst (NewMQTTClient configPath h p) = inl ("读取配置文件失败: " +:+ err)) /\
  (forall c, fst (NewMQTTClient configPath h p) = inr c ->
     stopCh c = false /\ wg c = 0 /\ logger c = [] /\ handler c = h /\
     exists cfg_file,
       staged = inr cfg_file /\
       config c = loadEnvOverrides (environ p) cfg_file /\
       messaging.NewMessageClient (busConfigOf (config c))
       = inr (messageBus c)).
Proof.
  cbv zeta. unfold NewMQTTClient, fmt_Errorf.
  destruct (String.eqb configPath EmptyString); cbn [negb].
  - cbn [environ set_uuids].
    destruct (messaging.NewMessageClient _) as [cause | bus] eqn:Hbus;
      cbn [fst snd].
    + repeat split; [discriminate | discriminate ..].
    + split; [reflexivity |]. split; [discriminate |].
      intros c [= <-]. cbn. repeat split.
      eexists. split; [reflexivity |]. split; [reflexivity | exact Hbus].
  - destruct (toml_DecodeFile configPath _) as [err | cfg_file]; cbn [fst snd].
    + split; [reflexivity |]. split; [intros e [= <-]; reflexivity |].
      discriminate.
    + cbn [environ set_uuids].
      destruct (messaging.NewMessageClient _) as [cause | bus] eqn:Hbus;
        cbn [fst snd].
      * repeat split; [discriminate | discriminate ..].
      * split; [reflexivity |]. split; [discriminate |].
        intros c [= <-]. cbn. repeat split.
        eexists. split; [reflexivity |]. split; [reflexivity | exact Hbus].
Qed.

(** * The further properties on the sample process *)

Lemma decode_error_is_dropped_witness :
  calls (snd (snd (handleMessages (JC := WireJSON.codec)
                     [RecvMsg truncated_envelope; RecvMsg E1_envelope]
                     (sample_client, sample_process))))
  = [("edgex/events/ns/dev", Sample.event_E1)].
Proof.
  destruct (decode_error_is_dropped (JC := WireJSON.codec) truncated_envelope
              "invalid character in JSON input" [RecvMsg E1_envelope]
              sample_client sample_process)
    as [_ Hnext].
  - reflexivity.
  - vm_compute. reflexivity.
  - rewrite Hnext. vm_compute. reflexivity.
Defined.

Lemma receive_test_prints_readings_witness :
  user (snd (snd (handleMessages (JC := WireJSON.codec)
                    [RecvMsg text_plain_envelope; RecvMsg E1_envelope;
                     RecvMsg truncated_envelope]
                    (receive_client, receive_process))))
  = [ "  Reading: Device=dev, Resource=temperature, ValueType=String, Value=42"
      +:+ receive_test.newline ].
Proof.
  rewrite (receive_test_prints_readings (JC := WireJSON.codec)
             [RecvMsg text_plain_envelope; RecvMsg E1_envelope;
              RecvMsg truncated_envelope] receive_client receive_process);
    [| reflexivity].
  vm_compute. reflexivity.
Defined.


Lemma Start_keeps_wait_group_balanced_witness :
  wg (fst (snd (Start (MC := FakeBus.client)
                  (snd (Start (MC := FakeBus.client)
                          (sample_client_every 10, sample_process))))))
  = 4.
Proof.
  pose (st1 := snd (Start (MC := FakeBus.client)
                      (sample_client_every 10, sample_process))).
  destruct (Start_keeps_wait_group_balanced (MC := FakeBus.client)
              (fst st1) (snd st1))
    as (_ & Hwg & _).
  - vm_compute. reflexivity.
  - change (fst st1, snd st1) with st1 in Hwg.
    unfold st1 in Hwg. rewrite Hwg. vm_compute. reflexivity.
Defined.

Lemma startPublishing_ticker_witness :
  let started (seconds : Z) :=
    snd (Start (MC := FakeBus.client)
           (sample_client_every seconds, sample_process)) in
  startPublishing (MC := FakeBus.client) (PF := Sample.platform)
    (JC := WireJSON.codec) [TickC; TickC] (started 0)
  = (Panic "non-positive interval for NewTicker",
     (set_wg 1 (fst (started 0)), snd (started 0))) /\
  fst (startPublishing (MC := FakeBus.client) (PF := Sample.platform)
         (JC := WireJSON.codec) [TickC; TickC] (started 10))
  = Blocked.
Proof.
  cbv zeta. split.
  - pose (st := snd (Start (MC := FakeBus.client)
                       (sample_client_every 0, sample_process))).
    change (startPublishing (MC := FakeBus.client) (PF := Sample.platform)
              (JC := WireJSON.codec) [TickC; TickC] (fst st, snd st)
            = (Panic "non-positive interval for NewTicker",
               (set_wg 1 (fst st), snd st))).
    assert (Hwg : 1 <= wg (fst st)) by (vm_compute; discriminate).
    rewrite (proj1 (proj2 (startPublishing_ticker (MC := FakeBus.client)
                             (PF := Sample.platform) (JC := WireJSON.codec)
                             [TickC; TickC] (fst st) (snd st) Hwg)));
      [reflexivity | vm_compute; split; discriminate].
  - pose (st := snd (Start (MC := FakeBus.client)
                       (sample_client_every 10, sample_process))).
    change (fst (startPublishing (MC := FakeBus.client)
                   (PF := Sample.platform) (JC := WireJSON.codec)
                   [TickC; TickC] (fst st, snd st)) = Blocked).
    assert (Hwg : 1 <= wg (fst st)) by (vm_compute; discriminate).
    rewrite (proj1 (startPublishing_ticker (MC := FakeBus.client)
                      (PF := Sample.platform) (JC := WireJSON.codec)
                      [TickC; TickC] (fst st) (snd st) Hwg));
      [vm_compute; reflexivity | vm_compute; split; discriminate].
Defined.

(** A started client whose interval is zero: its publish goroutine
    panics at [time.NewTicker], and that is how [Stop] ends. *)
Example Stop_with_refused_ticker :
  fst (Stop (MC := FakeBus.client) (PF := Sample.platform)
         (JC := WireJSON.codec)
         (snd (Start (MC := FakeBus.client)
                 (sample_client_every 0, sample_process))))
  = Panic "non-positive interval for NewTicker".
Proof. vm_compute. reflexivity. Qed.

(** Two ticks on a bus that refuses to publish: two attempts, two error
    lines, and the loop still takes its stop. *)
Example failing_publishes_are_logged :
  let c :=
    mkClient (defaultConfig (Sample.uuid 0)) []
      (FakeBus.failing None None (Some "not connected") None sample_bus)
      true 1 (Some Sample.collect) in
  let r :=
    publishTicks (MC := FakeBus.client) (PF := Sample.platform)
      (JC := WireJSON.codec) [TickC; TickC; TickStop] (c, sample_process) in
  fst r = Ret tt /\
  logger (fst (snd r))
  = [ Error "发布消息失败: not connected"; Error "发布消息失败: not connected" ] /\
  length (FakeBus.received (messageBus (fst (snd r)))) = 2%nat.
Proof. vm_compute. repeat split; reflexivity. Qed.

Lemma NewMQTTClient_outcomes_witness :
  fst (sample_New "missing.toml" env_overrides)
  = inl "读取配置文件失败: open missing.toml: no such file or directory".
Proof.
  unfold sample_New.
  rewrite (proj1 (proj2 (NewMQTTClient_outcomes (MC := FakeBus.client)
                           (PF := Sample.platform) "missing.toml"
                           (Some Sample.collect)
                           (Sample.process env_overrides)))
             "open missing.toml: no such file or directory");
    reflexivity.
Defined.

Example zero_interval_from_the_environment :
  exists c,
    fst (sample_New EmptyString env_publish_every_0) = inr c /\
    Publish (config c) = true /\ Interval (config c) = 0.
Proof. eexists. repeat split; vm_compute; reflexivity. Qed.
